(** * apply_plan_changes.py: appending pricing-plan columns to HTML tables

    A shallow embedding of [scripts/apply_plan_changes.py] and the
    properties of its behaviour.

    Conventions of the embedding:
    - a Python [str] is a [string] holding its UTF-8 encoding (the encoding
      of the script's own source file and of every file it reads or writes);
    - a Python [int] is a [Z];
    - a value produced by [json.loads] is a [json];
    - a document handled by BeautifulSoup is a forest of [node]s;
    - in-place mutation of a tag found by [find] is a functional update at
      the first matching position in document order;
    - a file is what the parsers of the script read from its text, and a
      page written back is stored as the tree that parsing its text
      gives.

    What the embedding leaves out:
    - a JSON number that is not an integer;
    - failures of [print], and of [read_text] on a path that names a
      file: both are taken to succeed;
    - of the text [str(soup)] everything but the tree it is parsed to.
      The tree read back keeps the tags, their names and nesting, the
      names and values of the attributes and the texts that are not
      empty.  The order in which the attributes are written and what
      reading does to line ends are not told; the properties stated of
      every page read back speak of tags and their number, of the
      presence of an attribute, and of the attributes and texts the
      script itself sets.  The pages the properties are tried on have
      tags of one attribute at most and texts without a carriage
      return. *)

From Stdlib Require Import ZArith String Ascii List Bool Lia DecimalString.
From Stdlib Require DecimalPos DecimalFacts.
From stdpp Require Import base list option strings gmap.

Set Warnings "-register-all".

Local Open Scope string_scope.
Local Open Scope list_scope.
Local Open Scope Z_scope.

(* ===================================================================== *)
(** * Python built-ins used by the script *)
(* ===================================================================== *)

(** [str(n)] for an [int]. *)
Definition py_str (n : Z) : string := NilZero.string_of_int (Z.to_int n).

(** The digits of a number written least significant first, with a comma
    put in after every complete group of three when more digits follow. *)
Fixpoint group_rev (k : nat) (ds : list ascii) : list ascii :=
  match ds with
  | [] => []
  | d :: ds' =>
      match k with
      | 3%nat => ","%char :: d :: group_rev 1 ds'
      | _ => d :: group_rev (S k) ds'
      end
  end.

Definition group_digits (ds : string) : string :=
  string_of_list_ascii (rev (group_rev 0 (rev (list_ascii_of_string ds)))).

(** [format(n, ',')], which is what [f"{n:,}"] evaluates. *)
Definition py_format_comma (n : Z) : string :=
  (if n <? 0 then "-" else "") +:+ group_digits (py_str (Z.abs n)).

(** A character other than the comma. *)
Definition no_comma (c : ascii) : Prop := Ascii.eqb c "," = false.

(** A text without its commas. *)
Definition ungroup (s : string) : string :=
  string_of_list_ascii
    (List.filter (fun c => negb (Ascii.eqb c ",")) (list_ascii_of_string s)).

(** Reading from the right: after every three characters that are no
    commas stands a comma when more follow; [k] counts the characters
    read since the last comma. *)
Fixpoint grouped_rev (k : nat) (cs : list ascii) : bool :=
  match cs with
  | [] => negb (Nat.eqb k 0)
  | c :: cs' =>
      if Ascii.eqb c "," then Nat.eqb k 3 && grouped_rev 0 cs'
      else Nat.ltb k 3 && grouped_rev (S k) cs'
  end.

Definition thousands_grouped (s : string) : bool :=
  grouped_rev 0 (rev (list_ascii_of_string s)).

(** ** String hashing

    CPython 3 hashes a [str] with SipHash keyed by a secret drawn when the
    interpreter starts (CPython 3.11 and later: SipHash-1-3).  The secret
    is random unless the environment variable PYTHONHASHSEED fixes it. *)

Record hash_secret := HashSecret { k0 : Z; k1 : Z }.

Definition u64 (x : Z) : Z := x mod 2 ^ 64.
Definition rotl (x b : Z) : Z :=
  u64 (Z.lor (Z.shiftl x b) (Z.shiftr x (64 - b))).

Definition sipstate : Type := Z * Z * Z * Z.

(** HALF_ROUND(a,b,c,d,s,t) of pyhash.c; the result is (a,b,c,d). *)
Definition half_round (a b c d s t : Z) : sipstate :=
  let a := u64 (a + b) in
  let c := u64 (c + d) in
  let b := Z.lxor (rotl b s) a in
  let d := Z.lxor (rotl d t) c in
  let a := rotl a 32 in
  (a, b, c, d).

(** SINGLE_ROUND(v0,v1,v2,v3). *)
Definition single_round (v : sipstate) : sipstate :=
  let '(v0, v1, v2, v3) := v in
  let '(v0, v1, v2, v3) := half_round v0 v1 v2 v3 13 16 in
  let '(v2, v1, v0, v3) := half_round v2 v1 v0 v3 17 21 in
  (v0, v1, v2, v3).

(** Little-endian value of a block of bytes. *)
Fixpoint le_word (bs : list Z) : Z :=
  match bs with
  | [] => 0
  | b :: bs' => b + 256 * le_word bs'
  end.

Definition sip_absorb (v : sipstate) (m : Z) : sipstate :=
  let '(v0, v1, v2, v3) := v in
  let '(v0, v1, v2, v3) := single_round (v0, v1, v2, Z.lxor v3 m) in
  (Z.lxor v0 m, v1, v2, v3).

(** The loop over whole 8-byte words, then the last, partial word with
    the length in its top byte. *)
Fixpoint sip_blocks (len : Z) (v : sipstate) (bs : list Z) : sipstate :=
  match bs with
  | b0 :: b1 :: b2 :: b3 :: b4 :: b5 :: b6 :: b7 :: rest =>
      sip_blocks len (sip_absorb v (le_word [b0; b1; b2; b3; b4; b5; b6; b7])) rest
  | tail => sip_absorb v (Z.lor (u64 (Z.shiftl len 56)) (le_word tail))
  end.

Definition siphash13 (key : hash_secret) (bs : list Z) : Z :=
  let v0 := Z.lxor (k0 key) 0x736f6d6570736575 in
  let v1 := Z.lxor (k1 key) 0x646f72616e646f6d in
  let v2 := Z.lxor (k0 key) 0x6c7967656e657261 in
  let v3 := Z.lxor (k1 key) 0x7465646279746573 in
  let '(v0, v1, v2, v3) := sip_blocks (Z.of_nat (length bs)) (v0, v1, v2, v3) bs in
  let v2 := Z.lxor v2 0xff in
  let '(v0, v1, v2, v3) := single_round (single_round (single_round (v0, v1, v2, v3))) in
  Z.lxor (Z.lxor v0 v1) (Z.lxor v2 v3).

Definition bytes_of_string (s : string) : list Z :=
  map (fun a => Z.of_N (N_of_ascii a)) (list_ascii_of_string s).

(** The code points of a UTF-8 encoded text. *)
Fixpoint utf8_decode (bs : list Z) : list Z :=
  match bs with
  | [] => []
  | b0 :: r0 =>
      if b0 <? 0x80 then b0 :: utf8_decode r0
      else
        match r0 with
        | [] => []
        | b1 :: r1 =>
            if b0 <? 0xE0 then
              (Z.land b0 0x1F * 64 + Z.land b1 0x3F) :: utf8_decode r1
            else
              match r1 with
              | [] => []
              | b2 :: r2 =>
                  if b0 <? 0xF0 then
                    (Z.land b0 0x0F * 4096 + Z.land b1 0x3F * 64 + Z.land b2 0x3F)
                      :: utf8_decode r2
                  else
                    match r2 with
                    | [] => []
                    | b3 :: r3 =>
                        (Z.land b0 0x07 * 262144 + Z.land b1 0x3F * 4096
                         + Z.land b2 0x3F * 64 + Z.land b3 0x3F) :: utf8_decode r3
                    end
              end
        end
  end.

(** CPython stores a [str] with 1, 2 or 4 bytes per code point, the
    smallest width that fits its largest code point, and hashes that
    buffer. *)
Definition str_kind (cps : list Z) : nat :=
  if forallb (fun c => c <? 256) cps then 1%nat
  else if forallb (fun c => c <? 65536) cps then 2%nat
  else 4%nat.

Fixpoint le_bytes (width : nat) (c : Z) : list Z :=
  match width with
  | O => []
  | S w => c mod 256 :: le_bytes w (c / 256)
  end.

Definition str_buffer (s : string) : list Z :=
  let cps := utf8_decode (bytes_of_string s) in
  flat_map (le_bytes (str_kind cps)) cps.

(** [hash(s)] for a [str]: a signed 64-bit value, 0 for the empty text
    and never -1. *)
Definition py_hash (key : hash_secret) (s : string) : Z :=
  let buf := str_buffer s in
  match buf with
  | [] => 0
  | _ =>
      let h := siphash13 key buf in
      let x := if h <? 2 ^ 63 then h else h - 2 ^ 64 in
      if x =? -1 then -2 else x
  end.

(** The secret CPython derives from PYTHONHASHSEED=[seed] ([lcg_urandom]
    fills the 24 secret bytes; SipHash uses the first sixteen).  Seed 0
    turns the randomization off: the secret is all zeros. *)
Fixpoint lcg_urandom (n : nat) (x : Z) : list Z :=
  match n with
  | O => []
  | S n' =>
      let x := (x * 214013 + 2531011) mod 2 ^ 32 in
      Z.land (Z.shiftr x 16) 0xff :: lcg_urandom n' x
  end.

Definition secret_of_seed (seed : Z) : hash_secret :=
  if seed =? 0 then HashSecret 0 0
  else
    let bs := lcg_urandom 24 seed in
    HashSecret (le_word (take 8 bs)) (le_word (take 8 (drop 8 bs))).

(** ** Values read by [json.loads]

    Numbers are the integers; a number with a fraction or an exponent
    (a Python [float]) has no counterpart here.  An object is the [dict]
    built from it, each key listed once. *)

Inductive json : Type :=
| JNull
| JBool (b : bool)
| JNum (n : Z)
| JStr (s : string)
| JArr (items : list json)
| JObj (fields : list (string * json)).

(** Truth value of a Python object, as [if], [not] and [or] test it. *)
Definition truthy (v : json) : bool :=
  match v with
  | JNull => false
  | JBool b => b
  | JNum n => negb (n =? 0)
  | JStr s => negb (String.eqb s "")
  | JArr items => match items with [] => false | _ => true end
  | JObj fields => match fields with [] => false | _ => true end
  end.

(** [a or b]. *)
Definition py_or (a b : json) : json := if truthy a then a else b.

Fixpoint lookup_key (k : string) (fields : list (string * json)) : option json :=
  match fields with
  | [] => None
  | (k', v) :: rest => if String.eqb k' k then Some v else lookup_key k rest
  end.

(** [d.get(k, dflt)]; [d.get(k)] is [dict_get k JNull d]. *)
Definition dict_get (k : string) (dflt : json) (fields : list (string * json)) : json :=
  match lookup_key k fields with
  | Some v => v
  | None => dflt
  end.

Inductive exn : Type :=
| Json_decode_error      (* json.loads on a text that is not JSON *)
| No_get_attribute       (* .get on a value that is not a dict *)
| Not_iterable           (* for ... in a number or a bool *)
| Int_type_error         (* int() of a list or a dict *)
| Int_value_error        (* int() of a text that is no numeral *)
| Name_not_str           (* a plan name that is not a str reaches the tag builder *)
| File_not_found.        (* read_text on a path that names no file *)

(** *** [int(text)]

    Blanks around the numeral are dropped, a sign may lead, and single
    underscores may separate digits.  Only ASCII blanks and digits are
    recognised here, and the interpreter's limit on the number of digits
    is not applied. *)
Definition is_space (c : ascii) : bool :=
  let n := N_of_ascii c in
  ((9 <=? n) && (n <=? 13) || (n =? 32))%N.

Definition is_digit (c : ascii) : bool :=
  let n := N_of_ascii c in ((48 <=? n) && (n <=? 57))%N.

Definition digit_val (c : ascii) : Z := Z.of_N (N_of_ascii c) - 48.

Fixpoint lstrip (cs : list ascii) : list ascii :=
  match cs with
  | c :: cs' => if is_space c then lstrip cs' else cs
  | [] => []
  end.

Definition strip (cs : list ascii) : list ascii := rev (lstrip (rev (lstrip cs))).

(** Digits with single underscores between them; [prev] tells whether the
    character before was a digit.  The value is accumulated in [acc]. *)
Fixpoint digits_value (prev : bool) (acc : Z) (cs : list ascii) : option Z :=
  match cs with
  | [] => if prev then Some acc else None
  | c :: cs' =>
      if is_digit c then digits_value true (10 * acc + digit_val c) cs'
      else if Ascii.eqb c "_" then
             if prev then digits_value false acc cs' else None
           else None
  end.

Definition int_of_text (s : string) : option Z :=
  match strip (list_ascii_of_string s) with
  | "-"%char :: cs => option_map Z.opp (digits_value false 0 cs)
  | "+"%char :: cs => digits_value false 0 cs
  | cs => digits_value false 0 cs
  end.

(** [int(v)]. *)
Definition py_int (v : json) : exn + Z :=
  match v with
  | JNum n => inr n
  | JBool b => inr (if b then 1 else 0)
  | JStr s => match int_of_text s with Some n => inr n | None => inl Int_value_error end
  | JNull | JArr _ | JObj _ => inl Int_type_error
  end.

(* ===================================================================== *)
(** * The document tree of BeautifulSoup *)
(* ===================================================================== *)

(** A [Text] is a NavigableString, a run of character data; a [Tag] has
    a name, attributes in the order they were set, and contents.  The
    BeautifulSoup object of a page is the list of its top-level nodes.
    Comments and doctype declarations, which no operation of the script
    looks at, are left out of the tree.  Names of tags and attributes are
    in lower case, as html.parser delivers them. *)
Inductive node : Type :=
| Text (s : string)
| Tag (name : string) (attrs : list (string * string)) (contents : list node).

Definition contents_of (n : node) : list node :=
  match n with
  | Text _ => []
  | Tag _ _ cs => cs
  end.

Definition is_tag (nm : string) (n : node) : bool :=
  match n with
  | Text _ => false
  | Tag t _ _ => String.eqb t nm
  end.

Section Traversal.
Context {A B : Type}.

(** The first result, in list order, of a search that may fail. *)
Definition first_some (f : A → option B) : list A → option B :=
  fix go (l : list A) : option B :=
    match l with
    | [] => None
    | x :: l' =>
        match f x with
        | Some r => Some r
        | None => go l'
        end
    end.

(** Change the first element, in list order, that a partial update
    applies to; [None] when it applies to none. *)
Definition first_change (g : A → option A) : list A → option (list A) :=
  fix go (l : list A) : option (list A) :=
    match l with
    | [] => None
    | x :: l' =>
        match g x with
        | Some x' => Some (x' :: l')
        | None =>
            match go l' with
            | Some l'' => Some (x :: l'')
            | None => None
            end
        end
    end.
End Traversal.

(** The first tag named [nm] among a node and its descendants, in
    document order. *)
Fixpoint find_in (nm : string) (n : node) : option node :=
  match n with
  | Text _ => None
  | Tag t _ cs => if String.eqb t nm then Some n else first_some (find_in nm) cs
  end.

(** [tag.find(nm)], from the contents of [tag]. *)
Definition find (nm : string) (cs : list node) : option node :=
  first_some (find_in nm) cs.

(** Every tag named [nm] among a node and its descendants, in document
    order. *)
Fixpoint find_all_in (nm : string) (n : node) : list node :=
  match n with
  | Text _ => []
  | Tag t _ cs =>
      (if String.eqb t nm then [n] else []) ++ flat_map (find_all_in nm) cs
  end.

(** [tag.find_all(nm)], from the contents of [tag]. *)
Definition find_all (nm : string) (cs : list node) : list node :=
  flat_map (find_all_in nm) cs.

(** [tag.has_attr(k)]. *)
Definition has_attr (k : string) (n : node) : bool :=
  match n with
  | Text _ => false
  | Tag _ attrs _ => existsb (fun kv => String.eqb (fst kv) k) attrs
  end.

(** [tag.append(child)]. *)
Definition append (child : node) (n : node) : node :=
  match n with
  | Text s => Text s
  | Tag t a cs => Tag t a (cs ++ [child])
  end.

Definition with_contents (f : list node → list node) (n : node) : node :=
  match n with
  | Text s => Text s
  | Tag t a cs => Tag t a (f cs)
  end.

(** A mutation of the tag that [find nm] returns: [f] is applied where
    the first tag named [nm] stands, and the rest of the tree is kept. *)
Fixpoint modify_in (nm : string) (f : node → node) (n : node) : option node :=
  match n with
  | Text _ => None
  | Tag t a cs =>
      if String.eqb t nm then Some (f n)
      else option_map (Tag t a) (first_change (modify_in nm f) cs)
  end.

Definition modify_first (nm : string) (f : node → node) (cs : list node) : list node :=
  match first_change (modify_in nm f) cs with
  | Some cs' => cs'
  | None => cs
  end.

(** The text inside a node ([get_text()]). *)
Fixpoint text_of (n : node) : string :=
  match n with
  | Text s => s
  | Tag _ _ cs => fold_right (fun c acc => text_of c +:+ acc) "" cs
  end.

(** How many of the children of a tag are tags named [nm]: with "th",
    the header cells of a row; with "td", its body cells. *)
Definition cells (nm : string) (n : node) : nat :=
  length (List.filter (is_tag nm) (contents_of n)).

(** The tree html.parser builds from [str(soup)], as far as it is told:
    the same tags, each with the attributes it had; a text node that is
    empty is written as nothing and does not come back.  The attributes
    stay here in the order of the tree and the texts as they are, where
    [str(soup)] writes the attributes of a tag sorted by name and reading
    the file turns a carriage return into a line feed. *)
Fixpoint reparse_node (n : node) : list node :=
  match n with
  | Text s => if String.eqb s "" then [] else [Text s]
  | Tag t a cs => [Tag t a (flat_map reparse_node cs)]
  end.

Definition reparse (soup : list node) : list node := flat_map reparse_node soup.

(* ===================================================================== *)
(** * The script *)
(* ===================================================================== *)

(** ** make_header_th *)

(** The currency prefix of the price text, byte for byte as the literal
    stands in the script. *)
Definition price_prefix : string := "â‚¹".

(** [f"â‚¹{monthly:,}"], the text of the price span. *)
Definition price_text (monthly : Z) : string :=
  price_prefix +:+ py_format_comma monthly.

(** [f"price{abs(hash(name + str(monthly))) % (10**9)}"]. *)
Definition id_number (key : hash_secret) (name : string) (monthly : Z) : Z :=
  Z.abs (py_hash key (name +:+ py_str monthly)) mod 10 ^ 9.

Definition id_stamp (key : hash_secret) (name : string) (monthly : Z) : string :=
  "price" +:+ py_str (id_number key name monthly).

Definition make_header_th (key : hash_secret) (name : string) (monthly : Z) : node :=
  let h3 := Tag "h3" [("class", "text-lg font-bold")] [Text name] in
  let span_price :=
    Tag "span"
      [("id", id_stamp key name monthly);
       ("class", "text-3xl font-black");
       ("data-monthly", py_str monthly)]
      [Text (price_text monthly)] in
  let span_unit := Tag "span" [("class", "text-sm text-[#4c739a]")] [Text "/mo"] in
  let div := Tag "div" [("class", "flex items-baseline gap-1 mb-4")] [span_price; span_unit] in
  let btn := Tag "button" [("class", "w-full py-2.5 rounded-lg border text-sm")] [Text "Choose Plan"] in
  Tag "th" [("class", "p-6 md:p-8 w-1/4 align-bottom")] [h3; div; btn].

(** ** append_plan_to_file: the change to the parsed page *)

(** The cell a section header row receives, and the cell any other row
    receives. *)
Definition filler_td : node := Tag "td" [("class", "px-6 py-3")] [Text ""].
Definition placeholder_td : node := Tag "td" [("class", "px-6 py-4 text-center")] [Text "-"].

(** [first_td and first_td.has_attr('colspan')] for a row. *)
Definition is_section_header (tr : node) : bool :=
  match find "td" (contents_of tr) with
  | Some first_td => has_attr "colspan" first_td
  | None => false
  end.

Definition new_td (tr : node) : node :=
  if is_section_header tr then filler_td else placeholder_td.

(** The loop [for tr in tbody.find_all('tr')]: every row below the table
    body, at any depth, receives its cell as last child.  A row is tested
    before the rows inside it receive theirs, as document order has it. *)
Fixpoint patch_rows_in (n : node) : node :=
  match n with
  | Text s => Text s
  | Tag t a cs =>
      let cs' := map patch_rows_in cs in
      if String.eqb t "tr" then Tag t a (cs' ++ [new_td n]) else Tag t a cs'
  end.

Definition patch_tbody (tbody : node) : node :=
  with_contents (map patch_rows_in) tbody.

(** [thead_row.append(new_th)] for the first row of the first table head. *)
Definition patch_thead (new_th : node) (thead : node) : node :=
  with_contents (modify_first "tr" (append new_th)) thead.

(** The first row of the first table head, if the page has one. *)
Definition head_row (soup : list node) : option node :=
  match find "thead" soup with
  | Some thead => find "tr" (contents_of thead)
  | None => None
  end.

(** The rows the script takes for the body of the table. *)
Definition body_rows (soup : list node) : option (list node) :=
  match find "tbody" soup with
  | Some tbody => Some (find_all "tr" (contents_of tbody))
  | None => None
  end.

(** Lines 80 to 82: the header cell goes to the end of the head row. *)
Definition patch_head (new_th : node) (soup : list node) : list node :=
  modify_first "thead" (patch_thead new_th) soup.

(** Lines 85 to 101: the body cells, when the page has a table body. *)
Definition patch_body (soup : list node) : option (list node) :=
  match find "tbody" soup with
  | Some _ => Some (modify_first "tbody" patch_tbody soup)
  | None => None
  end.

(** What lines 72 to 101 make of a parsed page, given the header cell. *)
Inductive patch_result : Type :=
| No_thead
| No_header_row
| Head_only (soup' : list node)      (* no table body: only the head row changed *)
| Patched (soup' : list node).

Definition patch_soup (new_th : node) (soup : list node) : patch_result :=
  match find "thead" soup with
  | None => No_thead
  | Some thead =>
      match find "tr" (contents_of thead) with
      | None => No_header_row
      | Some _ =>
          let soup1 := patch_head new_th soup in
          match patch_body soup1 with
          | None => Head_only soup1
          | Some soup2 => Patched soup2
          end
      end
  end.

(** ** The files and the console *)

(** A file is known by what the two parsers of the script make of its
    text: [json.loads] (nothing, when the text is not JSON) and
    [BeautifulSoup(text, 'html.parser')]. *)
Record file := File { json_view : option json; html_view : list node }.

(** What [path.write_text(str(soup))] leaves at [path].  The text holds
    the tag the script appended, with its quoted attribute, and so is not
    JSON. *)
Definition written (soup : list node) : file :=
  {| json_view := None; html_view := reparse soup |}.

(** The lines the script prints. *)
Inductive line : Type :=
| Error_not_found (path : string)
| No_plans_to_apply
| Applying_plan (name : json) (monthly : Z) (path : string)
| Warning_no_thead (path : string)
| Warning_no_header_row (path : string)
| Warning_no_tbody (path : string)
| Updated (path : string)
| Target_not_found (path : string)
| Done.

Record world := World { files : gmap string file; console : list line }.

(** What a run is started with: the secret of [hash], the directory the
    script's own directory lies in, and the command line. *)
Record env := Env { secret : hash_secret; ROOT : string; argv : list string }.

(** ** Control: normal return, [sys.exit], uncaught exception *)

Inductive result (A : Type) : Type :=
| Ok (a : A)
| Exit (code : Z)
| Raise (e : exn).
Arguments Ok {A} a.
Arguments Exit {A} code.
Arguments Raise {A} e.

Definition M (A : Type) : Type := world → result A * world.

Definition ret {A} (a : A) : M A := fun w => (Ok a, w).
Definition bind {A B} (m : M A) (k : A → M B) : M B :=
  fun w =>
    match m w with
    | (Ok a, w') => k a w'
    | (Exit c, w') => (Exit c, w')
    | (Raise e, w') => (Raise e, w')
    end.

#[export] Instance M_ret : MRet M := @ret.
#[export] Instance M_bind : MBind M := λ A B k m, bind m k.

(** [print(...)].  The line is taken to be printed: a console that
    cannot encode it is not told. *)
Definition say (l : line) (w : world) : world :=
  {| files := files w; console := console w ++ [l] |}.
Definition print (l : line) : M unit := fun w => (Ok tt, say l w).
Definition sys_exit {A} (code : Z) : M A := fun w => (Exit code, w).
Definition raise {A} (e : exn) : M A := fun w => (Raise e, w).
Definition lift {A} (r : exn + A) : M A :=
  match r with
  | inl e => raise e
  | inr a => ret a
  end.
Definition read_file (path : string) : M (option file) :=
  fun w => (Ok (files w !! path), w).
Definition write_file (path : string) (f : file) : M unit :=
  fun w => (Ok tt, {| files := <[path := f]> (files w); console := console w |}).

(** [for x in l: body(x)]. *)
Fixpoint for_each {A} (body : A → M unit) (l : list A) : M unit :=
  match l with
  | [] => ret tt
  | x :: l' => body x ;; for_each body l'
  end.

(** The status the process ends with. *)
Definition exit_status {A} (r : result A) : Z :=
  match r with
  | Ok _ => 0
  | Exit code => code
  | Raise _ => 1
  end.

(** ** load_changes *)

Definition load_changes (path : string) : M json :=
  f ← read_file path;
  match f with
  | None => print (Error_not_found path) ;; sys_exit 1
  | Some f =>
      match json_view f with
      | None => raise Json_decode_error
      | Some (JObj fields) => ret (dict_get "plans" (JArr []) fields)
      | Some _ => raise No_get_attribute
      end
  end.

(** ** append_plan_to_file *)

(** The header cell is built, and a name that is no text fails, only
    after the table head and its row were found. *)
Definition append_plan_to_file (key : hash_secret) (path : string)
    (plan_name : json) (monthly : Z) : M unit :=
  print (Applying_plan plan_name monthly path) ;;
  f ← read_file path;
  match f with
  | None => raise File_not_found
  | Some f =>
      let soup := html_view f in
      match find "thead" soup with
      | None => print (Warning_no_thead path)
      | Some thead =>
          match find "tr" (contents_of thead) with
          | None => print (Warning_no_header_row path)
          | Some _ =>
              match plan_name with
              | JStr name =>
                  let soup1 := patch_head (make_header_th key name monthly) soup in
                  match patch_body soup1 with
                  | None =>
                      print (Warning_no_tbody path) ;;
                      write_file path (written soup1) ;; print (Updated path)
                  | Some soup2 =>
                      write_file path (written soup2) ;; print (Updated path)
                  end
              | _ => raise Name_not_str
              end
          end
      end
  end.

(** ** main *)

Definition path_join (dir name : string) : string := dir +:+ "/" +:+ name.

Definition TARGETS (e : env) : list string :=
  [path_join (ROOT e) "Pricingai.html";
   path_join (ROOT e) "Pricinghuman.html";
   path_join (ROOT e) "Pricinghybrid.html"].

Definition plan_file (e : env) : string :=
  match argv e with
  | _ :: arg :: _ => arg
  | _ => path_join (ROOT e) "plan_changes.json"
  end.

(** [plan.get('name') or 'New Plan']. *)
Definition plan_name (fields : list (string * json)) : json :=
  py_or (dict_get "name" JNull fields) (JStr "New Plan").

(** [int(plan.get('monthly') or plan.get('monthly_price') or 0)]. *)
Definition plan_monthly (fields : list (string * json)) : exn + Z :=
  py_int (py_or (py_or (dict_get "monthly" JNull fields)
                       (dict_get "monthly_price" JNull fields))
                (JNum 0)).

Definition apply_to_target (e : env) (name : json) (monthly : Z) (target : string) : M unit :=
  f ← read_file target;
  match f with
  | Some _ => append_plan_to_file (secret e) target name monthly
  | None => print (Target_not_found target)
  end.

Definition apply_plan (e : env) (plan : json) : M unit :=
  match plan with
  | JObj fields =>
      let name := plan_name fields in
      monthly ← lift (plan_monthly fields);
      for_each (apply_to_target e name monthly) (TARGETS e)
  | _ => raise No_get_attribute
  end.

(** The items [for plan in plans] goes through.  A dict yields its keys
    and a text its characters: texts, on which [.get] fails at the first. *)
Definition main (e : env) : M unit :=
  plans ← load_changes (plan_file e);
  if negb (truthy plans) then print No_plans_to_apply
  else
    match plans with
    | JArr items => for_each (apply_plan e) items ;; print Done
    | JObj _ | JStr _ => raise No_get_attribute
    | JNull | JBool _ | JNum _ => raise Not_iterable
    end.

(* ===================================================================== *)
(** * Notions the properties are stated with *)
(* ===================================================================== *)

(** Header cells of the head row, and body cells of each row of the
    table body, as the script finds them. *)
Definition head_cells (soup : list node) : option nat :=
  cells "th" <$> head_row soup.

Definition body_cells (soup : list node) : option (list nat) :=
  map (cells "td") <$> body_rows soup.

(** The rows of a page that lie outside every table head, whether or not
    a tbody tag encloses them. *)
Fixpoint rows_outside_thead_in (n : node) : list node :=
  match n with
  | Text _ => []
  | Tag t _ cs =>
      if String.eqb t "thead" then []
      else (if String.eqb t "tr" then [n] else []) ++ flat_map rows_outside_thead_in cs
  end.

Definition rows_outside_thead (soup : list node) : list node :=
  flat_map rows_outside_thead_in soup.

(** The header cells of a row, in order. *)
Definition header_cells (row : node) : list node :=
  List.filter (is_tag "th") (contents_of row).

(** The head row has as many header cells as each row in [rows] has body
    cells. *)
Definition columns_agree (soup : list node) (rows : list node) : bool :=
  match head_cells soup with
  | Some h => forallb (Nat.eqb h) (map (cells "td") rows)
  | None => true
  end.

(** The first cell of a row: its first child that is a td or a th. *)
Definition first_cell (tr : node) : option node :=
  List.find (fun c => is_tag "td" c || is_tag "th" c) (contents_of tr).

(** A separator row read off its first cell. *)
Definition first_cell_spans (tr : node) : bool :=
  match first_cell tr with
  | Some c => has_attr "colspan" c
  | None => false
  end.

Definition last_child (n : node) : option node := last (contents_of n).

(** A plan record of the change-set format: an object whose [name], when
    given, is a text and whose [monthly] and [monthly_price], when given,
    are integers. *)
Definition is_str (v : json) : bool := match v with JStr _ => true | _ => false end.
Definition is_int (v : json) : bool := match v with JNum _ => true | _ => false end.

Definition field_is (k : string) (ty : json → bool) (fields : list (string * json)) : bool :=
  match lookup_key k fields with
  | Some v => ty v
  | None => true
  end.

Definition is_plan_change (p : json) : bool :=
  match p with
  | JObj fields =>
      field_is "name" is_str fields
      && field_is "monthly" is_int fields
      && field_is "monthly_price" is_int fields
  | _ => false
  end.

(** The name and the price of a plan record as the data model words
    them: the value under the key, a default when the key is absent. *)
Definition name_by_key (fields : list (string * json)) : json :=
  match lookup_key "name" fields with
  | Some v => v
  | None => JStr "New Plan"
  end.

Definition monthly_by_key (fields : list (string * json)) : json :=
  match lookup_key "monthly" fields with
  | Some v => v
  | None =>
      match lookup_key "monthly_price" fields with
      | Some v => v
      | None => JNum 0
      end
  end.

(** The loader as its contract words it: the value under [plans], an
    empty sequence when no such key is there. *)
Definition plans_by_key (data : json) : json :=
  match data with
  | JObj fields => dict_get "plans" (JArr []) fields
  | _ => JArr []
  end.

(** The value of an attribute of a tag. *)
Definition attr (k : string) (n : node) : option string :=
  match n with
  | Text _ => None
  | Tag _ attrs _ => snd <$> List.find (fun kv => String.eqb (fst kv) k) attrs
  end.

(** ** Growth of a tree

    [grows P n n']: the tree [n'] is the tree [n] in which rows (tr tags)
    have received further last children, each of them satisfying [P];
    tags, attributes and texts are otherwise the same. *)
Inductive grows (P : node → Prop) : node → node → Prop :=
| grows_text s : grows P (Text s) (Text s)
| grows_tag t a cs cs' extra :
    Forall2 (grows P) cs cs' →
    Forall P extra →
    extra = [] ∨ t = "tr" →
    grows P (Tag t a cs) (Tag t a (cs' ++ extra)).

(** Structural induction on trees, with the hypothesis for every child. *)
Section NodeInduction.
Variable P : node → Prop.
Hypothesis P_text : ∀ s, P (Text s).
Hypothesis P_tag : ∀ t a cs, Forall P cs → P (Tag t a cs).

Fixpoint node_induction (n : node) : P n :=
  match n with
  | Text s => P_text s
  | Tag t a cs =>
      P_tag t a cs
        ((fix children (l : list node) : Forall P l :=
            match l with
            | [] => @List.Forall_nil node P
            | c :: l' => @List.Forall_cons node P c l' (node_induction c) (children l')
            end) cs)
  end.
End NodeInduction.

(** The tag a tag is read back as. *)
Definition reparse_tag : node → node := with_contents reparse.

(** The two cells the loop over the body rows appends. *)
Definition is_new_td (c : node) : Prop := c = filler_td ∨ c = placeholder_td.

(** A header cell with no table structure inside. *)
Definition plain_header (th : node) : Prop :=
  is_tag "th" th = true
  ∧ Forall (λ nm, find_in nm th = None) ["thead"; "tbody"; "tr"; "td"].

(** A body row after a plan: the row, possibly grown by the header cell
    somewhere inside, then with the new body cells in place. *)
Definition row_patched (th : node) (r r' : node) : Prop :=
  ∃ r1, grows (eq th) r r1 ∧ r' = patch_rows_in r1.

(** The state of one page: its file is there, with [h] header cells in
    the head row and the body cells [bs]. *)
Definition page_has (t : string) (h : nat) (bs : option (list nat)) (w : world) : Prop :=
  ∃ f, files w !! t = Some f
       ∧ head_cells (html_view f) = Some h
       ∧ body_cells (html_view f) = bs.

(** The identifier and the text of the price span of a header cell. *)
Definition price_span (th : node) : option node := find "span" (contents_of th).
Definition header_id (th : node) : option string := price_span th ≫= attr "id".
Definition header_price (th : node) : option string := text_of <$> price_span th.

(** The page a patch produces, when it produces one. *)
Definition result_soup (r : patch_result) : option (list node) :=
  match r with
  | Patched soup' | Head_only soup' => Some soup'
  | No_thead | No_header_row => None
  end.

(** The identifiers of the spans of a page, in document order. *)
Definition ids_in_page (path : string) (w : world) : list string :=
  match files w !! path with
  | Some f => omap (attr "id") (find_all "span" (html_view f))
  | None => []
  end.

Definition is_object (j : json) : bool :=
  match j with
  | JObj _ => true
  | _ => false
  end.

(** A key that is missing, or whose value counts as false. *)
Definition absent_or_falsy (k : string) (fields : list (string * json)) : bool :=
  match lookup_key k fields with
  | Some v => negb (truthy v)
  | None => true
  end.

(** ** Runs and plans

    [changed_within ts w w']: the world [w'] has the files of [w]; the
    same paths name a file, and a path outside [ts] names the same
    file. *)
Definition changed_within (ts : list string) (w w' : world) : Prop :=
  ∀ t, (t ∉ ts → files w' !! t = files w !! t)
       ∧ (files w' !! t = None ↔ files w !! t = None).

(** [agree_on ts w1 w2]: the two worlds have printed the same lines and
    hold the same file at every path of [ts]. *)
Definition agree_on (ts : list string) (w1 w2 : world) : Prop :=
  console w1 = console w2 ∧ ∀ t, t ∈ ts → files w1 !! t = files w2 !! t.

(** Texts all of whose characters are ASCII. *)
Definition ascii_only (s : string) : bool :=
  forallb (fun c => (N_of_ascii c <? 128)%N) (list_ascii_of_string s).

(** What an item of the change-set raises before any page is looked
    at, in the cases told here: [.get] on an item that is no object;
    [int] on a price that is a list or an object; [int] on a price that
    is a text of ASCII characters and no numeral. *)
Definition plan_error (p : json) : option exn :=
  match p with
  | JObj fields =>
      match py_or (py_or (dict_get "monthly" JNull fields)
                         (dict_get "monthly_price" JNull fields))
                  (JNum 0) with
      | JArr _ | JObj _ => Some Int_type_error
      | JStr s =>
          if ascii_only s
          then match int_of_text s with
               | Some _ => None
               | None => Some Int_value_error
               end
          else None
      | _ => None
      end
  | _ => Some No_get_attribute
  end.

(** The [data-monthly] attribute of the price span of a header cell. *)
Definition header_data_monthly (th : node) : option string :=
  price_span th ≫= attr "data-monthly".

(** The identifier and the [data-monthly] attribute main gives the
    price span of the header cell of a plan record: those of the name
    and the price it reads off the record. *)
Definition plan_id (key : hash_secret) (p : json) : option string :=
  match p with
  | JObj fields =>
      match plan_name fields, plan_monthly fields with
      | JStr name, inr monthly => Some (id_stamp key name monthly)
      | _, _ => None
      end
  | _ => None
  end.

Definition plan_data_monthly (p : json) : option string :=
  match p with
  | JObj fields =>
      match plan_monthly fields with
      | inr monthly => Some (py_str monthly)
      | inl _ => None
      end
  | _ => None
  end.

(** The body cells of a row, in order. *)
Definition data_cells (row : node) : list node :=
  List.filter (is_tag "td") (contents_of row).

(** ** Pages and runs the properties are tried on *)

Definition th_cell (s : string) : node := Tag "th" [] [Text s].
Definition td_cell (s : string) : node := Tag "td" [] [Text s].

(** Three header cells over two rows of three body cells. *)
Definition plain_page : list node :=
  [Tag "table" []
     [Tag "thead" [] [Tag "tr" [] [th_cell "Feature"; th_cell "Basic"; th_cell "Pro"]];
      Tag "tbody" []
        [Tag "tr" [] [td_cell "Seats"; td_cell "1"; td_cell "5"];
         Tag "tr" [] [td_cell "Support"; td_cell "-"; td_cell "24/7"]]]].

(** The page of the end-to-end scenario: a head row of three cells, a
    normal row and a separator row. *)
Definition pricing_page : list node :=
  [Tag "table" []
     [Tag "thead" [] [Tag "tr" [] [th_cell "Feature"; th_cell "Basic"; th_cell "Pro"]];
      Tag "tbody" []
        [Tag "tr" [] [td_cell "Seats"; td_cell "1"; td_cell "5"];
         Tag "tr" [] [Tag "td" [("colspan", "3")] [Text "Add-ons"]]]]].

(** A table written without a tbody tag: its rows stand directly below
    the table. *)
Definition page_without_tbody : list node :=
  [Tag "table" []
     [Tag "thead" [] [Tag "tr" [] [th_cell "Feature"; th_cell "Basic"]];
      Tag "tr" [] [td_cell "Seats"; td_cell "1"]]].

(** Rows that begin with a th: a section header made of one spanning th,
    and a row header followed by a spanning td. *)
Definition th_section_row : node := Tag "tr" [] [Tag "th" [("colspan", "3")] [Text "Add-ons"]].
Definition th_then_wide_td_row : node :=
  Tag "tr" [] [th_cell "Support"; Tag "td" [("colspan", "2")] [Text "Contact us"]].

Definition page_with_th_rows : list node :=
  [Tag "table" []
     [Tag "thead" [] [Tag "tr" [] [th_cell "Feature"; th_cell "Basic"; th_cell "Pro"]];
      Tag "tbody" [] [th_section_row; th_then_wide_td_row]]].

Definition vip_plan : json := JObj [("name", JStr "VIP"); ("monthly", JNum 15999)].
Definition vip_changes : json := JObj [("plans", JArr [vip_plan])].

(** A run started without arguments from the site directory, under
    PYTHONHASHSEED=[seed]. *)
Definition run_with (seed : Z) : env :=
  {| secret := secret_of_seed seed; ROOT := "/site"; argv := ["apply_plan_changes.py"] |}.

(** A site with a change-set file (missing when [changes] is [None]; of
    the given reading by json.loads otherwise) and one of the three
    pages. *)
Definition changes_file (reading : option json) : file :=
  {| json_view := reading; html_view := [Text "(the text of the change-set)"] |}.

Definition site (changes : option (option json)) (page : list node) : world :=
  {| files :=
       match changes with
       | Some reading =>
           <["/site/plan_changes.json" := changes_file reading]>
             {["/site/Pricingai.html" := {| json_view := None; html_view := page |}]}
       | None => {["/site/Pricingai.html" := {| json_view := None; html_view := page |}]}
       end;
     console := [] |}.

(** A record whose name is the empty text and whose monthly price is 0
    beside a monthly_price. *)
Definition plan_with_falsy_values : list (string * json) :=
  [("name", JStr ""); ("monthly", JNum 0); ("monthly_price", JNum 500)].

(** A table without a table head. *)
Definition page_without_thead : list node :=
  [Tag "table" [] [Tag "tbody" [] [Tag "tr" [] [td_cell "Seats"; td_cell "1"]]]].

(** A table whose body is written in two parts. *)
Definition page_with_two_bodies : list node :=
  [Tag "table" []
     [Tag "thead" [] [Tag "tr" [] [th_cell "Feature"; th_cell "Basic"]];
      Tag "tbody" [] [Tag "tr" [] [td_cell "Seats"; td_cell "1"]];
      Tag "tbody" [] [Tag "tr" [] [td_cell "Support"; td_cell "24/7"]]]].

(** A site with its change-set file and none of the three pages. *)
Definition site_without_pages (changes : json) : world :=
  {| files := {["/site/plan_changes.json" := changes_file (Some changes)]}; console := [] |}.

(** A record whose name is a number. *)
Definition plan_named_by_number : list (string * json) :=
  [("name", JNum 7); ("monthly", JNum 100)].


(** A row with a row inside it that comes before its first td. *)
Definition row_with_nested_row : node :=
  Tag "tr" []
    [Tag "th" [] [Tag "table" [] [Tag "tr" [] [th_cell "Note"]]];
     Tag "td" [("colspan", "2")] [Text "Add-ons"]].

Definition page_with_nested_row : list node :=
  [Tag "table" []
     [Tag "thead" [] [Tag "tr" [] [th_cell "Feature"; th_cell "Basic"]];
      Tag "tbody" [] [row_with_nested_row]]].

(** The same site with one more file, which is none of the files the
    script knows of. *)
Definition with_note (w : world) : world :=
  {| files := <["/site/notes.txt" := changes_file None]> (files w); console := console w |}.

(** Unfolding of the control operators in proofs. *)
Ltac run :=
  unfold mbind, M_bind, bind, mret, M_ret, ret, print, read_file, write_file,
    raise, sys_exit; simpl.

(* ===================================================================== *)
(** * The built-ins against the interpreter *)
(* ===================================================================== *)

(** Values printed by CPython 3.11 for the same inputs. *)
Example format_comma_values :
  map py_format_comma [1999; -1999; 0; 123456789; -100; 1000]
  = ["1,999"; "-1,999"; "0"; "123,456,789"; "-100"; "1,000"].
Proof. vm_compute. reflexivity. Qed.

Example int_of_text_values :
  map int_of_text [" 12_3 "; "+5"; "-0"; "1__2"; "_1"; "- 5"; "007"; "1_"; "-"; "12a"; "1 2"]
  = [Some 123; Some 5; Some 0; None; None; None; Some 7; None; None; None; None].
Proof. vm_compute. reflexivity. Qed.

Example hash_values_seed_0 :
  map (py_hash (secret_of_seed 0))
      ["VIP15999"; "New Plan1999"; "₹"; "é1"; "abcdefghijklmnopq"; "😀x"]
  = [-2495991897179581666; -801925883865288725; 4588603626005699356;
     -2688345669257662417; 7044894726457044172; -8926728262118538918].
Proof. vm_compute. reflexivity. Qed.

Example hash_values_seed_1 :
  map (py_hash (secret_of_seed 1))
      ["VIP15999"; "New Plan1999"; "₹"; "é1"; "abcdefghijklmnopq"; "😀x"]
  = [4521893698298425739; -6218254505624320304; -2789094824891249294;
     5956729638582652685; 7300304297962845018; 8904275969526274476].
Proof. vm_compute. reflexivity. Qed.

Example hash_values_seed_2 :
  map (py_hash (secret_of_seed 2))
      ["VIP15999"; "New Plan1999"; "₹"; "é1"; "abcdefghijklmnopq"; "😀x"]
  = [-619120584406177727; -2337534505411106; -6272190039107418483;
     4730139142859714832; 1561780066099666610; -8505209027140499477].
Proof. vm_compute. reflexivity. Qed.

(* ===================================================================== *)
(** * Facts about searching and updating a tree *)
(* ===================================================================== *)

Section Search.
Context {A B : Type}.

Lemma first_some_cons (f : A → option B) x l :
  first_some f (x :: l) = match f x with Some r => Some r | None => first_some f l end.
Proof. reflexivity. Qed.

Lemma first_some_app (f : A → option B) l1 l2 :
  first_some f (l1 ++ l2) =
  match first_some f l1 with Some r => Some r | None => first_some f l2 end.
Proof.
  induction l1 as [|x l1 IH]; [reflexivity|].
  rewrite <- app_comm_cons, !first_some_cons. destruct (f x); [reflexivity|apply IH].
Qed.

Lemma first_some_none (f : A → option B) l :
  Forall (λ x, f x = None) l → first_some f l = None.
Proof.
  induction 1 as [|x l Hx _ IH]; [reflexivity|].
  rewrite first_some_cons, Hx. exact IH.
Qed.

Lemma first_change_cons (g : A → option A) x l :
  first_change g (x :: l) =
  match g x with
  | Some x' => Some (x' :: l)
  | None => match first_change g l with Some l' => Some (x :: l') | None => None end
  end.
Proof. reflexivity. Qed.
End Search.

Lemma find_in_tag nm t a cs :
  find_in nm (Tag t a cs) = if String.eqb t nm then Some (Tag t a cs) else find nm cs.
Proof. reflexivity. Qed.

Lemma find_all_in_tag nm t a cs :
  find_all_in nm (Tag t a cs) =
  (if String.eqb t nm then [Tag t a cs] else []) ++ find_all nm cs.
Proof. reflexivity. Qed.

Lemma modify_in_tag nm f t a cs :
  modify_in nm f (Tag t a cs) =
  if String.eqb t nm then Some (f (Tag t a cs))
  else option_map (Tag t a) (first_change (modify_in nm f) cs).
Proof. reflexivity. Qed.

Lemma find_cons nm c cs :
  find nm (c :: cs) = match find_in nm c with Some r => Some r | None => find nm cs end.
Proof. reflexivity. Qed.

Lemma find_all_cons nm c cs :
  find_all nm (c :: cs) = find_all_in nm c ++ find_all nm cs.
Proof. reflexivity. Qed.

Lemma find_all_app nm l1 l2 :
  find_all nm (l1 ++ l2) = find_all nm l1 ++ find_all nm l2.
Proof. unfold find_all. apply flat_map_app. Qed.

(** What [find] returns is a tag of the name asked for. *)
Lemma find_in_is_tag nm n m : find_in nm n = Some m → is_tag nm m = true.
Proof.
  revert m. induction n as [s|t a cs IH] using node_induction; intros m; [discriminate|].
  rewrite find_in_tag. destruct (String.eqb t nm) eqn:E.
  - intros [= <-]. exact E.
  - unfold find. induction IH as [|c cs Hc _ IHcs]; [discriminate|].
    rewrite first_some_cons. destruct (find_in nm c) eqn:Ec.
    + intros [= <-]. eauto.
    + exact IHcs.
Qed.

Lemma find_is_tag nm cs m : find nm cs = Some m → is_tag nm m = true.
Proof.
  unfold find. induction cs as [|c cs IH]; [discriminate|].
  rewrite first_some_cons. destruct (find_in nm c) eqn:E.
  - intros [= <-]. eapply find_in_is_tag, E.
  - exact IH.
Qed.

Lemma find_all_in_is_tag nm n : Forall (λ m, is_tag nm m = true) (find_all_in nm n).
Proof.
  induction n as [s|t a cs IH] using node_induction; [constructor|].
  rewrite find_all_in_tag. apply Forall_app. split.
  - destruct (String.eqb t nm) eqn:E; repeat constructor. exact E.
  - unfold find_all. induction IH as [|c cs Hc _ IHcs]; [constructor|].
    simpl. apply Forall_app. split; assumption.
Qed.

Lemma find_all_is_tag nm cs : Forall (λ m, is_tag nm m = true) (find_all nm cs).
Proof.
  unfold find_all. induction cs as [|c cs IH]; [constructor|].
  simpl. apply Forall_app. split; [apply find_all_in_is_tag|exact IH].
Qed.

(** The update lands on the tag that [find] returns. *)
Lemma modify_in_find nm f n :
  (∀ m, is_tag nm m = true → is_tag nm (f m) = true) →
  match find_in nm n with
  | Some m => ∃ n', modify_in nm f n = Some n' ∧ find_in nm n' = Some (f m)
  | None => modify_in nm f n = None
  end.
Proof.
  intros Hf. induction n as [s|t a cs IH] using node_induction; [reflexivity|].
  rewrite find_in_tag, modify_in_tag. destruct (String.eqb t nm) eqn:E.
  - eexists. split; [reflexivity|].
    specialize (Hf (Tag t a cs) E). destruct (f (Tag t a cs)) as [|t' a' cs']; [discriminate|].
    rewrite find_in_tag. simpl in Hf. rewrite Hf. reflexivity.
  - unfold find. induction IH as [|c cs Hc _ IHcs]; [reflexivity|].
    rewrite first_some_cons, first_change_cons.
    destruct (find_in nm c) as [m|] eqn:Ec.
    + destruct Hc as (c' & -> & Hc'). simpl. eexists. split; [reflexivity|].
      rewrite find_in_tag, E, find_cons, Hc'. reflexivity.
    + rewrite Hc. destruct (first_some (find_in nm) cs) as [m|] eqn:Ecs.
      * destruct IHcs as (n' & Hn' & Hfind).
        destruct (first_change (modify_in nm f) cs) as [cs'|]; [|discriminate].
        simpl in Hn'. injection Hn' as <-. simpl. eexists. split; [reflexivity|].
        rewrite find_in_tag, E, find_cons, Ec.
        rewrite find_in_tag, E in Hfind. exact Hfind.
      * destruct (first_change (modify_in nm f) cs); [discriminate|reflexivity].
Qed.

Lemma modify_first_find nm f cs :
  (∀ m, is_tag nm m = true → is_tag nm (f m) = true) →
  find nm (modify_first nm f cs) = f <$> find nm cs.
Proof.
  intros Hf. unfold modify_first, find.
  induction cs as [|c cs IH]; [reflexivity|].
  rewrite first_some_cons, first_change_cons.
  pose proof (modify_in_find nm f c Hf) as Hc.
  destruct (find_in nm c) as [m|] eqn:Ec.
  - destruct Hc as (c' & -> & Hc'). rewrite first_some_cons, Hc'. reflexivity.
  - rewrite Hc. destruct (first_change (modify_in nm f) cs) as [cs'|].
    + rewrite first_some_cons, Ec. exact IH.
    + rewrite first_some_cons, Ec. exact IH.
Qed.

(* ===================================================================== *)
(** * Facts about growth *)
(* ===================================================================== *)

Section Growth.
Variable P : node → Prop.

Lemma grows_refl n : grows P n n.
Proof.
  induction n as [s|t a cs IH] using node_induction; [constructor|].
  rewrite <- (app_nil_r cs) at 2. constructor; [|constructor|left; reflexivity].
  induction IH; constructor; assumption.
Qed.

Lemma grows_refl_list cs : Forall2 (grows P) cs cs.
Proof. induction cs; constructor; [apply grows_refl|assumption]. Qed.

Lemma grows_append c n : P c → is_tag "tr" n = true → grows P n (append c n).
Proof.
  intros Hc Hn. destruct n as [s|t a cs]; [constructor|].
  apply String.eqb_eq in Hn. simpl.
  constructor; [apply grows_refl_list| |right; exact Hn]. repeat constructor. exact Hc.
Qed.

Lemma grows_is_tag nm n n' : grows P n n' → is_tag nm n' = is_tag nm n.
Proof. destruct 1; reflexivity. Qed.

Lemma grows_has_attr k n n' : grows P n n' → has_attr k n' = has_attr k n.
Proof. destruct 1; reflexivity. Qed.

Lemma grows_contents n n' :
  grows P n n' →
  ∃ cs' extra, contents_of n' = cs' ++ extra
               ∧ Forall2 (grows P) (contents_of n) cs' ∧ Forall P extra.
Proof.
  destruct 1 as [s|t a cs cs' extra H1 H2 H3].
  - exists [], []. repeat split; constructor.
  - exists cs', extra. repeat split; assumption.
Qed.

(** Counting the children of one name. *)
Lemma grows_cells nm n n' :
  (∀ c, P c → is_tag nm c = false) →
  grows P n n' → cells nm n' = cells nm n.
Proof.
  intros HP. destruct 1 as [s|t a cs cs' extra H1 H2 H3]; [reflexivity|].
  clear H3. unfold cells. simpl. rewrite List.filter_app, length_app.
  replace (List.filter (is_tag nm) extra) with (@nil node).
  - simpl. rewrite Nat.add_0_r. clear H2.
    induction H1 as [|c c' cs cs' Hc _ IH]; [reflexivity|].
    simpl. rewrite (grows_is_tag nm _ _ Hc).
    destruct (is_tag nm c); simpl; congruence.
  - induction H2 as [|c extra Hc _ IH]; [reflexivity|].
    simpl. rewrite (HP c Hc). exact IH.
Qed.

Section Find.
Variable nm : string.
Hypothesis P_free : ∀ c, P c → find_in nm c = None.

Lemma grows_find_children cs cs' extra :
  Forall (λ c, ∀ c', grows P c c' →
                     option_Forall2 (grows P) (find_in nm c) (find_in nm c')) cs →
  Forall2 (grows P) cs cs' → Forall P extra →
  option_Forall2 (grows P) (find nm cs) (find nm (cs' ++ extra)).
Proof.
  intros IH H1 H2. unfold find. rewrite first_some_app.
  rewrite (first_some_none _ extra)
    by (eapply Forall_impl; [exact H2|exact P_free]).
  clear H2. revert cs' H1.
  induction IH as [|c cs Hc _ IHcs]; intros cs' H1.
  - inversion H1; subst. constructor.
  - inversion H1 as [|? c' ? cs'' Hcc' H1']; subst.
    rewrite !first_some_cons.
    destruct (Hc c' Hcc') as [m m' Hm|].
    + constructor. exact Hm.
    + specialize (IHcs cs'' H1').
      destruct (first_some (find_in nm) cs''); exact IHcs.
Qed.

Lemma grows_find_in n n' :
  grows P n n' → option_Forall2 (grows P) (find_in nm n) (find_in nm n').
Proof.
  revert n'. induction n as [s|t a cs IH] using node_induction; intros n' H.
  - inversion H; subst. constructor.
  - inversion H as [|? ? ? cs' extra H1 H2 H3]; subst.
    rewrite !find_in_tag. destruct (String.eqb t nm); [constructor; exact H|].
    apply grows_find_children; assumption.
Qed.

Lemma grows_find cs cs' extra :
  Forall2 (grows P) cs cs' → Forall P extra →
  option_Forall2 (grows P) (find nm cs) (find nm (cs' ++ extra)).
Proof.
  apply grows_find_children. apply Forall_forall. intros c _ c'. apply grows_find_in.
Qed.

Lemma grows_find_same cs cs' :
  Forall2 (grows P) cs cs' → option_Forall2 (grows P) (find nm cs) (find nm cs').
Proof.
  intros H. rewrite <- (app_nil_r cs'). apply grows_find; [exact H|constructor].
Qed.
End Find.

Section FindAll.
Variable nm : string.
Hypothesis P_free : ∀ c, P c → find_all_in nm c = [].

Lemma find_all_free extra : Forall P extra → find_all nm extra = [].
Proof.
  induction 1 as [|c extra Hc _ IH]; [reflexivity|].
  rewrite find_all_cons, (P_free c Hc), IH. reflexivity.
Qed.

Lemma grows_find_all_children cs cs' extra :
  Forall (λ c, ∀ c', grows P c c' →
                     Forall2 (grows P) (find_all_in nm c) (find_all_in nm c')) cs →
  Forall2 (grows P) cs cs' → Forall P extra →
  Forall2 (grows P) (find_all nm cs) (find_all nm (cs' ++ extra)).
Proof.
  intros IH H1 H2. rewrite find_all_app, (find_all_free extra H2), app_nil_r.
  clear H2. revert cs' H1.
  induction IH as [|c cs Hc _ IHcs]; intros cs' H1.
  - inversion H1; subst. constructor.
  - inversion H1 as [|? c' ? cs'' Hcc' H1']; subst.
    rewrite !find_all_cons. apply Forall2_app; [apply Hc, Hcc'|apply IHcs, H1'].
Qed.

Lemma grows_find_all_in n n' :
  grows P n n' → Forall2 (grows P) (find_all_in nm n) (find_all_in nm n').
Proof.
  revert n'. induction n as [s|t a cs IH] using node_induction; intros n' H.
  - inversion H; subst. constructor.
  - inversion H as [|? ? ? cs' extra H1 H2 H3]; subst.
    rewrite !find_all_in_tag. apply Forall2_app.
    + destruct (String.eqb t nm); [constructor; [exact H|constructor]|constructor].
    + apply grows_find_all_children; assumption.
Qed.

Lemma grows_find_all cs cs' extra :
  Forall2 (grows P) cs cs' → Forall P extra →
  Forall2 (grows P) (find_all nm cs) (find_all nm (cs' ++ extra)).
Proof.
  apply grows_find_all_children. apply Forall_forall.
  intros c _ c'. apply grows_find_all_in.
Qed.
End FindAll.

(** The rows outside the table heads. *)
Section RowsOutside.
Hypothesis P_free : ∀ c, P c → rows_outside_thead_in c = [].

Lemma grows_rows_outside_thead_in n n' :
  grows P n n' →
  Forall2 (grows P) (rows_outside_thead_in n) (rows_outside_thead_in n').
Proof.
  revert n'. induction n as [s|t a cs IH] using node_induction; intros n' H.
  - inversion H; subst. constructor.
  - inversion H as [|? ? ? cs' extra H1 H2 H3]; subst. simpl.
    destruct (String.eqb t "thead"); [constructor|].
    apply Forall2_app.
    + destruct (String.eqb t "tr"); [constructor; [exact H|constructor]|constructor].
    + rewrite flat_map_app.
      replace (flat_map rows_outside_thead_in extra) with (@nil node).
      * rewrite app_nil_r. clear H H2. revert cs' H1.
        induction IH as [|c cs Hc _ IHcs]; intros cs' H1.
        -- inversion H1; subst. constructor.
        -- inversion H1 as [|? c' ? cs'' Hcc' H1']; subst. simpl.
           apply Forall2_app; [apply Hc, Hcc'|apply IHcs, H1'].
      * clear H H3. induction H2 as [|c extra Hc _ IHe]; [reflexivity|].
        simpl. rewrite (P_free c Hc). exact IHe.
Qed.

Lemma grows_rows_outside_thead cs cs' :
  Forall2 (grows P) cs cs' →
  Forall2 (grows P) (rows_outside_thead cs) (rows_outside_thead cs').
Proof.
  unfold rows_outside_thead. induction 1 as [|c c' cs cs' Hc _ IH]; [constructor|].
  simpl. apply Forall2_app; [apply grows_rows_outside_thead_in, Hc|exact IH].
Qed.
End RowsOutside.

(** An update that makes the tag it lands on grow makes the tree grow. *)
Section Modify.
Variables (nm : string) (f : node → node).
Hypothesis f_grows : ∀ m, is_tag nm m = true → grows P m (f m).

Lemma modify_in_grows n n' : modify_in nm f n = Some n' → grows P n n'.
Proof.
  revert n'. induction n as [s|t a cs IH] using node_induction; intros n'.
  - discriminate.
  - rewrite modify_in_tag. destruct (String.eqb t nm) eqn:Et.
    + intros [= <-]. apply f_grows. exact Et.
    + destruct (first_change (modify_in nm f) cs) as [cs'|] eqn:E; [|discriminate].
      intros [= <-]. rewrite <- (app_nil_r cs'). constructor; [|constructor|left; reflexivity].
      clear -IH E. revert cs' E.
      induction IH as [|c cs Hc _ IHcs]; intros cs'; [discriminate|].
      rewrite first_change_cons. destruct (modify_in nm f c) as [c'|].
      * intros [= <-]. constructor; [apply Hc; reflexivity|apply grows_refl_list].
      * destruct (first_change (modify_in nm f) cs) as [cs''|]; [|discriminate].
        intros [= <-]. constructor; [apply grows_refl|apply IHcs; reflexivity].
Qed.

Lemma modify_first_grows cs : Forall2 (grows P) cs (modify_first nm f cs).
Proof.
  unfold modify_first.
  destruct (first_change (modify_in nm f) cs) as [cs'|] eqn:E; [|apply grows_refl_list].
  revert cs' E. induction cs as [|c cs IH]; intros cs'; [discriminate|].
  rewrite first_change_cons. destruct (modify_in nm f c) as [c'|] eqn:Ec.
  - intros [= <-]. constructor; [eapply modify_in_grows, Ec|apply grows_refl_list].
  - destruct (first_change (modify_in nm f) cs) as [cs''|]; [|discriminate].
    intros [= <-]. constructor; [apply grows_refl|apply IH; reflexivity].
Qed.
End Modify.
End Growth.

(* ===================================================================== *)
(** * Reading a page back from its text *)
(* ===================================================================== *)

Lemma reparse_node_tag t a cs : reparse_node (Tag t a cs) = [Tag t a (reparse cs)].
Proof. reflexivity. Qed.

Lemma reparse_cons c cs : reparse (c :: cs) = reparse_node c ++ reparse cs.
Proof. reflexivity. Qed.

Lemma reparse_node_text_find nm s : find nm (reparse_node (Text s)) = None.
Proof. simpl. destruct (String.eqb s ""); reflexivity. Qed.

Lemma find_app nm l1 l2 :
  find nm (l1 ++ l2) = match find nm l1 with Some r => Some r | None => find nm l2 end.
Proof. apply first_some_app. Qed.

Lemma reparse_find_in nm n :
  find nm (reparse_node n) = reparse_tag <$> find_in nm n.
Proof.
  induction n as [s|t a cs IH] using node_induction; [apply reparse_node_text_find|].
  rewrite reparse_node_tag, find_cons, !find_in_tag.
  destruct (String.eqb t nm); [reflexivity|].
  assert (find nm (reparse cs) = reparse_tag <$> find nm cs) as ->.
  { induction IH as [|c cs Hc _ IHcs]; [reflexivity|].
    rewrite reparse_cons, find_app, Hc, find_cons.
    destruct (find_in nm c); [reflexivity|exact IHcs]. }
  destruct (find nm cs); reflexivity.
Qed.

Lemma reparse_find nm cs : find nm (reparse cs) = reparse_tag <$> find nm cs.
Proof.
  induction cs as [|c cs IH]; [reflexivity|].
  rewrite reparse_cons, find_app, reparse_find_in, find_cons.
  destruct (find_in nm c); [reflexivity|exact IH].
Qed.

Lemma reparse_find_all_in nm n :
  find_all nm (reparse_node n) = map reparse_tag (find_all_in nm n).
Proof.
  induction n as [s|t a cs IH] using node_induction.
  - simpl. destruct (String.eqb s ""); reflexivity.
  - rewrite reparse_node_tag, find_all_cons, !find_all_in_tag.
    simpl (find_all nm []). rewrite app_nil_r, map_app. f_equal.
    + destruct (String.eqb t nm); reflexivity.
    + induction IH as [|c cs Hc _ IHcs]; [reflexivity|].
      rewrite reparse_cons, find_all_app, Hc, find_all_cons, map_app, IHcs. reflexivity.
Qed.

Lemma reparse_find_all nm cs :
  find_all nm (reparse cs) = map reparse_tag (find_all nm cs).
Proof.
  induction cs as [|c cs IH]; [reflexivity|].
  rewrite reparse_cons, find_all_app, reparse_find_all_in, find_all_cons, map_app, IH.
  reflexivity.
Qed.

Lemma reparse_tag_is_tag nm n : is_tag nm (reparse_tag n) = is_tag nm n.
Proof. destruct n; reflexivity. Qed.

Lemma reparse_tag_contents n : contents_of (reparse_tag n) = reparse (contents_of n).
Proof. destruct n; reflexivity. Qed.

Lemma reparse_filter_tags nm cs :
  length (List.filter (is_tag nm) (reparse cs)) = length (List.filter (is_tag nm) cs).
Proof.
  induction cs as [|c cs IH]; [reflexivity|].
  rewrite reparse_cons, List.filter_app, length_app, IH.
  destruct c as [s|t a cs']; simpl.
  - destruct (String.eqb s ""); reflexivity.
  - destruct (String.eqb t nm); reflexivity.
Qed.

Lemma reparse_cells nm n : cells nm (reparse_tag n) = cells nm n.
Proof. unfold cells. rewrite reparse_tag_contents. apply reparse_filter_tags. Qed.

Lemma reparse_rows_outside_thead_in n :
  rows_outside_thead (reparse_node n) = map reparse_tag (rows_outside_thead_in n).
Proof.
  unfold rows_outside_thead.
  induction n as [s|t a cs IH] using node_induction.
  - simpl. destruct (String.eqb s ""); reflexivity.
  - rewrite reparse_node_tag. simpl. rewrite app_nil_r.
    destruct (String.eqb t "thead"); [reflexivity|].
    rewrite map_app. f_equal; [destruct (String.eqb t "tr"); reflexivity|].
    induction IH as [|c cs Hc _ IHcs]; [reflexivity|].
    rewrite reparse_cons, flat_map_app, Hc. simpl. rewrite map_app, IHcs. reflexivity.
Qed.

Lemma reparse_rows_outside_thead cs :
  rows_outside_thead (reparse cs) = map reparse_tag (rows_outside_thead cs).
Proof.
  induction cs as [|c cs IH]; [reflexivity|].
  rewrite reparse_cons. unfold rows_outside_thead in *.
  rewrite flat_map_app, IH. simpl. rewrite map_app.
  f_equal. apply reparse_rows_outside_thead_in.
Qed.

Lemma reparse_head_row soup : head_row (reparse soup) = reparse_tag <$> head_row soup.
Proof.
  unfold head_row. rewrite reparse_find. destruct (find "thead" soup) as [thead|]; [|reflexivity].
  simpl. rewrite reparse_tag_contents. apply reparse_find.
Qed.

Lemma reparse_body_rows soup :
  body_rows (reparse soup) = map reparse_tag <$> body_rows soup.
Proof.
  unfold body_rows. rewrite reparse_find. destruct (find "tbody" soup) as [tbody|]; [|reflexivity].
  simpl. rewrite reparse_tag_contents, reparse_find_all. reflexivity.
Qed.

Lemma reparse_head_cells soup : head_cells (reparse soup) = head_cells soup.
Proof.
  unfold head_cells. rewrite reparse_head_row.
  destruct (head_row soup); [simpl; f_equal; apply reparse_cells|reflexivity].
Qed.

Lemma map_reparse_cells nm rows : map (cells nm) (map reparse_tag rows) = map (cells nm) rows.
Proof.
  rewrite map_map. apply map_ext. intros r. apply reparse_cells.
Qed.

Lemma reparse_body_cells soup : body_cells (reparse soup) = body_cells soup.
Proof.
  unfold body_cells. rewrite reparse_body_rows.
  destruct (body_rows soup); [simpl; f_equal; apply map_reparse_cells|reflexivity].
Qed.

(* ===================================================================== *)
(** * One application of a plan to a parsed page *)
(* ===================================================================== *)

Lemma find_in_none_find_all nm n : find_in nm n = None → find_all_in nm n = [].
Proof.
  induction n as [s|t a cs IH] using node_induction; [reflexivity|].
  rewrite find_in_tag, find_all_in_tag. destruct (String.eqb t nm); [discriminate|].
  simpl. unfold find, find_all. induction IH as [|c cs Hc _ IHcs]; [reflexivity|].
  rewrite first_some_cons. destruct (find_in nm c); [discriminate|].
  intros H. simpl. rewrite Hc, IHcs by (reflexivity || assumption). reflexivity.
Qed.

Lemma no_rows_outside_thead n : find_all_in "tr" n = [] → rows_outside_thead_in n = [].
Proof.
  induction n as [s|t a cs IH] using node_induction; [reflexivity|].
  rewrite find_all_in_tag. simpl. destruct (String.eqb t "thead"); [reflexivity|].
  destruct (String.eqb t "tr"); [discriminate|]. simpl.
  unfold find_all. induction IH as [|c cs Hc _ IHcs]; [reflexivity|].
  simpl. intros [H1 H2]%app_eq_nil. rewrite Hc, IHcs by assumption. reflexivity.
Qed.

Lemma new_td_is_new tr : is_new_td (new_td tr).
Proof. unfold new_td, is_new_td. destruct (is_section_header tr); auto. Qed.

Lemma new_td_free nm : nm ≠ "td" → ∀ c, is_new_td c → find_in nm c = None.
Proof.
  intros Hnm c Hc.
  assert (String.eqb "td" nm = false) as E by (apply String.eqb_neq; congruence).
  destruct Hc as [-> | ->]; unfold filler_td, placeholder_td;
    rewrite find_in_tag, E; reflexivity.
Qed.

Lemma new_td_not_th c : is_new_td c → is_tag "th" c = false.
Proof. intros [-> | ->]; reflexivity. Qed.

Lemma patch_rows_in_is_tag nm n : is_tag nm (patch_rows_in n) = is_tag nm n.
Proof. destruct n as [s|t a cs]; [reflexivity|]. simpl. destruct (String.eqb t "tr"); reflexivity. Qed.

Lemma patch_rows_in_contents n :
  contents_of (patch_rows_in n) =
  map patch_rows_in (contents_of n) ++ (if is_tag "tr" n then [new_td n] else []).
Proof.
  destruct n as [s|t a cs]; [reflexivity|]. simpl.
  destruct (String.eqb t "tr"); [reflexivity|]. rewrite app_nil_r. reflexivity.
Qed.

Lemma patch_rows_in_grows n : grows is_new_td n (patch_rows_in n).
Proof.
  induction n as [s|t a cs IH] using node_induction; [constructor|].
  assert (Forall2 (grows is_new_td) cs (map patch_rows_in cs)) as Hcs.
  { induction IH; constructor; assumption. }
  simpl. destruct (String.eqb t "tr") eqn:E.
  - constructor; [exact Hcs| |right; apply String.eqb_eq, E].
    constructor; [apply new_td_is_new|constructor].
  - rewrite <- (app_nil_r (map _ cs)). constructor; [exact Hcs|constructor|left; reflexivity].
Qed.

Lemma patch_rows_find_all_in n :
  find_all_in "tr" (patch_rows_in n) = map patch_rows_in (find_all_in "tr" n).
Proof.
  induction n as [s|t a cs IH] using node_induction; [reflexivity|].
  assert (find_all "tr" (map patch_rows_in cs) = map patch_rows_in (find_all "tr" cs)) as Hcs.
  { induction IH as [|c cs Hc _ IHcs]; [reflexivity|].
    simpl map. rewrite !find_all_cons, map_app, Hc, IHcs. reflexivity. }
  rewrite find_all_in_tag, map_app, <- Hcs. simpl patch_rows_in.
  destruct (String.eqb t "tr") eqn:E.
  - rewrite find_all_in_tag, E, find_all_app. f_equal.
    + simpl. rewrite E. reflexivity.
    + rewrite find_all_cons.
      rewrite (find_in_none_find_all "tr" (new_td (Tag t a cs)))
        by (apply new_td_free; [done|apply new_td_is_new]).
      simpl. rewrite app_nil_r. reflexivity.
  - rewrite find_all_in_tag, E. reflexivity.
Qed.

Lemma patch_rows_find_all cs :
  find_all "tr" (map patch_rows_in cs) = map patch_rows_in (find_all "tr" cs).
Proof.
  induction cs as [|c cs IH]; [reflexivity|].
  simpl map. rewrite !find_all_cons, map_app, patch_rows_find_all_in, IH. reflexivity.
Qed.

Lemma filter_tags_patch_rows nm cs :
  List.filter (is_tag nm) (map patch_rows_in cs) = map patch_rows_in (List.filter (is_tag nm) cs).
Proof.
  induction cs as [|c cs IH]; [reflexivity|].
  simpl. rewrite patch_rows_in_is_tag. destruct (is_tag nm c); simpl; congruence.
Qed.

(** A row receives exactly one body cell. *)
Lemma patch_rows_in_cells r :
  is_tag "tr" r = true → cells "td" (patch_rows_in r) = S (cells "td" r).
Proof.
  intros Hr. unfold cells. rewrite patch_rows_in_contents, Hr.
  rewrite List.filter_app, length_app, filter_tags_patch_rows, length_map.
  destruct (new_td_is_new r) as [-> | ->]; simpl; lia.
Qed.

Lemma patch_rows_in_last r :
  is_tag "tr" r = true → last_child (patch_rows_in r) = Some (new_td r).
Proof.
  intros Hr. unfold last_child. rewrite patch_rows_in_contents, Hr. apply last_snoc.
Qed.

Lemma append_cells nm c n :
  is_tag nm c = true → (∃ t, is_tag t n = true) → cells nm (append c n) = S (cells nm n).
Proof.
  intros Hc [t Ht]. destruct n as [s|t' a cs]; [discriminate|].
  unfold cells. simpl. rewrite List.filter_app, length_app. simpl. rewrite Hc. simpl. lia.
Qed.

Lemma append_is_tag nm c n : is_tag nm (append c n) = is_tag nm n.
Proof. destruct n; reflexivity. Qed.

Lemma with_contents_is_tag nm f n : is_tag nm (with_contents f n) = is_tag nm n.
Proof. destruct n; reflexivity. Qed.

Lemma with_contents_contents f n t :
  is_tag t n = true → contents_of (with_contents f n) = f (contents_of n).
Proof. destruct n; [discriminate|reflexivity]. Qed.

Lemma with_contents_grows P f n :
  (∀ cs, Forall2 (grows P) cs (f cs)) → grows P n (with_contents f n).
Proof.
  intros Hf. destruct n as [s|t a cs]; [constructor|].
  simpl. rewrite <- (app_nil_r (f cs)). constructor; [apply Hf|constructor|left; reflexivity].
Qed.

Section GrowthOfTables.
Variable P : node → Prop.

Lemma grows_find_contents nm n n' :
  (∀ c, P c → find_in nm c = None) →
  grows P n n' →
  option_Forall2 (grows P) (find nm (contents_of n)) (find nm (contents_of n')).
Proof.
  intros HP H. destruct (grows_contents P n n' H) as (cs' & extra & -> & H1 & H2).
  apply grows_find; assumption.
Qed.

Lemma grows_find_all_contents nm n n' :
  (∀ c, P c → find_in nm c = None) →
  grows P n n' →
  Forall2 (grows P) (find_all nm (contents_of n)) (find_all nm (contents_of n')).
Proof.
  intros HP H. destruct (grows_contents P n n' H) as (cs' & extra & -> & H1 & H2).
  apply grows_find_all; [|assumption..].
  intros c Hc. apply find_in_none_find_all, HP, Hc.
Qed.

Lemma grows_head_row soup soup' :
  (∀ c, P c → find_in "thead" c = None) →
  (∀ c, P c → find_in "tr" c = None) →
  Forall2 (grows P) soup soup' →
  option_Forall2 (grows P) (head_row soup) (head_row soup').
Proof.
  intros H1 H2 H. unfold head_row.
  destruct (grows_find_same P "thead" H1 soup soup' H) as [thead thead' Hth|];
    [|constructor].
  apply grows_find_contents; assumption.
Qed.

Lemma grows_body_rows soup soup' :
  (∀ c, P c → find_in "tbody" c = None) →
  (∀ c, P c → find_in "tr" c = None) →
  Forall2 (grows P) soup soup' →
  option_Forall2 (Forall2 (grows P)) (body_rows soup) (body_rows soup').
Proof.
  intros H1 H2 H. unfold body_rows.
  destruct (grows_find_same P "tbody" H1 soup soup' H) as [tbody tbody' Htb|];
    constructor.
  apply grows_find_all_contents; assumption.
Qed.
End GrowthOfTables.

Lemma plain_header_free th nm c :
  plain_header th → nm ∈ ["thead"; "tbody"; "tr"; "td"] → th = c → find_in nm c = None.
Proof.
  intros [_ H] Hnm <-. rewrite Forall_forall in H. apply H, Hnm.
Qed.

Lemma patch_thead_grows th m : grows (eq th) m (patch_thead th m).
Proof.
  unfold patch_thead. apply with_contents_grows. intros cs.
  apply modify_first_grows. intros r Hr. apply grows_append; [reflexivity|exact Hr].
Qed.

Lemma patch_tbody_grows m : grows is_new_td m (patch_tbody m).
Proof.
  unfold patch_tbody. apply with_contents_grows. intros cs.
  induction cs; constructor; [apply patch_rows_in_grows|assumption].
Qed.

(** The head row after the header cell is appended. *)
Lemma patch_thead_head_row th soup row :
  head_row soup = Some row →
  head_row (patch_head th soup) = Some (append th row).
Proof.
  unfold head_row, patch_head. intros H.
  rewrite modify_first_find
    by (intros m; unfold patch_thead; rewrite with_contents_is_tag; auto).
  destruct (find "thead" soup) as [thead|] eqn:E; [|discriminate]. simpl.
  unfold patch_thead. rewrite (with_contents_contents _ _ _ (find_is_tag _ _ _ E)).
  rewrite modify_first_find by (intros m; rewrite append_is_tag; auto).
  rewrite H. reflexivity.
Qed.

Lemma patch_tbody_body_rows soup rows :
  body_rows soup = Some rows →
  body_rows (modify_first "tbody" patch_tbody soup) = Some (map patch_rows_in rows).
Proof.
  unfold body_rows. intros H.
  rewrite modify_first_find by (intros m; unfold patch_tbody; rewrite with_contents_is_tag; auto).
  destruct (find "tbody" soup) as [tbody|] eqn:E; [|discriminate]. simpl.
  unfold patch_tbody. rewrite (with_contents_contents _ _ _ (find_is_tag _ _ _ E)).
  rewrite patch_rows_find_all. congruence.
Qed.

Lemma patch_soup_spec th soup row :
  plain_header th →
  head_row soup = Some row →
  ∃ soup' row',
    head_row soup' = Some row'
    ∧ grows is_new_td (append th row) row'
    ∧ match body_rows soup with
      | Some rows =>
          patch_soup th soup = Patched soup'
          ∧ ∃ rows', body_rows soup' = Some rows' ∧ Forall2 (row_patched th) rows rows'
      | None =>
          patch_soup th soup = Head_only soup'
          ∧ body_rows soup' = None
          ∧ Forall2 (grows (eq th)) soup soup'
      end.
Proof.
  intros Hth Hrow.
  set (soup1 := patch_head th soup).
  assert (Forall2 (grows (eq th)) soup soup1) as Hg1
    by (apply modify_first_grows; intros m _; apply patch_thead_grows).
  assert (head_row soup1 = Some (append th row)) as Hrow1
    by (apply patch_thead_head_row, Hrow).
  assert (∀ nm, nm ∈ ["thead"; "tbody"; "tr"; "td"] → ∀ c, th = c → find_in nm c = None)
    as Hfree by (intros nm Hnm c; apply plain_header_free; assumption).
  pose proof (grows_body_rows (eq th) soup soup1
                (Hfree "tbody" ltac:(set_solver)) (Hfree "tr" ltac:(set_solver)) Hg1) as Hb.
  assert (patch_soup th soup =
          match find "tbody" soup1 with
          | None => Head_only soup1
          | Some _ => Patched (modify_first "tbody" patch_tbody soup1)
          end) as Hpatch.
  { unfold patch_soup, patch_body, head_row in *. fold soup1.
    destruct (find "thead" soup); [|discriminate].
    rewrite Hrow. destruct (find "tbody" soup1); reflexivity. }
  destruct (body_rows soup) as [rows|] eqn:Eb.
  - (* the page has a table body *)
    inversion Hb as [? rows1 Hrows Heq Hb1|]; subst. symmetry in Hb1.
    set (soup2 := modify_first "tbody" patch_tbody soup1).
    assert (Forall2 (grows is_new_td) soup1 soup2) as Hg2
      by (apply modify_first_grows; intros m _; apply patch_tbody_grows).
    pose proof (grows_head_row is_new_td soup1 soup2
                  (new_td_free "thead" ltac:(done))
                  (new_td_free "tr" ltac:(done)) Hg2) as Hh.
    rewrite Hrow1 in Hh. inversion Hh as [? row2 Hrow2 Heq1 Heq2|]; subst.
    exists soup2, row2. split; [congruence|]. split; [exact Hrow2|].
    split.
    + rewrite Hpatch. unfold body_rows in Hb1.
      destruct (find "tbody" soup1); [reflexivity|discriminate].
    + exists (map patch_rows_in rows1). split; [apply patch_tbody_body_rows, Hb1|].
      clear -Hrows. induction Hrows as [|r r1 rows rows1 Hr _ IH]; constructor; [|exact IH].
      exists r1. split; [exact Hr|reflexivity].
  - (* the page has no table body *)
    inversion Hb as [|Heq Hb1]. symmetry in Hb1.
    exists soup1, (append th row). split; [exact Hrow1|]. split; [apply grows_refl|].
    split; [|split; assumption].
    rewrite Hpatch. unfold body_rows in Hb1.
    destruct (find "tbody" soup1); [discriminate|reflexivity].
Qed.

Lemma is_tag_unique nm nm' c : is_tag nm c = true → nm' ≠ nm → is_tag nm' c = false.
Proof.
  destruct c as [s|t a cs]; [discriminate|]. simpl. intros ->%String.eqb_eq Hne.
  apply String.eqb_neq. congruence.
Qed.

Lemma make_header_th_plain key name monthly : plain_header (make_header_th key name monthly).
Proof. split; [reflexivity|]. repeat constructor. Qed.

Lemma head_row_is_tag soup row : head_row soup = Some row → is_tag "tr" row = true.
Proof.
  unfold head_row. destruct (find "thead" soup); [|discriminate]. apply find_is_tag.
Qed.

Lemma body_rows_are_tags soup rows :
  body_rows soup = Some rows → Forall (λ r, is_tag "tr" r = true) rows.
Proof.
  unfold body_rows. destruct (find "tbody" soup); [|discriminate].
  intros [= <-]. apply find_all_is_tag.
Qed.

(** A patched row has one more body cell than the row had. *)
Lemma row_patched_cells th r r' :
  plain_header th → is_tag "tr" r = true → row_patched th r r' →
  cells "td" r' = S (cells "td" r).
Proof.
  intros [Hth _] Hr (r1 & Hg & ->).
  rewrite patch_rows_in_cells by (rewrite (grows_is_tag _ _ _ _ Hg); exact Hr).
  f_equal. eapply grows_cells; [|exact Hg].
  intros c <-. eapply is_tag_unique; [exact Hth|done].
Qed.

(** The cell a patched row ends with is decided by the row as it was. *)
Lemma row_patched_section_header th r r1 :
  plain_header th → grows (eq th) r r1 → is_section_header r1 = is_section_header r.
Proof.
  intros Hth Hg. unfold is_section_header.
  destruct (grows_find_contents (eq th) "td" r r1
              (λ c, plain_header_free th "td" c Hth ltac:(set_solver)) Hg) as [td td1 Htd|];
    [|reflexivity].
  apply (grows_has_attr _ _ _ _ Htd).
Qed.

Lemma row_patched_last th r r' :
  plain_header th → is_tag "tr" r = true → row_patched th r r' →
  last_child r' = Some (new_td r).
Proof.
  intros Hth Hr (r1 & Hg & ->).
  rewrite patch_rows_in_last by (rewrite (grows_is_tag _ _ _ _ Hg); exact Hr).
  unfold new_td. rewrite (row_patched_section_header th r r1 Hth Hg). reflexivity.
Qed.

Lemma rows_patched_cells th rows rows' :
  plain_header th → Forall (λ r, is_tag "tr" r = true) rows →
  Forall2 (row_patched th) rows rows' →
  map (cells "td") rows' = map S (map (cells "td") rows).
Proof.
  intros Hth Hrows H. induction H as [|r r' rows rows' Hr _ IH]; [reflexivity|].
  inversion Hrows; subst. simpl. f_equal; [|apply IH; assumption].
  eapply row_patched_cells; eassumption.
Qed.

(** The counts of cells after one application. *)
Lemma patch_soup_cells th soup h :
  plain_header th → head_cells soup = Some h →
  ∃ soup',
    (patch_soup th soup = Patched soup' ∨ patch_soup th soup = Head_only soup')
    ∧ head_cells soup' = Some (S h)
    ∧ body_cells soup' = map S <$> body_cells soup.
Proof.
  intros Hth Hh. unfold head_cells in Hh.
  destruct (head_row soup) as [row|] eqn:Hrow; [|discriminate]. injection Hh as <-.
  destruct (patch_soup_spec th soup row Hth Hrow) as (soup' & row' & Hrow' & Hg & Hbody).
  exists soup'.
  assert (head_cells soup' = Some (S (cells "th" row))) as Hhead.
  { unfold head_cells. rewrite Hrow'. simpl. f_equal.
    rewrite (grows_cells is_new_td "th" _ _ new_td_not_th Hg).
    apply append_cells; [apply Hth|]. exists "tr". eapply head_row_is_tag, Hrow. }
  unfold body_cells. destruct (body_rows soup) as [rows|] eqn:Hrows.
  - destruct Hbody as (Hp & rows' & -> & H2). split; [left; exact Hp|]. split; [exact Hhead|].
    simpl. f_equal. eapply rows_patched_cells; [exact Hth| |exact H2].
    eapply body_rows_are_tags, Hrows.
  - destruct Hbody as (Hp & -> & _). split; [right; exact Hp|]. split; [exact Hhead|reflexivity].
Qed.

(* ===================================================================== *)
(** * The patcher on files *)
(* ===================================================================== *)

(** Whatever the page, a plan with a text for name is applied without
    failure, and no other file changes. *)
Lemma append_plan_to_file_frame key path name monthly w f :
  files w !! path = Some f →
  ∃ w', append_plan_to_file key path (JStr name) monthly w = (Ok tt, w')
        ∧ ∀ t, t ≠ path → files w' !! t = files w !! t.
Proof.
  intros Hf. unfold append_plan_to_file. run. rewrite Hf.
  destruct (find "thead" _) as [thead|]; [|eexists; split; [reflexivity|done]].
  destruct (find "tr" _) as [row|]; [|eexists; split; [reflexivity|done]].
  destruct (patch_body _); run;
    (eexists; split; [reflexivity|]); intros t Ht; simpl;
    rewrite lookup_insert_ne by done; reflexivity.
Qed.

(** On a page with a head row the patched page is written back. *)
Lemma append_plan_to_file_writes key path name monthly w f row :
  files w !! path = Some f →
  head_row (html_view f) = Some row →
  ∃ soup' w',
    append_plan_to_file key path (JStr name) monthly w = (Ok tt, w')
    ∧ files w' = <[path := written soup']> (files w)
    ∧ (patch_soup (make_header_th key name monthly) (html_view f) = Patched soup'
       ∨ patch_soup (make_header_th key name monthly) (html_view f) = Head_only soup').
Proof.
  intros Hf Hrow.
  unfold append_plan_to_file, patch_soup. run. rewrite Hf.
  unfold head_row in Hrow. destruct (find "thead" (html_view f)) as [thead|]; [|discriminate].
  rewrite Hrow. destruct (patch_body _) as [soup2|]; run.
  - eexists _, _. split; [reflexivity|]. split; [reflexivity|]. left. reflexivity.
  - eexists _, _. split; [reflexivity|]. split; [reflexivity|]. right. reflexivity.
Qed.

Lemma append_plan_to_file_cells key path name monthly w h bs :
  page_has path h bs w →
  ∃ w', append_plan_to_file key path (JStr name) monthly w = (Ok tt, w')
        ∧ page_has path (S h) (map S <$> bs) w'.
Proof.
  intros (f & Hf & Hh & Hb).
  assert (∃ row, head_row (html_view f) = Some row) as [row Hrow].
  { unfold head_cells in Hh. destruct (head_row (html_view f)); [eauto|discriminate]. }
  destruct (append_plan_to_file_writes key path name monthly w f row Hf Hrow)
    as (soup' & w' & Hrun & Hfiles & Hpatch).
  destruct (patch_soup_cells _ _ h (make_header_th_plain key name monthly) Hh)
    as (soup'' & Hpatch' & Hh' & Hb').
  assert (soup'' = soup') as -> by (destruct Hpatch, Hpatch'; congruence).
  exists w'. split; [exact Hrun|].
  exists (written soup'). rewrite Hfiles, lookup_insert_eq. split; [reflexivity|].
  simpl. rewrite reparse_head_cells, reparse_body_cells, Hb', Hb. split; [assumption|reflexivity].
Qed.

Lemma page_has_frame t h bs w w' :
  files w' !! t = files w !! t → page_has t h bs w → page_has t h bs w'.
Proof. intros Heq (f & Hf & H). exists f. rewrite Heq. split; assumption. Qed.

(* ===================================================================== *)
(** * The loops of main *)
(* ===================================================================== *)

Lemma for_each_cons {A} (body : A → M unit) x l w :
  for_each body (x :: l) w =
  match body x w with
  | (Ok _, w') => for_each body l w'
  | (Exit c, w') => (Exit c, w')
  | (Raise e, w') => (Raise e, w')
  end.
Proof. reflexivity. Qed.

Lemma apply_to_target_other e name monthly t' t w :
  t' ≠ t →
  ∃ w', apply_to_target e (JStr name) monthly t' w = (Ok tt, w')
        ∧ files w' !! t = files w !! t.
Proof.
  intros Hne. unfold apply_to_target. run. destruct (files w !! t') as [f|] eqn:Hf.
  - destruct (append_plan_to_file_frame (secret e) t' name monthly w f Hf)
      as (w' & Hrun & Hfr).
    exists w'. split; [exact Hrun|]. apply Hfr. congruence.
  - eexists. split; reflexivity.
Qed.

Lemma apply_to_target_same e name monthly t w h bs :
  page_has t h bs w →
  ∃ w', apply_to_target e (JStr name) monthly t w = (Ok tt, w')
        ∧ page_has t (S h) (map S <$> bs) w'.
Proof.
  intros Hp. unfold apply_to_target. run.
  destruct Hp as (f & Hf & Hp). rewrite Hf.
  apply append_plan_to_file_cells. exists f. split; assumption.
Qed.

Lemma for_each_target_others e name monthly t l w h bs :
  t ∉ l → page_has t h bs w →
  ∃ w', for_each (apply_to_target e (JStr name) monthly) l w = (Ok tt, w')
        ∧ page_has t h bs w'.
Proof.
  revert w. induction l as [|t' l IH]; intros w Hnin Hp.
  - exists w. split; [reflexivity|exact Hp].
  - apply not_elem_of_cons in Hnin as [Hne Hnin].
    destruct (apply_to_target_other e name monthly t' t w) as (w1 & Hrun & Hfr); [congruence|].
    destruct (IH w1 Hnin (page_has_frame _ _ _ _ _ Hfr Hp)) as (w' & Hrun' & Hp').
    exists w'. rewrite for_each_cons, Hrun. split; assumption.
Qed.

Lemma for_each_target e name monthly t l w h bs :
  NoDup l → t ∈ l → page_has t h bs w →
  ∃ w', for_each (apply_to_target e (JStr name) monthly) l w = (Ok tt, w')
        ∧ page_has t (S h) (map S <$> bs) w'.
Proof.
  revert w. induction l as [|t' l IH]; intros w Hnd Hin Hp; [inversion Hin|].
  apply NoDup_cons in Hnd as [Hnin Hnd]. rewrite for_each_cons.
  destruct (decide (t' = t)) as [->|Hne].
  - destruct (apply_to_target_same e name monthly t w h bs Hp) as (w1 & -> & Hp1).
    apply for_each_target_others; assumption.
  - destruct (apply_to_target_other e name monthly t' t w Hne) as (w1 & -> & Hfr).
    apply IH; [assumption| |eapply page_has_frame; eassumption].
    apply elem_of_cons in Hin as [?|?]; [congruence|assumption].
Qed.

Lemma TARGETS_NoDup e : NoDup (TARGETS e).
Proof.
  unfold TARGETS, path_join.
  repeat (apply NoDup_cons; split); [| |set_solver|apply NoDup_nil_2].
  - intros H. repeat (apply elem_of_cons in H as [H|H]); [..|inversion H];
      apply (inj (String.app _)) in H; discriminate.
  - intros H. repeat (apply elem_of_cons in H as [H|H]); [..|inversion H];
      apply (inj (String.app _)) in H; discriminate.
Qed.

(* ===================================================================== *)
(** * The header cell in the head row *)
(* ===================================================================== *)

(** A tree without rows does not grow. *)
Lemma grows_without_rows P n n' : find_all_in "tr" n = [] → grows P n n' → n' = n.
Proof.
  revert n'. induction n as [s|t a cs IH] using node_induction; intros n' Hno Hg.
  - inversion Hg. reflexivity.
  - inversion Hg as [|? ? ? cs' extra H1 H2 H3]; subst.
    rewrite find_all_in_tag in Hno. apply app_eq_nil in Hno as [Ht Hcs].
    destruct H3 as [-> | ->]; [|discriminate]. rewrite app_nil_r. f_equal.
    clear Hg Ht H2. revert cs' H1 Hcs.
    induction IH as [|c cs Hc _ IHcs]; intros cs' H1 Hcs.
    + inversion H1. reflexivity.
    + inversion H1 as [|? c' ? cs'' Hcc' H1']; subst.
      rewrite find_all_cons in Hcs. apply app_eq_nil in Hcs as [Hc0 Hcs0].
      f_equal; [apply Hc; assumption|apply IHcs; assumption].
Qed.

Lemma grows_filter_tags P nm cs cs' :
  Forall2 (grows P) cs cs' →
  Forall2 (grows P) (List.filter (is_tag nm) cs) (List.filter (is_tag nm) cs').
Proof.
  induction 1 as [|c c' cs cs' Hc _ IH]; [constructor|].
  simpl. rewrite (grows_is_tag P nm c c' Hc).
  destruct (is_tag nm c); [constructor|]; assumption.
Qed.

Lemma filter_tags_free P nm extra :
  (∀ c, P c → is_tag nm c = false) → Forall P extra → List.filter (is_tag nm) extra = [].
Proof.
  intros HP. induction 1 as [|c extra Hc _ IH]; [reflexivity|].
  simpl. rewrite (HP c Hc). exact IH.
Qed.

Lemma grows_header_cells row row' :
  grows is_new_td row row' →
  Forall2 (grows is_new_td) (header_cells row) (header_cells row').
Proof.
  intros Hg. destruct (grows_contents _ _ _ Hg) as (cs' & extra & Heq & H1 & H2).
  unfold header_cells. rewrite Heq, List.filter_app.
  rewrite (filter_tags_free is_new_td "th" extra new_td_not_th H2), app_nil_r.
  apply grows_filter_tags, H1.
Qed.

Lemma append_header_cells th row :
  is_tag "th" th = true → is_tag "tr" row = true →
  header_cells (append th row) = header_cells row ++ [th].
Proof.
  intros Hth Hrow. destruct row as [s|t a cs]; [discriminate|].
  unfold header_cells. simpl. rewrite List.filter_app. simpl. rewrite Hth. reflexivity.
Qed.

(** After a plan the head row ends its header cells with the cell that
    was built, and the cells it had are still there, in order. *)
Lemma patch_soup_header th soup row :
  plain_header th → head_row soup = Some row →
  ∃ soup' row' ths',
    result_soup (patch_soup th soup) = Some soup'
    ∧ head_row soup' = Some row'
    ∧ header_cells row' = ths' ++ [th]
    ∧ Forall2 (grows is_new_td) (header_cells row) ths'.
Proof.
  intros Hth Hrow.
  destruct (patch_soup_spec th soup row Hth Hrow) as (soup' & row' & Hrow' & Hg & Hb).
  apply grows_header_cells in Hg.
  rewrite (append_header_cells th row (proj1 Hth) (head_row_is_tag soup row Hrow)) in Hg.
  apply Forall2_app_inv_l in Hg as (ths' & last' & Hths & Hlast & Heq).
  inversion Hlast as [|? th' ? rest Hth' Hrest]; subst. inversion Hrest; subst.
  apply grows_without_rows in Hth';
    [|apply find_in_none_find_all, (plain_header_free th "tr" th Hth); [set_solver|done]].
  subst th'. exists soup', row', ths'. split; [|done].
  destruct (body_rows soup); [destruct Hb as [-> _]|destruct Hb as (-> & _)]; reflexivity.
Qed.

Lemma reparse_filter_tags_map nm cs :
  List.filter (is_tag nm) (reparse cs) = map reparse_tag (List.filter (is_tag nm) cs).
Proof.
  induction cs as [|c cs IH]; [reflexivity|].
  rewrite reparse_cons, List.filter_app, IH.
  destruct c as [s|t a cs0]; simpl.
  - destruct (String.eqb s ""); reflexivity.
  - destruct (String.eqb t nm); reflexivity.
Qed.

Lemma reparse_header_cells row :
  header_cells (reparse_tag row) = map reparse_tag (header_cells row).
Proof. unfold header_cells. rewrite reparse_tag_contents. apply reparse_filter_tags_map. Qed.

Lemma reparse_app l1 l2 : reparse (l1 ++ l2) = reparse l1 ++ reparse l2.
Proof. apply flat_map_app. Qed.

(** Reading a page back twice is reading it back once. *)
Lemma reparse_node_idem n : reparse (reparse_node n) = reparse_node n.
Proof.
  induction n as [s|t a cs IH] using node_induction.
  - simpl. destruct (String.eqb s "") eqn:E; [reflexivity|]. simpl. rewrite E. reflexivity.
  - rewrite reparse_node_tag.
    change (reparse [Tag t a (reparse cs)]) with [Tag t a (reparse (reparse cs))].
    do 2 f_equal.
    induction IH as [|c cs Hc _ IHcs]; [reflexivity|].
    rewrite reparse_cons, reparse_app, Hc, IHcs. reflexivity.
Qed.

Lemma reparse_tag_idem n : reparse_tag (reparse_tag n) = reparse_tag n.
Proof.
  destruct n as [s|t a cs]; [reflexivity|].
  pose proof (reparse_node_idem (Tag t a cs)) as H.
  rewrite reparse_node_tag in H.
  change (reparse [Tag t a (reparse cs)]) with [Tag t a (reparse (reparse cs))] in H.
  injection H as H. simpl. f_equal. exact H.
Qed.

Lemma reparse_tag_without_rows n :
  is_tag "th" n = true → find_in "tr" n = None → find_all_in "tr" (reparse_tag n) = [].
Proof.
  intros Hn Hno. destruct n as [s|t a cs]; [discriminate|].
  pose proof (reparse_find_all_in "tr" (Tag t a cs)) as H.
  rewrite (find_in_none_find_all _ _ Hno), reparse_node_tag, find_all_cons in H.
  simpl in H. rewrite app_nil_r in H. exact H.
Qed.

(** The head row of the file after one application. *)
Lemma append_plan_to_file_header key path name monthly w f row :
  files w !! path = Some f →
  head_row (html_view f) = Some row →
  ∃ w' f' row' ths',
    append_plan_to_file key path (JStr name) monthly w = (Ok tt, w')
    ∧ files w' !! path = Some f'
    ∧ head_row (html_view f') = Some row'
    ∧ header_cells row' = ths' ++ [reparse_tag (make_header_th key name monthly)]
    ∧ Forall2 (λ c c', ∃ c1, grows is_new_td c c1 ∧ c' = reparse_tag c1) (header_cells row) ths'.
Proof.
  intros Hf Hrow.
  pose proof (make_header_th_plain key name monthly) as Hth.
  destruct (append_plan_to_file_writes key path name monthly w f row Hf Hrow)
    as (soup' & w' & Hrun & Hfiles & Hpatch).
  destruct (patch_soup_header _ _ _ Hth Hrow) as (s & row' & ths' & Hs & Hrow' & Hcells & Hths).
  assert (s = soup') as -> by (destruct Hpatch as [Hp|Hp]; rewrite Hp in Hs; simpl in Hs; congruence).
  exists w', (written soup'), (reparse_tag row'), (map reparse_tag ths').
  split; [exact Hrun|]. split; [rewrite Hfiles; apply lookup_insert_eq|].
  split; [simpl; rewrite reparse_head_row, Hrow'; reflexivity|].
  split; [rewrite reparse_header_cells, Hcells, map_app; reflexivity|].
  clear -Hths. induction Hths as [|c c1 cs cs1 Hc _ IH]; [constructor|].
  simpl. constructor; [exists c1; split; [exact Hc|reflexivity]|exact IH].
Qed.

(** A record of the change-set format is accepted: its name is a text
    and its price an integer. *)
Lemma is_plan_change_accepted p :
  is_plan_change p = true →
  ∃ fields name monthly,
    p = JObj fields ∧ plan_name fields = JStr name ∧ plan_monthly fields = inr monthly.
Proof.
  destruct p as [| | | | |fields]; try discriminate. simpl.
  intros [[Hn Hm]%andb_true_iff Hp]%andb_true_iff.
  exists fields. unfold plan_name, plan_monthly, dict_get, field_is in *.
  destruct (lookup_key "name" fields) as [[| | |[|c s]| |]|]; try discriminate;
  destruct (lookup_key "monthly" fields) as [[| |[|m|m]| | |]|]; try discriminate;
  destruct (lookup_key "monthly_price" fields) as [[| |[|m'|m']| | |]|]; try discriminate;
  unfold py_or; simpl; eauto.
Qed.

Lemma apply_plan_accepted e fields monthly w :
  plan_monthly fields = inr monthly →
  apply_plan e (JObj fields) w
  = for_each (apply_to_target e (plan_name fields) monthly) (TARGETS e) w.
Proof. intros H. unfold apply_plan. rewrite H. reflexivity. Qed.

Lemma apply_plan_cells e p t w h bs :
  is_plan_change p = true → t ∈ TARGETS e → page_has t h bs w →
  ∃ w', apply_plan e p w = (Ok tt, w') ∧ page_has t (S h) (map S <$> bs) w'.
Proof.
  intros (fields & name & monthly & -> & Hname & Hmonthly)%is_plan_change_accepted Ht Hp.
  rewrite (apply_plan_accepted e fields monthly w Hmonthly), Hname.
  apply for_each_target; [apply TARGETS_NoDup|assumption..].
Qed.

Lemma for_each_plan_cells e plans t w h bs :
  Forall (λ p, is_plan_change p = true) plans → t ∈ TARGETS e → page_has t h bs w →
  ∃ w', for_each (apply_plan e) plans w = (Ok tt, w')
        ∧ page_has t (h + length plans) (map (λ c, c + length plans)%nat <$> bs) w'.
Proof.
  intros Hplans Ht. revert w h bs.
  induction Hplans as [|p plans Hp _ IH]; intros w h bs Hw.
  - exists w. split; [reflexivity|]. simpl. rewrite Nat.add_0_r.
    replace (map (λ c, c + 0)%nat <$> bs) with bs; [exact Hw|].
    destruct bs as [l|]; [|reflexivity]. simpl. f_equal.
    rewrite <- (map_id l) at 1. apply map_ext. intros; lia.
  - destruct (apply_plan_cells e p t w h bs Hp Ht Hw) as (w1 & Hrun & Hw1).
    destruct (IH w1 _ _ Hw1) as (w' & Hrun' & Hw').
    exists w'. rewrite for_each_cons, Hrun. split; [exact Hrun'|].
    simpl length. replace (h + S (length plans))%nat with (S h + length plans)%nat by lia.
    replace (map (λ c, c + S (length plans))%nat <$> bs)
      with (map (λ c, c + length plans)%nat <$> (map S <$> bs)); [exact Hw'|].
    destruct bs as [l|]; [|reflexivity]. simpl. f_equal.
    rewrite map_map. apply map_ext. intros; lia.
Qed.

Lemma load_changes_object e w pf fields :
  files w !! plan_file e = Some pf → json_view pf = Some (JObj fields) →
  load_changes (plan_file e) w = (Ok (dict_get "plans" (JArr []) fields), w).
Proof. intros Hf Hj. unfold load_changes. run. rewrite Hf, Hj. reflexivity. Qed.

(** main on a change-set of records of the format. *)
Lemma main_cells e w pf fields items t h bs :
  files w !! plan_file e = Some pf → json_view pf = Some (JObj fields) →
  lookup_key "plans" fields = Some (JArr items) →
  Forall (λ p, is_plan_change p = true) items →
  t ∈ TARGETS e → page_has t h bs w →
  ∃ w', main e w = (Ok tt, w')
        ∧ page_has t (h + length items) (map (λ c, c + length items)%nat <$> bs) w'.
Proof.
  intros Hf Hj Hplans Hitems Ht Hw.
  unfold main. unfold mbind at 1, M_bind, bind.
  rewrite (load_changes_object e w pf fields Hf Hj).
  unfold dict_get. rewrite Hplans.
  destruct (for_each_plan_cells e items t w h bs Hitems Ht Hw) as (w' & Hrun & Hw').
  destruct items as [|p items].
  - simpl. run. eexists. split; [reflexivity|].
    simpl in Hrun. injection Hrun as <-. eapply page_has_frame; [|exact Hw']. reflexivity.
  - cbn [truthy negb]. unfold mbind, M_bind, bind. rewrite Hrun.
    eexists. split; [reflexivity|].
    eapply page_has_frame; [|exact Hw']. reflexivity.
Qed.

Lemma uniform_rows_after nm rows rows' (C N : nat) :
  map (cells nm) rows' = map (λ c, c + N)%nat (map (cells nm) rows) →
  Forall (λ r, cells nm r = C) rows →
  Forall (λ r, cells nm r = (C + N)%nat) rows'.
Proof.
  intros Hmap HC. revert rows' Hmap.
  induction HC as [|r rows Hr _ IH]; intros [|r' rows']; simpl; try discriminate.
  - constructor.
  - intros [= H1 H2]. constructor; [congruence|apply IH, H2].
Qed.

(** C1.  For a change-set of N plan records and a target page whose head
    row has H header cells and whose table body has rows of C body cells
    each, a run of main leaves the page with H+N header cells in the head
    row and C+N body cells in every row of the table body: one th and one
    td per row for every plan. *)
Theorem columns_added_per_plan e w pf fields items t f row rows (H C : nat) :
  files w !! plan_file e = Some pf →
  json_view pf = Some (JObj fields) →
  lookup_key "plans" fields = Some (JArr items) →
  Forall (λ p, is_plan_change p = true) items →
  t ∈ TARGETS e →
  files w !! t = Some f →
  head_row (html_view f) = Some row → cells "th" row = H →
  body_rows (html_view f) = Some rows → Forall (λ r, cells "td" r = C) rows →
  ∃ w' f' row' rows',
    main e w = (Ok tt, w')
    ∧ files w' !! t = Some f'
    ∧ head_row (html_view f') = Some row'
    ∧ cells "th" row' = (H + length items)%nat
    ∧ body_rows (html_view f') = Some rows'
    ∧ length rows' = length rows
    ∧ Forall (λ r, cells "td" r = (C + length items)%nat) rows'.
Proof.
  intros Hpf Hj Hplans Hitems Ht Hf Hrow HH Hrows HC.
  destruct (main_cells e w pf fields items t H (Some (map (cells "td") rows))
              Hpf Hj Hplans Hitems Ht) as (w' & Hrun & f' & Hf' & Hh' & Hb').
  { exists f. unfold head_cells, body_cells. rewrite Hrow, Hrows, <- HH. done. }
  unfold head_cells in Hh'. unfold body_cells in Hb'.
  destruct (head_row (html_view f')) as [row'|] eqn:Hrow'; [|discriminate].
  destruct (body_rows (html_view f')) as [rows'|] eqn:Hrows'; [|discriminate].
  injection Hh' as Hh'. injection Hb' as Hb'.
  exists w', f', row', rows'. do 5 (split; [done|]).
  split.
  - apply (f_equal length) in Hb'. rewrite !length_map in Hb'. exact Hb'.
  - eapply uniform_rows_after; eassumption.
Qed.

Lemma columns_added_per_plan_witness :
  ∃ w' f' row' rows',
    main (run_with 1) (site (Some (Some vip_changes)) plain_page) = (Ok tt, w')
    ∧ files w' !! "/site/Pricingai.html" = Some f'
    ∧ head_row (html_view f') = Some row'
    ∧ cells "th" row' = (3 + length [vip_plan])%nat
    ∧ body_rows (html_view f') = Some rows'
    ∧ length rows' = length [Tag "tr" [] [td_cell "Seats"; td_cell "1"; td_cell "5"];
                             Tag "tr" [] [td_cell "Support"; td_cell "-"; td_cell "24/7"]]
    ∧ Forall (λ r, cells "td" r = (3 + length [vip_plan])%nat) rows'.
Proof.
  apply (columns_added_per_plan (run_with 1) (site (Some (Some vip_changes)) plain_page)
           (changes_file (Some vip_changes)) [("plans", JArr [vip_plan])] [vip_plan]
           "/site/Pricingai.html" {| json_view := None; html_view := plain_page |}
           (Tag "tr" [] [th_cell "Feature"; th_cell "Basic"; th_cell "Pro"])
           [Tag "tr" [] [td_cell "Seats"; td_cell "1"; td_cell "5"];
            Tag "tr" [] [td_cell "Support"; td_cell "-"; td_cell "24/7"]] 3 3).
  - vm_compute. reflexivity.
  - reflexivity.
  - reflexivity.
  - repeat constructor.
  - vm_compute. constructor.
  - vm_compute. reflexivity.
  - reflexivity.
  - reflexivity.
  - reflexivity.
  - repeat constructor.
Defined.

(* ===================================================================== *)
(** * Rows and columns after one plan *)
(* ===================================================================== *)

Lemma plain_header_no_rows th c : plain_header th → th = c → rows_outside_thead_in c = [].
Proof.
  intros Hth <-. apply no_rows_outside_thead, find_in_none_find_all.
  apply (plain_header_free th "tr" th Hth); [set_solver|reflexivity].
Qed.

Lemma plain_header_not_td th c : plain_header th → th = c → is_tag "td" c = false.
Proof. intros [Hth _] <-. eapply is_tag_unique; [exact Hth|done]. Qed.

Lemma grows_map_cells P nm rows rows' :
  (∀ c, P c → is_tag nm c = false) →
  Forall2 (grows P) rows rows' → map (cells nm) rows' = map (cells nm) rows.
Proof.
  intros HP. induction 1 as [|r r' rows rows' Hr _ IH]; [reflexivity|].
  simpl. rewrite IH, (grows_cells P nm r r' HP Hr). reflexivity.
Qed.

(** On a page without table body a plan changes the head row alone. *)
Lemma patch_soup_head_only th soup row :
  plain_header th → head_row soup = Some row → body_rows soup = None →
  ∃ soup',
    patch_soup th soup = Head_only soup'
    ∧ head_cells soup' = Some (S (cells "th" row))
    ∧ body_rows soup' = None
    ∧ map (cells "td") (rows_outside_thead soup') = map (cells "td") (rows_outside_thead soup).
Proof.
  intros Hth Hrow Hbody.
  destruct (patch_soup_spec th soup row Hth Hrow) as (soup' & row' & Hrow' & Hg & Hb).
  rewrite Hbody in Hb. destruct Hb as (Hp & Hb' & Hgs).
  exists soup'. split; [exact Hp|]. split; [|split; [exact Hb'|]].
  - destruct (patch_soup_cells th soup (cells "th" row) Hth) as (soup'' & Hp' & Hh & _).
    { unfold head_cells. rewrite Hrow. reflexivity. }
    destruct Hp' as [Hp'|Hp']; congruence.
  - apply (grows_map_cells (eq th)); [exact (λ c, plain_header_not_td th c Hth)|].
    apply grows_rows_outside_thead; [exact (λ c, plain_header_no_rows th c Hth)|exact Hgs].
Qed.

(** Every row of the table body receives one body cell, chosen by the
    row as it was. *)
Lemma patch_soup_body th soup row rows :
  plain_header th → head_row soup = Some row → body_rows soup = Some rows →
  ∃ soup' rows',
    patch_soup th soup = Patched soup'
    ∧ body_rows soup' = Some rows'
    ∧ Forall2 (λ r r', cells "td" r' = S (cells "td" r) ∧ last_child r' = Some (new_td r))
              rows rows'.
Proof.
  intros Hth Hrow Hbody.
  destruct (patch_soup_spec th soup row Hth Hrow) as (soup' & row' & Hrow' & Hg & Hb).
  rewrite Hbody in Hb. destruct Hb as (Hp & rows' & Hb' & Hrows).
  exists soup', rows'. split; [exact Hp|]. split; [exact Hb'|].
  pose proof (body_rows_are_tags soup rows Hbody) as Htags.
  clear -Hth Hrows Htags.
  induction Hrows as [|r r' rows rows' Hr _ IH]; [constructor|].
  inversion Htags; subst. constructor; [|apply IH; assumption].
  split; [eapply row_patched_cells|eapply row_patched_last]; eassumption.
Qed.

Lemma forallb_eqb_succ h l :
  forallb (Nat.eqb (S h)) (map S l) = forallb (Nat.eqb h) l.
Proof. induction l as [|x l IH]; [reflexivity|]. cbn [map forallb]. rewrite IH. reflexivity. Qed.

(** C2, amended.  On a page that has a table body, a plan keeps the
    agreement between the header cells of the head row and the body cells
    of every row of the table body.  On a page with a table head and no
    table body the head row gains its header cell and no row of the page
    gains a body cell. *)
Theorem columns_agree_after_plan key path name monthly w f row :
  files w !! path = Some f →
  head_row (html_view f) = Some row →
  ∃ w' f',
    append_plan_to_file key path (JStr name) monthly w = (Ok tt, w')
    ∧ files w' !! path = Some f'
    ∧ match body_rows (html_view f) with
      | Some rows =>
          ∃ rows', body_rows (html_view f') = Some rows'
                   ∧ (columns_agree (html_view f) rows = true →
                      columns_agree (html_view f') rows' = true)
      | None =>
          body_rows (html_view f') = None
          ∧ head_cells (html_view f') = Some (S (cells "th" row))
          ∧ map (cells "td") (rows_outside_thead (html_view f'))
            = map (cells "td") (rows_outside_thead (html_view f))
      end.
Proof.
  intros Hf Hrow.
  pose proof (make_header_th_plain key name monthly) as Hth.
  destruct (append_plan_to_file_writes key path name monthly w f row Hf Hrow)
    as (soup' & w' & Hrun & Hfiles & Hpatch).
  exists w', (written soup'). split; [exact Hrun|].
  split; [rewrite Hfiles; apply lookup_insert_eq|]. simpl.
  destruct (body_rows (html_view f)) as [rows|] eqn:Hbody.
  - destruct (patch_soup_cells _ (html_view f) (cells "th" row) Hth) as (s & Hp & Hh & Hb).
    { unfold head_cells. rewrite Hrow. reflexivity. }
    assert (s = soup') as -> by (destruct Hp, Hpatch; congruence).
    unfold body_cells in Hb. rewrite Hbody in Hb.
    destruct (body_rows soup') as [rows1|] eqn:Hbody1; [|discriminate].
    injection Hb as Hb.
    exists (map reparse_tag rows1). split; [rewrite reparse_body_rows, Hbody1; reflexivity|].
    unfold columns_agree. rewrite reparse_head_cells, Hh.
    assert (head_cells (html_view f) = Some (cells "th" row)) as ->
      by (unfold head_cells; rewrite Hrow; reflexivity).
    rewrite map_reparse_cells, Hb, forallb_eqb_succ. trivial.
  - destruct (patch_soup_head_only _ (html_view f) row Hth Hrow Hbody)
      as (s & Hp & Hh & Hb & Hrows).
    assert (s = soup') as -> by (destruct Hpatch; congruence).
    rewrite reparse_body_rows, Hb, reparse_head_cells, Hh.
    rewrite reparse_rows_outside_thead, map_reparse_cells, Hrows. done.
Qed.

Lemma columns_agree_after_plan_witness :
  ∃ w' f',
    append_plan_to_file (secret_of_seed 1) "/site/Pricingai.html" (JStr "VIP") 15999
      (site None plain_page) = (Ok tt, w')
    ∧ files w' !! "/site/Pricingai.html" = Some f'
    ∧ match body_rows plain_page with
      | Some rows =>
          ∃ rows', body_rows (html_view f') = Some rows'
                   ∧ (columns_agree plain_page rows = true →
                      columns_agree (html_view f') rows' = true)
      | None =>
          body_rows (html_view f') = None
          ∧ head_cells (html_view f')
            = Some (S (cells "th" (Tag "tr" [] [th_cell "Feature"; th_cell "Basic"; th_cell "Pro"])))
          ∧ map (cells "td") (rows_outside_thead (html_view f'))
            = map (cells "td") (rows_outside_thead plain_page)
      end.
Proof.
  apply (columns_agree_after_plan (secret_of_seed 1) "/site/Pricingai.html" "VIP" 15999
           (site None plain_page) {| json_view := None; html_view := plain_page |}
           (Tag "tr" [] [th_cell "Feature"; th_cell "Basic"; th_cell "Pro"])).
  - vm_compute. reflexivity.
  - reflexivity.
Defined.

(** C2 as stated fails on a table written without tbody: the head row
    and the one row below it agree on two cells before the plan; after
    it the head row has three header cells and the row still two body
    cells. *)
Lemma agreement_lost_without_tbody :
  head_cells page_without_tbody = Some 2%nat
  ∧ body_rows page_without_tbody = None
  ∧ map (cells "td") (rows_outside_thead page_without_tbody) = [2%nat]
  ∧ columns_agree page_without_tbody (rows_outside_thead page_without_tbody) = true
  ∧ ∃ w' f',
      append_plan_to_file (secret_of_seed 1) "/site/Pricingai.html" (JStr "VIP") 15999
        (site None page_without_tbody) = (Ok tt, w')
      ∧ files w' !! "/site/Pricingai.html" = Some f'
      ∧ head_cells (html_view f') = Some 3%nat
      ∧ map (cells "td") (rows_outside_thead (html_view f')) = [2%nat]
      ∧ columns_agree (html_view f') (rows_outside_thead (html_view f')) = false.
Proof.
  do 4 (split; [reflexivity|]).
  eexists _, _. split; [vm_compute; reflexivity|].
  split; [vm_compute; reflexivity|]. repeat split.
Qed.

(** The page as it stands in memory before it is written, with the rows
    of its table body. *)
Lemma append_plan_to_file_body key path name monthly w f row rows :
  files w !! path = Some f →
  head_row (html_view f) = Some row →
  body_rows (html_view f) = Some rows →
  ∃ w' soup' rows',
    append_plan_to_file key path (JStr name) monthly w = (Ok tt, w')
    ∧ files w' !! path = Some (written soup')
    ∧ body_rows soup' = Some rows'
    ∧ Forall2 (λ r r', cells "td" r' = S (cells "td" r) ∧ last_child r' = Some (new_td r))
              rows rows'.
Proof.
  intros Hf Hrow Hbody.
  pose proof (make_header_th_plain key name monthly) as Hth.
  destruct (append_plan_to_file_writes key path name monthly w f row Hf Hrow)
    as (soup' & w' & Hrun & Hfiles & Hpatch).
  destruct (patch_soup_body _ _ row rows Hth Hrow Hbody) as (s & rows' & Hp & Hb & Hrows).
  assert (s = soup') as -> by (destruct Hpatch; congruence).
  exists w', soup', rows'. split; [exact Hrun|].
  split; [rewrite Hfiles; apply lookup_insert_eq|]. split; assumption.
Qed.

(** C4, amended.  Every row of the table body receives exactly one body
    cell per plan, as its last child: the filler cell, whose text is
    empty, when the first td below the row carries a colspan attribute,
    and the cell with the placeholder in every other case. *)
Theorem rows_receive_filler_or_placeholder key path name monthly w f row rows :
  files w !! path = Some f →
  head_row (html_view f) = Some row →
  body_rows (html_view f) = Some rows →
  ∃ w' soup' rows',
    append_plan_to_file key path (JStr name) monthly w = (Ok tt, w')
    ∧ files w' !! path = Some (written soup')
    ∧ body_rows soup' = Some rows'
    ∧ Forall2 (λ r r',
                 cells "td" r' = S (cells "td" r)
                 ∧ last_child r' = Some (if is_section_header r then filler_td
                                         else placeholder_td))
              rows rows'
    ∧ text_of filler_td = ""
    ∧ text_of placeholder_td = "-".
Proof.
  intros Hf Hrow Hbody.
  destruct (append_plan_to_file_body key path name monthly w f row rows Hf Hrow Hbody)
    as (w' & soup' & rows' & Hrun & Hf' & Hb & Hrows).
  exists w', soup', rows'. repeat split; assumption.
Qed.

Lemma rows_receive_filler_or_placeholder_witness :
  ∃ w' soup' rows',
    append_plan_to_file (secret_of_seed 1) "/site/Pricingai.html" (JStr "VIP") 15999
      (site None pricing_page) = (Ok tt, w')
    ∧ files w' !! "/site/Pricingai.html" = Some (written soup')
    ∧ body_rows soup' = Some rows'
    ∧ Forall2 (λ r r',
                 cells "td" r' = S (cells "td" r)
                 ∧ last_child r' = Some (if is_section_header r then filler_td
                                         else placeholder_td))
              [Tag "tr" [] [td_cell "Seats"; td_cell "1"; td_cell "5"];
               Tag "tr" [] [Tag "td" [("colspan", "3")] [Text "Add-ons"]]]
              rows'
    ∧ text_of filler_td = ""
    ∧ text_of placeholder_td = "-".
Proof.
  apply (rows_receive_filler_or_placeholder (secret_of_seed 1) "/site/Pricingai.html"
           "VIP" 15999 (site None pricing_page)
           {| json_view := None; html_view := pricing_page |}
           (Tag "tr" [] [th_cell "Feature"; th_cell "Basic"; th_cell "Pro"])).
  - vm_compute. reflexivity.
  - reflexivity.
  - reflexivity.
Defined.

(** C4 as stated fails on a section header made of a th: the first cell
    of the row carries a colspan attribute, and the row receives the
    placeholder. *)
Lemma th_section_row_gets_placeholder :
  body_rows page_with_th_rows = Some [th_section_row; th_then_wide_td_row]
  ∧ first_cell_spans th_section_row = true
  ∧ (files (snd (append_plan_to_file (secret_of_seed 1) "/site/Pricingai.html" (JStr "VIP")
                   15999 (site None page_with_th_rows)))
       !! "/site/Pricingai.html" ≫= λ f, body_rows (html_view f))
    = Some [append placeholder_td th_section_row;
            append (reparse_tag filler_td) th_then_wide_td_row]
  ∧ text_of placeholder_td = "-".
Proof. vm_compute. repeat split. Qed.

(** C9, amended.  The cell a row receives is decided by the first td
    below the row and by nothing else: a row with no td at all receives
    the placeholder, whatever its first cell carries, and a row with a td
    receives the filler when the first of them carries a colspan
    attribute and the placeholder when it does not, also when the row
    begins with a th. *)
Theorem cell_decided_by_first_td key path name monthly w f row rows :
  files w !! path = Some f →
  head_row (html_view f) = Some row →
  body_rows (html_view f) = Some rows →
  ∃ w' soup' rows',
    append_plan_to_file key path (JStr name) monthly w = (Ok tt, w')
    ∧ files w' !! path = Some (written soup')
    ∧ body_rows soup' = Some rows'
    ∧ Forall2 (λ r r',
                 match find "td" (contents_of r) with
                 | None => last_child r' = Some placeholder_td
                 | Some first_td =>
                     last_child r' = Some (if has_attr "colspan" first_td then filler_td
                                           else placeholder_td)
                 end)
              rows rows'.
Proof.
  intros Hf Hrow Hbody.
  destruct (append_plan_to_file_body key path name monthly w f row rows Hf Hrow Hbody)
    as (w' & soup' & rows' & Hrun & Hf' & Hb & Hrows).
  exists w', soup', rows'. do 3 (split; [assumption|]).
  eapply Forall2_impl; [exact Hrows|]. intros r r' [_ Hlast]. simpl in Hlast.
  unfold new_td, is_section_header in Hlast.
  destruct (find "td" (contents_of r)); exact Hlast.
Qed.

Lemma cell_decided_by_first_td_witness :
  ∃ w' soup' rows',
    append_plan_to_file (secret_of_seed 1) "/site/Pricingai.html" (JStr "VIP") 15999
      (site None page_with_th_rows) = (Ok tt, w')
    ∧ files w' !! "/site/Pricingai.html" = Some (written soup')
    ∧ body_rows soup' = Some rows'
    ∧ Forall2 (λ r r',
                 match find "td" (contents_of r) with
                 | None => last_child r' = Some placeholder_td
                 | Some first_td =>
                     last_child r' = Some (if has_attr "colspan" first_td then filler_td
                                           else placeholder_td)
                 end)
              [th_section_row; th_then_wide_td_row] rows'.
Proof.
  apply (cell_decided_by_first_td (secret_of_seed 1) "/site/Pricingai.html"
           "VIP" 15999 (site None page_with_th_rows)
           {| json_view := None; html_view := page_with_th_rows |}
           (Tag "tr" [] [th_cell "Feature"; th_cell "Basic"; th_cell "Pro"])).
  - vm_compute. reflexivity.
  - reflexivity.
  - reflexivity.
Defined.

(** C9 as stated fails on a row that begins with a th and goes on with a
    spanning td: its first cell is a th, and it receives the filler. *)
Lemma th_first_row_gets_filler :
  body_rows page_with_th_rows = Some [th_section_row; th_then_wide_td_row]
  ∧ (is_tag "th" <$> first_cell th_then_wide_td_row) = Some true
  ∧ (has_attr "colspan" <$> find "td" (contents_of th_then_wide_td_row)) = Some true
  ∧ (files (snd (append_plan_to_file (secret_of_seed 2) "/site/Pricingai.html" (JStr "VIP")
                   15999 (site None page_with_th_rows)))
       !! "/site/Pricingai.html" ≫= λ f, last_child <$> (body_rows (html_view f) ≫= last))
    = Some (Some (reparse_tag filler_td))
  ∧ text_of (reparse_tag filler_td) = "".
Proof. vm_compute. repeat split. Qed.

(** The end-to-end scenario: the plan VIP at 15999 on a page with three
    header cells, a normal row and a separator row. *)
Example end_to_end_scenario :
  fst (main (run_with 1) (site (Some (Some vip_changes)) pricing_page)) = Ok tt
  ∧ (files (snd (main (run_with 1) (site (Some (Some vip_changes)) pricing_page)))
       !! "/site/Pricingai.html" ≫= λ f, head_cells (html_view f)) = Some 4%nat
  ∧ (files (snd (main (run_with 1) (site (Some (Some vip_changes)) pricing_page)))
       !! "/site/Pricingai.html" ≫= λ f, body_rows (html_view f))
    = Some [Tag "tr" [] [td_cell "Seats"; td_cell "1"; td_cell "5";
                         Tag "td" [("class", "px-6 py-4 text-center")] [Text "-"]];
            Tag "tr" [] [Tag "td" [("colspan", "3")] [Text "Add-ons"];
                         Tag "td" [("class", "px-6 py-3")] []]]
  ∧ console (snd (main (run_with 1) (site (Some (Some vip_changes)) pricing_page)))
    = [Applying_plan (JStr "VIP") 15999 "/site/Pricingai.html";
       Updated "/site/Pricingai.html";
       Target_not_found "/site/Pricinghuman.html";
       Target_not_found "/site/Pricinghybrid.html";
       Done].
Proof. vm_compute. repeat split. Qed.

(* ===================================================================== *)
(** * Thousands grouping *)
(* ===================================================================== *)

Lemma digits_of_uint d :
  Forall no_comma (list_ascii_of_string (NilEmpty.string_of_uint d)).
Proof. induction d; simpl; constructor; (reflexivity || assumption). Qed.

Lemma digits_of_nat_text d :
  Forall no_comma (list_ascii_of_string (NilZero.string_of_uint d))
  ∧ list_ascii_of_string (NilZero.string_of_uint d) ≠ [].
Proof.
  destruct d; simpl; (split; [|discriminate]);
    try (constructor; [reflexivity|apply digits_of_uint]).
  repeat constructor.
Qed.

Lemma py_str_abs n :
  Forall no_comma (list_ascii_of_string (py_str (Z.abs n)))
  ∧ list_ascii_of_string (py_str (Z.abs n)) ≠ [].
Proof.
  unfold py_str. destruct n as [|p|p]; simpl;
    [split; [repeat constructor|discriminate]|apply digits_of_nat_text..].
Qed.

Lemma py_str_sign n :
  py_str n = (if n <? 0 then "-" else "") +:+ py_str (Z.abs n).
Proof. destruct n; reflexivity. Qed.

Lemma filter_group_rev k ds :
  Forall no_comma ds →
  List.filter (fun c => negb (Ascii.eqb c ",")) (group_rev k ds) = ds.
Proof.
  intros H. revert k. induction H as [|d ds Hd _ IH]; intros k; [reflexivity|].
  simpl. destruct k as [|[|[|[|k]]]]; simpl; rewrite Hd; simpl; rewrite IH; reflexivity.
Qed.

Lemma grouped_group_rev k ds :
  (k ≤ 3)%nat → (0 < k)%nat ∨ ds ≠ [] → Forall no_comma ds →
  grouped_rev k (group_rev k ds) = true.
Proof.
  intros Hk Hne H. revert k Hk Hne. induction H as [|d ds Hd _ IH]; intros k Hk Hne.
  - simpl. destruct k; [destruct Hne as [?|?]; [lia|done]|reflexivity].
  - destruct k as [|[|[|[|k]]]]; try lia; simpl; rewrite Hd; simpl;
      apply IH; (lia || (left; lia)).
Qed.

Lemma filter_no_comma ds :
  Forall no_comma ds → List.filter (fun c => negb (Ascii.eqb c ",")) ds = ds.
Proof.
  induction 1 as [|d ds Hd _ IH]; [reflexivity|]. simpl. rewrite Hd. simpl. rewrite IH. reflexivity.
Qed.

Lemma ungroup_group_digits s :
  Forall no_comma (list_ascii_of_string s) → ungroup (group_digits s) = s.
Proof.
  intros H. unfold ungroup, group_digits.
  rewrite list_ascii_of_string_of_list_ascii.
  rewrite <- (rev_involutive (List.filter _ _)), <- List.filter_rev, rev_involutive.
  rewrite filter_group_rev by (apply Forall_rev, H).
  rewrite rev_involutive. apply string_of_list_ascii_of_string.
Qed.

(** The grouped text of a number: without its commas it is the decimal
    numeral, and its digits stand in groups of three from the right. *)
Lemma py_format_comma_grouping n :
  ungroup (py_format_comma n) = py_str n
  ∧ py_format_comma n = (if n <? 0 then "-" else "") +:+ py_format_comma (Z.abs n)
  ∧ thousands_grouped (py_format_comma (Z.abs n)) = true.
Proof.
  destruct (py_str_abs n) as [Hd Hne].
  assert (py_format_comma (Z.abs n) = group_digits (py_str (Z.abs n))) as Habs.
  { unfold py_format_comma. rewrite Z.abs_idemp.
    destruct (Z.abs n <? 0) eqn:E; [lia|reflexivity]. }
  split; [|split].
  - rewrite (py_str_sign n). unfold py_format_comma.
    destruct (n <? 0).
    + change (ungroup ("-" +:+ ?s)) with (String "-" (ungroup s)).
      simpl. f_equal. apply ungroup_group_digits, Hd.
    + apply ungroup_group_digits, Hd.
  - rewrite Habs. reflexivity.
  - rewrite Habs. unfold thousands_grouped, group_digits.
    rewrite list_ascii_of_string_of_list_ascii, rev_involutive.
    apply grouped_group_rev; [lia| |apply Forall_rev, Hd].
    right. intros Hrev. apply Hne. apply (f_equal (@rev ascii)) in Hrev.
    rewrite rev_involutive in Hrev. exact Hrev.
Qed.

(* ===================================================================== *)
(** * The identifier and the price text of a header cell *)
(* ===================================================================== *)

Lemma id_number_range key name monthly : 0 ≤ id_number key name monthly < 10 ^ 9.
Proof. unfold id_number. apply Z.mod_pos_bound. reflexivity. Qed.

Lemma reparse_tag_attr k n : attr k (reparse_tag n) = attr k n.
Proof. destruct n; reflexivity. Qed.

Lemma reparse_header_id th : header_id (reparse_tag th) = header_id th.
Proof.
  unfold header_id, price_span. rewrite reparse_tag_contents, reparse_find.
  destruct (find "span" (contents_of th)) as [span|]; [|reflexivity].
  simpl. apply reparse_tag_attr.
Qed.

(** C7 as stated fails across runs: the plan VIP at 15999 receives one
    identifier in a run under PYTHONHASHSEED=1 and another in a run
    under PYTHONHASHSEED=2. *)
Lemma header_id_differs_between_runs :
  header_id (make_header_th (secret_of_seed 1) "VIP" 15999) = Some "price298425739"
  ∧ header_id (make_header_th (secret_of_seed 2) "VIP" 15999) = Some "price406177727"
  ∧ ids_in_page "/site/Pricingai.html"
      (snd (main (run_with 1) (site (Some (Some vip_changes)) pricing_page)))
    = ["price298425739"]
  ∧ ids_in_page "/site/Pricingai.html"
      (snd (main (run_with 2) (site (Some (Some vip_changes)) pricing_page)))
    = ["price406177727"].
Proof. vm_compute. repeat split. Qed.

(** C3: the price text at the input of the claim.  The prefix the script
    writes is not the rupee sign (one code point, U+20B9) but the three
    code points U+00E2 U+201A U+00B9. *)
Theorem price_text_of_1999 :
  price_text 1999 = "â‚¹1,999"
  ∧ py_format_comma 1999 = "1,999"
  ∧ utf8_decode (bytes_of_string price_prefix) = [0xE2; 0x201A; 0xB9]
  ∧ utf8_decode (bytes_of_string "₹") = [0x20B9]
  ∧ header_price (make_header_th (secret_of_seed 0) "VIP" 1999) = Some "â‚¹1,999"
  ∧ String.eqb (price_text 1999) "₹1,999" = false.
Proof. vm_compute. repeat split. Qed.

(* ===================================================================== *)
(** * The change-set: loading and defaults *)
(* ===================================================================== *)

(** C5, amended.  The loader exits the process with status 1 when the
    file does not exist; a file that is not JSON makes it fail with the
    parser's exception; on a JSON object it returns the value under the
    key plans, and an empty sequence when the key is absent.  When what
    the loader returns is empty, main reports that there is nothing to
    apply and ends with status 0, leaving every file as it was. *)
Theorem load_changes_contract e w :
  (files w !! plan_file e = None →
     load_changes (plan_file e) w = (Exit 1, say (Error_not_found (plan_file e)) w)
     ∧ exit_status (fst (main e w)) = 1
     ∧ files (snd (main e w)) = files w)
  ∧ (∀ pf, files w !! plan_file e = Some pf → json_view pf = None →
       load_changes (plan_file e) w = (Raise Json_decode_error, w)
       ∧ main e w = (Raise Json_decode_error, w))
  ∧ (∀ pf fields, files w !! plan_file e = Some pf → json_view pf = Some (JObj fields) →
       load_changes (plan_file e) w
       = (Ok (match lookup_key "plans" fields with Some v => v | None => JArr [] end), w))
  ∧ (∀ plans, load_changes (plan_file e) w = (Ok plans, w) → truthy plans = false →
       main e w = (Ok tt, say No_plans_to_apply w)
       ∧ exit_status (fst (main e w)) = 0
       ∧ files (snd (main e w)) = files w).
Proof.
  split; [|split; [|split]].
  - intros Hf. unfold main, load_changes. run. rewrite Hf. done.
  - intros pf Hf Hj. unfold main, load_changes. run. rewrite Hf, Hj. run. repeat split.
  - intros pf fields Hf Hj. unfold load_changes, dict_get. run. rewrite Hf, Hj. reflexivity.
  - intros plans Hload Hempty.
    assert (main e w = (Ok tt, say No_plans_to_apply w)) as ->; [|repeat split].
    unfold main. unfold mbind at 1, M_bind, bind. rewrite Hload, Hempty. reflexivity.
Qed.

Lemma load_changes_contract_witness :
  (load_changes (plan_file (run_with 1)) (site None pricing_page)
   = (Exit 1, say (Error_not_found (plan_file (run_with 1))) (site None pricing_page))
   ∧ exit_status (fst (main (run_with 1) (site None pricing_page))) = 1
   ∧ files (snd (main (run_with 1) (site None pricing_page))) = files (site None pricing_page))
  ∧ (load_changes (plan_file (run_with 1)) (site (Some None) pricing_page)
     = (Raise Json_decode_error, site (Some None) pricing_page)
     ∧ main (run_with 1) (site (Some None) pricing_page)
       = (Raise Json_decode_error, site (Some None) pricing_page))
  ∧ load_changes (plan_file (run_with 1)) (site (Some (Some vip_changes)) pricing_page)
    = (Ok (match lookup_key "plans" [("plans", JArr [vip_plan])] with
           | Some v => v
           | None => JArr []
           end), site (Some (Some vip_changes)) pricing_page)
  ∧ (main (run_with 1) (site (Some (Some (JObj []))) pricing_page)
     = (Ok tt, say No_plans_to_apply (site (Some (Some (JObj []))) pricing_page))
     ∧ exit_status (fst (main (run_with 1) (site (Some (Some (JObj []))) pricing_page))) = 0
     ∧ files (snd (main (run_with 1) (site (Some (Some (JObj []))) pricing_page)))
       = files (site (Some (Some (JObj []))) pricing_page)).
Proof.
  split; [|split; [|split]].
  - apply (proj1 (load_changes_contract (run_with 1) (site None pricing_page))).
    vm_compute. reflexivity.
  - apply (proj1 (proj2 (load_changes_contract (run_with 1) (site (Some None) pricing_page)))
             (changes_file None)).
    + vm_compute. reflexivity.
    + reflexivity.
  - apply (proj1 (proj2 (proj2 (load_changes_contract (run_with 1)
                                  (site (Some (Some vip_changes)) pricing_page))))
             (changes_file (Some vip_changes))).
    + vm_compute. reflexivity.
    + reflexivity.
  - apply (proj2 (proj2 (proj2 (load_changes_contract (run_with 1)
                                  (site (Some (Some (JObj []))) pricing_page))))
             (JArr [])).
    + vm_compute. reflexivity.
    + reflexivity.
Defined.

(** C5 as stated fails on a change-set that is a bare array of plans:
    the text is JSON and has no key plans, for which the contract
    promises an empty sequence; the loader raises instead. *)
Lemma bare_array_is_not_loaded :
  json_view (changes_file (Some (JArr [vip_plan]))) = Some (JArr [vip_plan])
  ∧ plans_by_key (JArr [vip_plan]) = JArr []
  ∧ load_changes (plan_file (run_with 1)) (site (Some (Some (JArr [vip_plan]))) pricing_page)
    = (Raise No_get_attribute, site (Some (Some (JArr [vip_plan]))) pricing_page).
Proof. vm_compute. repeat split. Qed.

(** C10.  When the change-set is JSON whose top-level value is not an
    object, the loader raises, no handler catches the exception, and the
    run ends with it, no file changed: neither the empty sequence nor
    the array is returned. *)
Theorem non_object_changes_abort e w pf j :
  files w !! plan_file e = Some pf →
  json_view pf = Some j →
  is_object j = false →
  load_changes (plan_file e) w = (Raise No_get_attribute, w)
  ∧ main e w = (Raise No_get_attribute, w)
  ∧ exit_status (fst (main e w)) = 1.
Proof.
  intros Hf Hj Hobj.
  assert (load_changes (plan_file e) w = (Raise No_get_attribute, w)) as Hload.
  { unfold load_changes. run. rewrite Hf, Hj. destruct j; try reflexivity. discriminate. }
  assert (main e w = (Raise No_get_attribute, w)) as Hmain.
  { unfold main. unfold mbind at 1, M_bind, bind. rewrite Hload. reflexivity. }
  rewrite Hmain. repeat split; assumption.
Qed.

Lemma non_object_changes_abort_witness :
  load_changes (plan_file (run_with 1)) (site (Some (Some (JArr [vip_plan]))) pricing_page)
  = (Raise No_get_attribute, site (Some (Some (JArr [vip_plan]))) pricing_page)
  ∧ main (run_with 1) (site (Some (Some (JArr [vip_plan]))) pricing_page)
    = (Raise No_get_attribute, site (Some (Some (JArr [vip_plan]))) pricing_page)
  ∧ exit_status (fst (main (run_with 1) (site (Some (Some (JArr [vip_plan]))) pricing_page))) = 1.
Proof.
  apply (non_object_changes_abort (run_with 1)
           (site (Some (Some (JArr [vip_plan]))) pricing_page)
           (changes_file (Some (JArr [vip_plan]))) (JArr [vip_plan])).
  - vm_compute. reflexivity.
  - reflexivity.
  - reflexivity.
Defined.

(** C8, amended.  The name used is the value under [name] when that
    value counts as true, and "New Plan" when the key is absent or its
    value counts as false (the empty text, null, 0).  The price used is
    [int] of the value under [monthly] when it counts as true, else of
    the value under [monthly_price] when that counts as true, and 0 when
    neither does; [int] of an integer is the integer. *)
Theorem plan_defaults fields :
  (absent_or_falsy "name" fields = false → plan_name fields = name_by_key fields)
  ∧ (absent_or_falsy "name" fields = true → plan_name fields = JStr "New Plan")
  ∧ (absent_or_falsy "monthly" fields = false →
       plan_monthly fields = py_int (monthly_by_key fields))
  ∧ (absent_or_falsy "monthly" fields = true →
     absent_or_falsy "monthly_price" fields = false →
       plan_monthly fields = py_int (dict_get "monthly_price" JNull fields))
  ∧ (absent_or_falsy "monthly" fields = true →
     absent_or_falsy "monthly_price" fields = true →
       plan_monthly fields = inr 0)
  ∧ (∀ n, py_int (JNum n) = inr n).
Proof.
  unfold absent_or_falsy, plan_name, plan_monthly, name_by_key, monthly_by_key, dict_get, py_or.
  destruct (lookup_key "name" fields) as [vn|];
    destruct (lookup_key "monthly" fields) as [vm|];
    destruct (lookup_key "monthly_price" fields) as [vp|];
    simpl;
    repeat match goal with
           | |- context [truthy ?v] => is_var v; destruct (truthy v) eqn:?
           end;
    simpl; repeat split; intros; done.
Qed.

Lemma plan_defaults_witness :
  plan_name [("name", JStr "VIP"); ("monthly", JNum 15999)]
  = name_by_key [("name", JStr "VIP"); ("monthly", JNum 15999)]
  ∧ plan_name plan_with_falsy_values = JStr "New Plan"
  ∧ plan_monthly [("name", JStr "VIP"); ("monthly", JNum 15999)]
    = py_int (monthly_by_key [("name", JStr "VIP"); ("monthly", JNum 15999)])
  ∧ plan_monthly plan_with_falsy_values
    = py_int (dict_get "monthly_price" JNull plan_with_falsy_values)
  ∧ plan_monthly [("name", JStr "VIP")] = inr 0.
Proof.
  split; [|split; [|split; [|split]]].
  - apply (proj1 (plan_defaults [("name", JStr "VIP"); ("monthly", JNum 15999)])). reflexivity.
  - apply (proj1 (proj2 (plan_defaults plan_with_falsy_values))). reflexivity.
  - apply (proj1 (proj2 (proj2 (plan_defaults [("name", JStr "VIP"); ("monthly", JNum 15999)])))).
    reflexivity.
  - apply (proj1 (proj2 (proj2 (proj2 (plan_defaults plan_with_falsy_values)))));
      reflexivity.
  - apply (proj1 (proj2 (proj2 (proj2 (proj2 (plan_defaults [("name", JStr "VIP")]))))));
      reflexivity.
Defined.

(** C8 as stated fails on a record that has the keys with values that
    count as false: the name is present and "New Plan" is used; monthly
    is present with value 0 and the value of monthly_price is used. *)
Lemma falsy_values_are_replaced :
  lookup_key "name" plan_with_falsy_values = Some (JStr "")
  ∧ name_by_key plan_with_falsy_values = JStr ""
  ∧ plan_name plan_with_falsy_values = JStr "New Plan"
  ∧ lookup_key "monthly" plan_with_falsy_values = Some (JNum 0)
  ∧ monthly_by_key plan_with_falsy_values = JNum 0
  ∧ plan_monthly plan_with_falsy_values = inr 500.
Proof. vm_compute. repeat split. Qed.

(* ===================================================================== *)
(** * Pages that are skipped, and what a run leaves alone *)
(* ===================================================================== *)

Lemma append_plan_to_file_no_head_row key path name monthly w f :
  files w !! path = Some f →
  head_row (html_view f) = None →
  append_plan_to_file key path name monthly w
  = (Ok tt,
     say (match find "thead" (html_view f) with
          | Some _ => Warning_no_header_row path
          | None => Warning_no_thead path
          end)
         (say (Applying_plan name monthly path) w)).
Proof.
  intros Hf Hrow. unfold append_plan_to_file. run. rewrite Hf.
  unfold head_row in Hrow. destruct (find "thead" _); [rewrite Hrow|]; reflexivity.
Qed.

(** X1.  A page that has no table head, or whose table head has no row,
    is skipped: the patcher prints the line that announces the plan and
    one warning, returns normally and writes nothing, whatever the name
    and the price it was given. *)
Theorem page_without_head_row_is_skipped key path name monthly w f :
  files w !! path = Some f →
  head_row (html_view f) = None →
  append_plan_to_file key path name monthly w
  = (Ok tt,
     say (match find "thead" (html_view f) with
          | Some _ => Warning_no_header_row path
          | None => Warning_no_thead path
          end)
         (say (Applying_plan name monthly path) w))
  ∧ files (snd (append_plan_to_file key path name monthly w)) = files w.
Proof.
  intros Hf Hrow. rewrite (append_plan_to_file_no_head_row key path name monthly w f Hf Hrow).
  split; reflexivity.
Qed.

Lemma page_without_head_row_is_skipped_witness :
  append_plan_to_file (secret_of_seed 1) "/site/Pricingai.html" (JStr "VIP") 15999
    (site None page_without_thead)
  = (Ok tt,
     say (match find "thead" page_without_thead with
          | Some _ => Warning_no_header_row "/site/Pricingai.html"
          | None => Warning_no_thead "/site/Pricingai.html"
          end)
         (say (Applying_plan (JStr "VIP") 15999 "/site/Pricingai.html")
            (site None page_without_thead)))
  ∧ files (snd (append_plan_to_file (secret_of_seed 1) "/site/Pricingai.html" (JStr "VIP") 15999
                  (site None page_without_thead)))
    = files (site None page_without_thead).
Proof.
  apply (page_without_head_row_is_skipped (secret_of_seed 1) "/site/Pricingai.html" (JStr "VIP")
           15999 (site None page_without_thead)
           {| json_view := None; html_view := page_without_thead |}).
  - vm_compute. reflexivity.
  - reflexivity.
Defined.

Lemma changed_within_refl ts w : changed_within ts w w.
Proof. intros t. split; [reflexivity|done]. Qed.

Lemma changed_within_trans ts w1 w2 w3 :
  changed_within ts w1 w2 → changed_within ts w2 w3 → changed_within ts w1 w3.
Proof.
  intros H12 H23 t. destruct (H12 t) as [Ha Hb], (H23 t) as [Hc Hd]. split.
  - intros Ht. rewrite Hc, Ha by assumption. reflexivity.
  - rewrite Hd, Hb. done.
Qed.

Lemma changed_within_mono ts ts' w w' :
  ts ⊆ ts' → changed_within ts w w' → changed_within ts' w w'.
Proof.
  intros Hsub Hw t. split; [|apply Hw]. intros Ht. apply Hw. intros Hin. apply Ht, Hsub, Hin.
Qed.

Lemma changed_within_say ts l w : changed_within ts w (say l w).
Proof. intros t. split; [reflexivity|done]. Qed.

Lemma changed_within_write path f0 f w :
  files w !! path = Some f0 →
  changed_within [path] w {| files := <[path := f]> (files w); console := console w |}.
Proof.
  intros Hf t. simpl. destruct (decide (t = path)) as [->|Hne].
  - rewrite lookup_insert_eq, Hf. split; [set_solver|done].
  - rewrite lookup_insert_ne by done. split; [reflexivity|done].
Qed.

(** The patcher changes no file but the page it is given, whatever the
    name and whatever the outcome. *)
Lemma append_plan_to_file_changed_within key path name monthly w :
  changed_within [path] w (snd (append_plan_to_file key path name monthly w)).
Proof.
  unfold append_plan_to_file. run.
  destruct (files w !! path) as [f|] eqn:Hf; [|apply changed_within_say].
  destruct (find "thead" _) as [thead|]; [|simpl; apply (changed_within_trans _ _ (say (Applying_plan name monthly path) w)); apply changed_within_say].
  destruct (find "tr" _) as [row|]; [|simpl; apply (changed_within_trans _ _ (say (Applying_plan name monthly path) w)); apply changed_within_say].
  destruct name; try apply changed_within_say.
  destruct (patch_body _); run.
  - intros t. simpl. destruct (decide (t = path)) as [->|Hne].
    + rewrite lookup_insert_eq, Hf. split; [set_solver|done].
    + rewrite lookup_insert_ne by done. split; [reflexivity|done].
  - intros t. simpl. destruct (decide (t = path)) as [->|Hne].
    + rewrite lookup_insert_eq, Hf. split; [set_solver|done].
    + rewrite lookup_insert_ne by done. split; [reflexivity|done].
Qed.

Lemma apply_to_target_changed_within e name monthly t w :
  changed_within [t] w (snd (apply_to_target e name monthly t w)).
Proof.
  unfold apply_to_target. run. destruct (files w !! t).
  - apply append_plan_to_file_changed_within.
  - apply changed_within_say.
Qed.

Lemma for_each_changed_within {A} ts (body : A → M unit) l w :
  (∀ x, x ∈ l → ∀ w, changed_within ts w (snd (body x w))) →
  changed_within ts w (snd (for_each body l w)).
Proof.
  revert w. induction l as [|x l IH]; intros w Hbody; [apply changed_within_refl|].
  rewrite for_each_cons. pose proof (Hbody x ltac:(left) w) as Hx.
  destruct (body x w) as [[[]|c|ex] w1]; simpl in *; [|assumption..].
  eapply changed_within_trans; [exact Hx|]. apply IH. intros y Hy. apply Hbody. right. exact Hy.
Qed.

Lemma apply_plan_changed_within e p w :
  changed_within (TARGETS e) w (snd (apply_plan e p w)).
Proof.
  destruct p as [| | | | |fields]; try apply changed_within_refl.
  unfold apply_plan. destruct (plan_monthly fields) as [ex|monthly]; [apply changed_within_refl|].
  change (changed_within (TARGETS e) w
            (snd (for_each (apply_to_target e (plan_name fields) monthly) (TARGETS e) w))).
  apply for_each_changed_within. intros t Ht w0.
  apply (changed_within_mono [t]); [|apply apply_to_target_changed_within].
  intros t' ->%list_elem_of_singleton. exact Ht.
Qed.

Lemma load_changes_files path w : files (snd (load_changes path w)) = files w.
Proof.
  unfold load_changes. run. destruct (files w !! path) as [f|]; [|reflexivity].
  destruct (json_view f) as [[]|]; reflexivity.
Qed.

Lemma main_changed_within e w : changed_within (TARGETS e) w (snd (main e w)).
Proof.
  unfold main. unfold mbind at 1, M_bind, bind.
  pose proof (load_changes_files (plan_file e) w) as Hl.
  destruct (load_changes (plan_file e) w) as [[plans|c|ex] w1]; simpl in Hl.
  - assert (changed_within (TARGETS e) w w1) as Hw1.
    { intros t. rewrite Hl. split; [reflexivity|done]. }
    eapply changed_within_trans; [exact Hw1|].
    destruct (truthy plans); simpl; [|apply changed_within_say].
    destruct plans as [| | | |items|]; try apply changed_within_refl.
    unfold mbind, M_bind, bind.
    pose proof (for_each_changed_within (TARGETS e) (apply_plan e) items w1
                  (λ p _, apply_plan_changed_within e p)) as Hitems.
    destruct (for_each (apply_plan e) items w1) as [[[]|c|ex] w2]; simpl in *; [|assumption..].
    eapply changed_within_trans; [exact Hitems|apply changed_within_say].
  - intros t. simpl. rewrite Hl. split; [reflexivity|done].
  - intros t. simpl. rewrite Hl. split; [reflexivity|done].
Qed.

(** X2.  A run changes no file other than the three target pages:
    whatever the change-set and however the run ends, a path that is not
    one of the targets names the same file after main as before. *)
Theorem main_changes_only_targets e w t :
  t ∉ TARGETS e → files (snd (main e w)) !! t = files w !! t.
Proof. intros Ht. apply main_changed_within, Ht. Qed.

Lemma main_changes_only_targets_witness :
  files (snd (main (run_with 1) (site (Some (Some vip_changes)) pricing_page)))
    !! "/site/plan_changes.json"
  = files (site (Some (Some vip_changes)) pricing_page) !! "/site/plan_changes.json".
Proof.
  apply (main_changes_only_targets (run_with 1) (site (Some (Some vip_changes)) pricing_page)
           "/site/plan_changes.json").
  vm_compute. intros H. repeat (apply elem_of_cons in H as [H|H]; [discriminate H|]). inversion H.
Defined.

(** X3.  A run neither creates nor removes a file: a path names a file
    after main exactly when it named one before, so that a target page
    that is missing stays missing. *)
Theorem main_creates_no_file e w t :
  files (snd (main e w)) !! t = None ↔ files w !! t = None.
Proof. apply main_changed_within. Qed.

(* ===================================================================== *)
(** * Runs without pages, and runs that fail *)
(* ===================================================================== *)

Lemma for_each_app {A} (body : A → M unit) l1 l2 w :
  for_each body (l1 ++ l2) w =
  match for_each body l1 w with
  | (Ok _, w') => for_each body l2 w'
  | (Exit c, w') => (Exit c, w')
  | (Raise ex, w') => (Raise ex, w')
  end.
Proof.
  revert w. induction l1 as [|x l1 IH]; intros w; [reflexivity|].
  simpl app. rewrite !for_each_cons. destruct (body x w) as [[[]|c|ex] w1]; [apply IH|reflexivity..].
Qed.

Lemma for_each_missing_targets e name monthly l w :
  Forall (λ t, files w !! t = None) l →
  for_each (apply_to_target e name monthly) l w
  = (Ok tt, {| files := files w; console := console w ++ map Target_not_found l |}).
Proof.
  revert w. induction l as [|t l IH]; intros w Hl.
  - simpl. rewrite app_nil_r. destruct w; reflexivity.
  - apply Forall_cons in Hl as [Ht Hl]. rewrite for_each_cons.
    unfold apply_to_target at 1. run. rewrite Ht. rewrite IH by exact Hl.
    simpl. rewrite <- app_assoc. reflexivity.
Qed.

Lemma for_each_plans_missing_targets e items w :
  Forall (λ p, is_plan_change p = true) items →
  Forall (λ t, files w !! t = None) (TARGETS e) →
  for_each (apply_plan e) items w
  = (Ok tt, {| files := files w;
               console := console w ++ flat_map (λ _, map Target_not_found (TARGETS e)) items |}).
Proof.
  intros Hitems. revert w. induction Hitems as [|p items Hp _ IH]; intros w Hw.
  - simpl. rewrite app_nil_r. destruct w; reflexivity.
  - apply is_plan_change_accepted in Hp as (fields & name & monthly & -> & Hname & Hmonthly).
    rewrite for_each_cons, (apply_plan_accepted e fields monthly w Hmonthly).
    rewrite for_each_missing_targets by exact Hw.
    rewrite IH by exact Hw. simpl. rewrite <- app_assoc. reflexivity.
Qed.

(** X4.  When none of the three target pages exists, a run over a
    change-set of plan records returns normally and leaves every file as
    it was; it prints, for each plan in turn, one line per target saying
    that the target was not found, and then the closing line. *)
Theorem missing_targets_are_skipped e w pf fields p items :
  files w !! plan_file e = Some pf →
  json_view pf = Some (JObj fields) →
  lookup_key "plans" fields = Some (JArr (p :: items)) →
  Forall (λ p, is_plan_change p = true) (p :: items) →
  Forall (λ t, files w !! t = None) (TARGETS e) →
  main e w
  = (Ok tt,
     {| files := files w;
        console := console w
                   ++ flat_map (λ _, map Target_not_found (TARGETS e)) (p :: items)
                   ++ [Done] |}).
Proof.
  intros Hf Hj Hplans Hitems Hw.
  unfold main. unfold mbind at 1, M_bind, bind.
  rewrite (load_changes_object e w pf fields Hf Hj).
  unfold dict_get. rewrite Hplans. cbn [truthy negb].
  unfold mbind, M_bind, bind.
  rewrite (for_each_plans_missing_targets e (p :: items) w Hitems Hw).
  unfold print, say. simpl. rewrite <- !app_assoc. reflexivity.
Qed.

Lemma missing_targets_are_skipped_witness :
  main (run_with 1) (site_without_pages vip_changes)
  = (Ok tt,
     {| files := files (site_without_pages vip_changes);
        console := console (site_without_pages vip_changes)
                   ++ flat_map (λ _, map Target_not_found (TARGETS (run_with 1))) [vip_plan]
                   ++ [Done] |}).
Proof.
  apply (missing_targets_are_skipped (run_with 1) (site_without_pages vip_changes)
           (changes_file (Some vip_changes)) [("plans", JArr [vip_plan])] vip_plan []).
  - vm_compute. reflexivity.
  - reflexivity.
  - reflexivity.
  - repeat constructor.
  - repeat constructor.
Defined.

Lemma apply_plan_error e p ex w :
  plan_error p = Some ex → apply_plan e p w = (Raise ex, w).
Proof.
  destruct p as [| | | | |fields]; simpl; try (intros [= <-]; reflexivity).
  intros H. assert (plan_monthly fields = inl ex) as Hm.
  { unfold plan_monthly.
    destruct (py_or (py_or (dict_get "monthly" JNull fields)
                           (dict_get "monthly_price" JNull fields)) (JNum 0))
      as [| | |s| |]; try discriminate; simpl; [|congruence..].
    destruct (ascii_only s); [|discriminate].
    destruct (int_of_text s); [discriminate|congruence]. }
  unfold apply_plan. rewrite Hm. reflexivity.
Qed.

(** X5.  A run is not undone when a plan fails.  When the change-set
    lists plan records followed by an item that is no object, or by a
    record whose price is a list, an object, or a text of ASCII
    characters that is no numeral, main ends with the exception of that
    item; the plans before it have been applied and written (the world
    is the one the loop over them leaves, a target page holding their
    columns), and no later plan is looked at. *)
Theorem bad_plan_aborts_after_earlier_plans e w pf fields good bad rest ex t h bs :
  files w !! plan_file e = Some pf →
  json_view pf = Some (JObj fields) →
  lookup_key "plans" fields = Some (JArr (good ++ bad :: rest)) →
  Forall (λ p, is_plan_change p = true) good →
  plan_error bad = Some ex →
  t ∈ TARGETS e →
  page_has t h bs w →
  ∃ w', main e w = (Raise ex, w')
        ∧ for_each (apply_plan e) good w = (Ok tt, w')
        ∧ page_has t (h + length good) (map (λ c, c + length good)%nat <$> bs) w'.
Proof.
  intros Hf Hj Hplans Hgood Hbad Ht Hw.
  destruct (for_each_plan_cells e good t w h bs Hgood Ht Hw) as (w' & Hrun & Hw').
  exists w'. split; [|split; assumption].
  unfold main. unfold mbind at 1, M_bind, bind.
  rewrite (load_changes_object e w pf fields Hf Hj).
  unfold dict_get. rewrite Hplans.
  assert (truthy (JArr (good ++ bad :: rest)) = true) as -> by (destruct good; reflexivity).
  cbn [negb]. unfold mbind, M_bind, bind.
  rewrite for_each_app, Hrun, for_each_cons, (apply_plan_error e bad ex w' Hbad). reflexivity.
Qed.

Lemma bad_plan_aborts_after_earlier_plans_witness :
  ∃ w', main (run_with 1)
          (site (Some (Some (JObj [("plans", JArr ([vip_plan] ++ JStr "Pro" :: [vip_plan]))])))
             plain_page)
        = (Raise No_get_attribute, w')
        ∧ for_each (apply_plan (run_with 1)) [vip_plan]
            (site (Some (Some (JObj [("plans", JArr ([vip_plan] ++ JStr "Pro" :: [vip_plan]))])))
               plain_page)
          = (Ok tt, w')
        ∧ page_has "/site/Pricingai.html" (3 + length [vip_plan])
            (map (λ c, c + length [vip_plan])%nat <$> Some [3%nat; 3%nat]) w'.
Proof.
  apply (bad_plan_aborts_after_earlier_plans (run_with 1)
           (site (Some (Some (JObj [("plans", JArr ([vip_plan] ++ JStr "Pro" :: [vip_plan]))])))
              plain_page)
           (changes_file (Some (JObj [("plans", JArr ([vip_plan] ++ JStr "Pro" :: [vip_plan]))])))
           [("plans", JArr ([vip_plan] ++ JStr "Pro" :: [vip_plan]))]
           [vip_plan] (JStr "Pro") [vip_plan] No_get_attribute "/site/Pricingai.html" 3
           (Some [3%nat; 3%nat])).
  - vm_compute. reflexivity.
  - reflexivity.
  - reflexivity.
  - repeat constructor.
  - reflexivity.
  - vm_compute. constructor.
  - exists {| json_view := None; html_view := plain_page |}.
    split; [vm_compute; reflexivity|]. split; reflexivity.
Defined.

(** The items X5 speaks of, and a plan record, which is none of them. *)
Example plan_error_cases :
  plan_error (JStr "Pro") = Some No_get_attribute
  ∧ plan_error (JObj [("name", JStr "VIP"); ("monthly", JArr [JNum 1])]) = Some Int_type_error
  ∧ plan_error (JObj [("name", JStr "VIP"); ("monthly_price", JStr "12a")]) = Some Int_value_error
  ∧ plan_error vip_plan = None.
Proof. repeat split. Qed.

Lemma append_plan_to_file_non_text_name key path name monthly w f row :
  files w !! path = Some f →
  head_row (html_view f) = Some row →
  is_str name = false →
  append_plan_to_file key path name monthly w
  = (Raise Name_not_str, say (Applying_plan name monthly path) w).
Proof.
  intros Hf Hrow Hname. unfold append_plan_to_file. run. rewrite Hf.
  unfold head_row in Hrow. destruct (find "thead" _) as [thead|]; [|discriminate].
  rewrite Hrow. destruct name; try reflexivity. discriminate.
Qed.

(** X6.  On a page that has a head row, a name that is not a text makes
    the patcher fail when the header cell is built: the line announcing
    the plan has been printed, the exception is raised, and no file has
    been written. *)
Theorem non_text_name_fails_before_writing key path name monthly w f row :
  files w !! path = Some f →
  head_row (html_view f) = Some row →
  is_str name = false →
  append_plan_to_file key path name monthly w
  = (Raise Name_not_str, say (Applying_plan name monthly path) w)
  ∧ files (snd (append_plan_to_file key path name monthly w)) = files w.
Proof.
  intros Hf Hrow Hname.
  rewrite (append_plan_to_file_non_text_name key path name monthly w f row Hf Hrow Hname).
  split; reflexivity.
Qed.

Lemma non_text_name_fails_before_writing_witness :
  append_plan_to_file (secret_of_seed 1) "/site/Pricingai.html" (JNum 7) 100
    (site None pricing_page)
  = (Raise Name_not_str,
     say (Applying_plan (JNum 7) 100 "/site/Pricingai.html") (site None pricing_page))
  ∧ files (snd (append_plan_to_file (secret_of_seed 1) "/site/Pricingai.html" (JNum 7) 100
                  (site None pricing_page)))
    = files (site None pricing_page).
Proof.
  apply (non_text_name_fails_before_writing (secret_of_seed 1) "/site/Pricingai.html" (JNum 7)
           100 (site None pricing_page) {| json_view := None; html_view := pricing_page |}
           (Tag "tr" [] [th_cell "Feature"; th_cell "Basic"; th_cell "Pro"])).
  - vm_compute. reflexivity.
  - reflexivity.
  - reflexivity.
Defined.

Lemma apply_to_target_non_text_name e name monthly t w :
  is_str name = false → files (snd (apply_to_target e name monthly t w)) = files w.
Proof.
  intros Hname. unfold apply_to_target. run.
  destruct (files w !! t) as [f|] eqn:Hf; [|reflexivity].
  destruct (head_row (html_view f)) as [row|] eqn:Hrow.
  - rewrite (append_plan_to_file_non_text_name _ _ _ _ _ f row Hf Hrow Hname). reflexivity.
  - rewrite (append_plan_to_file_no_head_row _ _ _ _ _ f Hf Hrow). reflexivity.
Qed.

(** X7.  A plan record whose name is not a text changes no file: every
    target is either missing, or skipped for want of a head row, or the
    place where the plan fails before anything is written. *)
Theorem non_text_name_changes_no_file e fields w :
  is_str (plan_name fields) = false →
  files (snd (apply_plan e (JObj fields) w)) = files w.
Proof.
  intros Hname. unfold apply_plan.
  destruct (plan_monthly fields) as [ex|monthly]; [reflexivity|].
  change (files (snd (for_each (apply_to_target e (plan_name fields) monthly) (TARGETS e) w))
          = files w).
  generalize (TARGETS e). intros l. revert w.
  induction l as [|t l IH]; intros w; [reflexivity|].
  rewrite for_each_cons.
  pose proof (apply_to_target_non_text_name e (plan_name fields) monthly t w Hname) as Ht.
  destruct (apply_to_target e (plan_name fields) monthly t w) as [[[]|c|ex] w1];
    simpl in Ht; [|exact Ht..].
  rewrite IH. exact Ht.
Qed.

Lemma non_text_name_changes_no_file_witness :
  files (snd (apply_plan (run_with 1) (JObj plan_named_by_number) (site None pricing_page)))
  = files (site None pricing_page).
Proof.
  apply (non_text_name_changes_no_file (run_with 1) plan_named_by_number
           (site None pricing_page)).
  reflexivity.
Defined.

(** X8.  When the value under plans is not an array no plan is applied
    and no file changes.  A value that counts as false (null, false, 0,
    the empty text, the empty object) is reported as nothing to apply and
    the run ends normally; a text or an object that counts as true fails
    at its first item, on [.get]; a number or true fails as not
    iterable. *)
Theorem plans_must_be_a_list e w pf fields v :
  files w !! plan_file e = Some pf →
  json_view pf = Some (JObj fields) →
  lookup_key "plans" fields = Some v →
  (∀ items, v ≠ JArr items) →
  main e w
  = (if truthy v
     then (Raise (match v with
                  | JObj _ | JStr _ => No_get_attribute
                  | _ => Not_iterable
                  end), w)
     else (Ok tt, say No_plans_to_apply w)).
Proof.
  intros Hf Hj Hplans Hv.
  unfold main. unfold mbind at 1, M_bind, bind.
  rewrite (load_changes_object e w pf fields Hf Hj).
  unfold dict_get. rewrite Hplans.
  destruct v as [|b|n|s|items|fs]; try (destruct (truthy _); reflexivity).
  exfalso. apply (Hv items). reflexivity.
Qed.

Lemma plans_must_be_a_list_witness :
  main (run_with 1) (site (Some (Some (JObj [("plans", JStr "VIP")]))) pricing_page)
  = (if truthy (JStr "VIP")
     then (Raise (match JStr "VIP" with
                  | JObj _ | JStr _ => No_get_attribute
                  | _ => Not_iterable
                  end), site (Some (Some (JObj [("plans", JStr "VIP")]))) pricing_page)
     else (Ok tt, say No_plans_to_apply
                    (site (Some (Some (JObj [("plans", JStr "VIP")]))) pricing_page))).
Proof.
  apply (plans_must_be_a_list (run_with 1)
           (site (Some (Some (JObj [("plans", JStr "VIP")]))) pricing_page)
           (changes_file (Some (JObj [("plans", JStr "VIP")]))) [("plans", JStr "VIP")]
           (JStr "VIP")).
  - vm_compute. reflexivity.
  - reflexivity.
  - reflexivity.
  - intros items. discriminate.
Defined.

(* ===================================================================== *)
(** * The numeral of the price, written and read back *)
(* ===================================================================== *)

Lemma uint_chars_digits d :
  Forall (λ c, is_digit c = true) (list_ascii_of_string (NilEmpty.string_of_uint d)).
Proof. induction d; simpl; constructor; (reflexivity || assumption). Qed.

Lemma digits_value_uint d acc :
  digits_value true acc (list_ascii_of_string (NilEmpty.string_of_uint d))
  = Some (acc * 10 ^ Z.of_N (DecimalPos.Unsigned.usize d)
          + Z.of_N (DecimalPos.Unsigned.of_lu (Decimal.rev d))).
Proof.
  revert acc. induction d; intros acc;
    [simpl; f_equal; lia|..];
    cbn [NilEmpty.string_of_uint list_ascii_of_string digits_value is_digit
           N_of_ascii N.leb N.compare Pos.compare Pos.compare_cont andb];
    rewrite IHd; f_equal;
    match goal with
    | |- context [Decimal.rev (?c d)] =>
        change (Decimal.rev (c d)) with (Decimal.revapp d (c Decimal.Nil));
        rewrite (DecimalPos.Unsigned.of_lu_revapp d (c Decimal.Nil))
    end;
    cbn [DecimalPos.Unsigned.usize];
    rewrite N2Z.inj_add, N2Z.inj_mul, N2Z.inj_pow, N2Z.inj_succ, Z.pow_succ_r by lia;
    unfold digit_val;
    match goal with
    | |- context [Z.of_N (N_of_ascii ?a)] =>
        let v := eval vm_compute in (Z.of_N (N_of_ascii a)) in
        change (Z.of_N (N_of_ascii a)) with v
    end;
    match goal with
    | |- context [Z.of_N (DecimalPos.Unsigned.of_lu (?c Decimal.Nil))] =>
        let v := eval vm_compute in (Z.of_N (DecimalPos.Unsigned.of_lu (c Decimal.Nil))) in
        change (Z.of_N (DecimalPos.Unsigned.of_lu (c Decimal.Nil))) with v
    end;
    change (Z.of_N 10) with 10; ring.
Qed.

Lemma digit_is_no_space c : is_digit c = true → is_space c = false.
Proof. destruct c as [[] [] [] [] [] [] [] []]; intros H; try discriminate H; reflexivity. Qed.

Lemma lstrip_digit_first c cs : is_space c = false → lstrip (c :: cs) = c :: cs.
Proof. intros H. simpl. rewrite H. reflexivity. Qed.

Lemma lstrip_digits cs : Forall (λ c, is_digit c = true) cs → lstrip cs = cs.
Proof.
  destruct 1 as [|c cs Hc _]; [reflexivity|].
  apply lstrip_digit_first, digit_is_no_space, Hc.
Qed.

Lemma strip_digits cs : Forall (λ c, is_digit c = true) cs → strip cs = cs.
Proof.
  intros H. unfold strip. rewrite (lstrip_digits cs H).
  rewrite lstrip_digits by (apply Forall_rev, H). apply rev_involutive.
Qed.

Lemma strip_minus_digits cs :
  cs ≠ [] → Forall (λ c, is_digit c = true) cs → strip ("-"%char :: cs) = "-"%char :: cs.
Proof.
  intros Hne H. unfold strip. rewrite lstrip_digit_first by reflexivity.
  assert (lstrip (rev ("-"%char :: cs)) = rev ("-"%char :: cs)) as ->; [|apply rev_involutive].
  simpl rev. assert (Forall (λ c, is_digit c = true) (rev cs)) as Hrev by (apply Forall_rev, H).
  destruct (rev cs) as [|c r] eqn:E.
  - exfalso. apply Hne. apply (f_equal (@rev ascii)) in E. rewrite rev_involutive in E. exact E.
  - apply Forall_cons in Hrev as [Hc _]. simpl app.
    apply lstrip_digit_first, digit_is_no_space, Hc.
Qed.

(** A numeral without sign, blanks or underscores is read digit by
    digit. *)
Lemma int_of_text_digits cs :
  Forall (λ c, is_digit c = true) cs →
  int_of_text (string_of_list_ascii cs) = digits_value false 0 cs.
Proof.
  intros H. unfold int_of_text. rewrite list_ascii_of_string_of_list_ascii, strip_digits by exact H.
  destruct H as [|c cs Hc _]; [reflexivity|].
  destruct c as [[] [] [] [] [] [] [] []]; try discriminate Hc; reflexivity.
Qed.

Lemma int_of_text_minus_digits cs :
  cs ≠ [] → Forall (λ c, is_digit c = true) cs →
  int_of_text (string_of_list_ascii ("-"%char :: cs)) = option_map Z.opp (digits_value false 0 cs).
Proof.
  intros Hne H. unfold int_of_text.
  rewrite list_ascii_of_string_of_list_ascii, strip_minus_digits by assumption. reflexivity.
Qed.

Lemma digits_value_first cs :
  cs ≠ [] → Forall (λ c, is_digit c = true) cs →
  digits_value false 0 cs = digits_value true 0 cs.
Proof.
  intros Hne H. destruct H as [|c cs Hc _]; [done|]. simpl. rewrite Hc. reflexivity.
Qed.

Lemma uint_chars_nonempty d :
  d ≠ Decimal.Nil → list_ascii_of_string (NilEmpty.string_of_uint d) ≠ [].
Proof. destruct d; [done|discriminate..]. Qed.

Lemma digits_value_of_uint d :
  d ≠ Decimal.Nil →
  digits_value false 0 (list_ascii_of_string (NilEmpty.string_of_uint d))
  = Some (Z.of_N (Pos.of_uint d)).
Proof.
  intros Hd. rewrite digits_value_first by (apply uint_chars_nonempty, Hd || apply uint_chars_digits).
  rewrite digits_value_uint, DecimalPos.Unsigned.of_uint_alt. reflexivity.
Qed.

Lemma positive_numeral p :
  NilZero.string_of_uint (Pos.to_uint p) = NilEmpty.string_of_uint (Pos.to_uint p).
Proof.
  pose proof (DecimalPos.Unsigned.to_uint_nonnil p) as H.
  destruct (Pos.to_uint p); [done|reflexivity..].
Qed.

(** [int(str(n))] is [n] (as with [int_of_text], the interpreter's limit
    on the number of digits of a conversion apart). *)
Lemma int_of_text_py_str n : int_of_text (py_str n) = Some n.
Proof.
  unfold py_str. destruct n as [|p|p]; [reflexivity|..]; simpl Z.to_int;
    cbn [NilZero.string_of_int]; rewrite positive_numeral;
    pose proof (DecimalPos.Unsigned.to_uint_nonnil p) as Hp.
  - rewrite <- (string_of_list_ascii_of_string (NilEmpty.string_of_uint _)).
    rewrite int_of_text_digits by apply uint_chars_digits.
    rewrite digits_value_of_uint by exact Hp.
    rewrite DecimalPos.Unsigned.of_to. reflexivity.
  - rewrite <- (string_of_list_ascii_of_string (NilEmpty.string_of_uint _)).
    change (String "-" (string_of_list_ascii ?l)) with (string_of_list_ascii ("-"%char :: l)).
    rewrite int_of_text_minus_digits by (apply uint_chars_nonempty, Hp || apply uint_chars_digits).
    rewrite digits_value_of_uint by exact Hp.
    rewrite DecimalPos.Unsigned.of_to. reflexivity.
Qed.

Lemma py_str_nonempty n : String.eqb (py_str n) "" = false.
Proof.
  unfold py_str. destruct n as [|p|p]; [reflexivity| |reflexivity].
  simpl Z.to_int. cbn [NilZero.string_of_int]. rewrite positive_numeral.
  pose proof (DecimalPos.Unsigned.to_uint_nonnil p) as Hp.
  destruct (Pos.to_uint p); [done|reflexivity..].
Qed.

Lemma uint_chars_length d :
  Z.of_nat (String.length (NilEmpty.string_of_uint d)) = Z.of_N (DecimalPos.Unsigned.usize d).
Proof.
  induction d; cbn [NilEmpty.string_of_uint String.length DecimalPos.Unsigned.usize];
    [reflexivity|rewrite Nat2Z.inj_succ, IHd; lia..].
Qed.

(** A numeral that begins with a digit other than 0 is at least the
    power of ten of its other digits. *)
Lemma uint_value_lower d :
  d ≠ Decimal.Nil → d ≠ Decimal.D0 Decimal.Nil → Decimal.unorm d = d →
  10 ^ (Z.of_nat (String.length (NilEmpty.string_of_uint d)) - 1) ≤ Z.of_N (Pos.of_uint d).
Proof.
  intros Hnil Hzero Hnorm.
  pose proof (digits_value_of_uint d Hnil) as Hv.
  remember (Z.of_N (Pos.of_uint d)) as v eqn:Ev. clear Ev.
  destruct d as [|d'|d'|d'|d'|d'|d'|d'|d'|d'|d']; [done|..].
  { exfalso. change (Decimal.unorm (Decimal.D0 d')) with (Decimal.unorm d') in Hnorm.
    destruct d' as [|d'|d'|d'|d'|d'|d'|d'|d'|d'|d']; [done|..];
      match type of Hnorm with
      | Decimal.unorm ?u = _ =>
          pose proof (DecimalFacts.nb_digits_unorm u ltac:(discriminate)) as H;
          rewrite Hnorm in H; simpl in H; lia
      end. }
  all: cbn [NilEmpty.string_of_uint list_ascii_of_string digits_value is_digit
           N_of_ascii N.leb N.compare Pos.compare Pos.compare_cont andb] in Hv;
    rewrite digits_value_uint in Hv; injection Hv as <-;
    cbn [NilEmpty.string_of_uint String.length]; rewrite Nat2Z.inj_succ, uint_chars_length;
    replace (Z.succ (Z.of_N (DecimalPos.Unsigned.usize d')) - 1)
      with (Z.of_N (DecimalPos.Unsigned.usize d')) by lia;
    pose proof (Z.pow_pos_nonneg 10 (Z.of_N (DecimalPos.Unsigned.usize d')) ltac:(lia) ltac:(lia));
    pose proof (N2Z.is_nonneg (DecimalPos.Unsigned.of_lu (Decimal.rev d')));
    unfold digit_val;
    match goal with
    | |- context [Z.of_N (N_of_ascii ?a)] =>
        let v := eval vm_compute in (Z.of_N (N_of_ascii a)) in
        change (Z.of_N (N_of_ascii a)) with v
    end; nia.
Qed.

Lemma to_uint_normal p : Decimal.unorm (Pos.to_uint p) = Pos.to_uint p.
Proof.
  rewrite <- (DecimalPos.Unsigned.to_of (Pos.to_uint p)), DecimalPos.Unsigned.of_to. reflexivity.
Qed.

(** The numeral of a number below 10^k has k digits at most. *)
Lemma py_str_abs_length n k :
  0 < k → Z.abs n < 10 ^ k → Z.of_nat (String.length (py_str (Z.abs n))) ≤ k.
Proof.
  intros Hk Hn. unfold py_str.
  assert (∀ p, Z.pos p < 10 ^ k →
               Z.of_nat (String.length (NilZero.string_of_int (Z.to_int (Z.pos p)))) ≤ k) as Hpos.
  { intros p Hp. simpl Z.to_int. cbn [NilZero.string_of_int]. rewrite positive_numeral.
    pose proof (uint_value_lower (Pos.to_uint p) (DecimalPos.Unsigned.to_uint_nonnil p)
                  (DecimalPos.Unsigned.to_uint_nonzero p) (to_uint_normal p)) as H.
    rewrite DecimalPos.Unsigned.of_to in H. simpl Z.of_N in H.
    set (len := Z.of_nat _) in *.
    destruct (Z_lt_le_dec (len - 1) k) as [?|Hle]; [lia|].
    pose proof (Z.pow_le_mono_r 10 k (len - 1) ltac:(lia) Hle). lia. }
  destruct n as [|p|p]; [simpl; lia|apply Hpos, Hn..].
Qed.

(** X9.  For a price of at most 4300 digits, the most [int] reads
    from a text, the data-monthly attribute of the price span is
    [str(monthly)], and [int] reads that text back as [monthly]; so such
    a price that the change-set gives as the decimal text of an integer
    is used as that integer.  The prices meant are those below 10^4300
    in absolute value: their numerals have 4300 digits at most. *)
Theorem data_monthly_reads_back key name monthly :
  Z.abs monthly < 10 ^ 4300 →
  Z.of_nat (String.length (py_str (Z.abs monthly))) ≤ 4300
  ∧ (price_span (make_header_th key name monthly) ≫= attr "data-monthly") = Some (py_str monthly)
  ∧ int_of_text (py_str monthly) = Some monthly
  ∧ ∀ fields, lookup_key "monthly" fields = Some (JStr (py_str monthly)) →
              plan_monthly fields = inr monthly.
Proof.
  intros Hsize. split; [apply py_str_abs_length; [lia|exact Hsize]|].
  split; [reflexivity|]. split; [apply int_of_text_py_str|].
  intros fields Hm. unfold plan_monthly, dict_get, py_or. rewrite Hm.
  cbn [truthy]. rewrite !py_str_nonempty. cbn [negb]. cbn [truthy]. rewrite ?py_str_nonempty.
  cbn [negb py_int]. rewrite int_of_text_py_str. reflexivity.
Qed.

Lemma data_monthly_reads_back_witness :
  Z.abs 15999 < 10 ^ 4300
  ∧ plan_monthly [("name", JStr "VIP"); ("monthly", JStr (py_str 15999))] = inr 15999.
Proof.
  assert (Z.abs 15999 < 10 ^ 4300) as H by (vm_compute; reflexivity).
  split; [exact H|].
  apply (proj2 (proj2 (proj2 (data_monthly_reads_back (secret_of_seed 1) "VIP" 15999 H)))
           [("name", JStr "VIP"); ("monthly", JStr (py_str 15999))]).
  reflexivity.
Defined.

Lemma string_app_empty_r s : s +:+ "" = s.
Proof.
  induction s as [|c s IH]; [reflexivity|].
  change (String c (s +:+ "") = String c s). rewrite IH. reflexivity.
Qed.

Lemma string_app_assoc s1 s2 s3 : (s1 +:+ s2) +:+ s3 = s1 +:+ s2 +:+ s3.
Proof.
  induction s1 as [|c s1 IH]; [reflexivity|].
  change (String c ((s1 +:+ s2) +:+ s3) = String c (s1 +:+ s2 +:+ s3)). rewrite IH. reflexivity.
Qed.

(** X10.  For every price the text of the price span is the prefix
    followed by the grouped numeral of the price: without its commas the
    numeral is [str(monthly)], which [int] reads back as the price; a
    negative price has its sign before the digits; and the digits stand
    in groups of three from the right. *)
Theorem price_text_is_grouped_numeral key name monthly :
  header_price (make_header_th key name monthly)
  = Some (price_prefix +:+ py_format_comma monthly)
  ∧ ungroup (py_format_comma monthly) = py_str monthly
  ∧ int_of_text (ungroup (py_format_comma monthly)) = Some monthly
  ∧ py_format_comma monthly
    = (if monthly <? 0 then "-" else "") +:+ py_format_comma (Z.abs monthly)
  ∧ thousands_grouped (py_format_comma (Z.abs monthly)) = true.
Proof.
  destruct (py_format_comma_grouping monthly) as (Hu & Hs & Hg).
  split; [|split; [exact Hu|split; [|split; assumption]]].
  - unfold header_price, price_span, make_header_th, price_text. simpl.
    rewrite string_app_empty_r. reflexivity.
  - rewrite Hu. apply int_of_text_py_str.
Qed.

(* ===================================================================== *)
(** * What a plan leaves of the page *)
(* ===================================================================== *)

Lemma grows_mono (P Q : node → Prop) n n' :
  (∀ c, P c → Q c) → grows P n n' → grows Q n n'.
Proof.
  intros HPQ. revert n'. induction n as [s|t a cs IH] using node_induction; intros n' Hg.
  - inversion Hg. constructor.
  - inversion Hg as [|? ? ? cs' extra H1 H2 H3]; subst.
    constructor; [|eapply Forall_impl; [exact H2|exact HPQ]|exact H3].
    clear Hg H2 H3. revert cs' H1.
    induction IH as [|c cs Hc _ IHcs]; intros cs' H1; inversion H1; subst; constructor; auto.
Qed.

(** Growth by cells that hold no row, followed by a further growth. *)
Lemma grows_compose (P Q : node → Prop) n1 n2 n3 :
  (∀ c, P c → find_all_in "tr" c = []) →
  grows P n1 n2 → grows Q n2 n3 → grows (λ c, P c ∨ Q c) n1 n3.
Proof.
  intros HP. revert n2 n3.
  induction n1 as [s|t a cs IH] using node_induction; intros n2 n3 H12 H23.
  - inversion H12; subst. inversion H23; subst. constructor.
  - inversion H12 as [|? ? ? cs' extra H1 H2 H3]; subst.
    inversion H23 as [|? ? ? cs2 extra2 G1 G2 G3]; subst.
    apply Forall2_app_inv_l in G1 as (k1 & k2 & Gk1 & Gk2 & ->).
    assert (k2 = extra) as ->.
    { clear -HP H2 Gk2. revert k2 Gk2.
      induction H2 as [|c extra Hc _ IHe]; intros k2 Gk2; inversion Gk2; subst; [reflexivity|].
      f_equal; [eapply grows_without_rows; [apply HP, Hc|eassumption]|apply IHe; assumption]. }
    rewrite <- app_assoc. constructor.
    + clear -IH H1 Gk1. revert cs' k1 H1 Gk1.
      induction IH as [|c cs Hc _ IHcs]; intros cs' k1 H1 Gk1;
        inversion H1; subst; inversion Gk1; subst; constructor; eauto.
    + apply Forall_app. split; (eapply Forall_impl; [eassumption|]); simpl; auto.
    + destruct H3 as [->|?]; [|right; assumption].
      destruct G3 as [->|?]; [left; reflexivity|right; assumption].
Qed.

Lemma grows_compose_list (P Q : node → Prop) l1 l2 l3 :
  (∀ c, P c → find_all_in "tr" c = []) →
  Forall2 (grows P) l1 l2 → Forall2 (grows Q) l2 l3 →
  Forall2 (grows (λ c, P c ∨ Q c)) l1 l3.
Proof.
  intros HP H12. revert l3. induction H12 as [|n1 n2 l1 l2 Hn _ IH]; intros l3 H23;
    inversion H23; subst; constructor; [eapply grows_compose; eassumption|apply IH; assumption].
Qed.

Lemma plain_header_without_rows th c : plain_header th → th = c → find_all_in "tr" c = [].
Proof.
  intros Hth <-. apply find_in_none_find_all, (plain_header_free th "tr" th Hth); [set_solver|done].
Qed.

(** The page a plan produces is the page it was given, grown by the
    header cell and the body cells. *)
Lemma patch_soup_grows th soup soup' :
  plain_header th →
  result_soup (patch_soup th soup) = Some soup' →
  Forall2 (grows (λ c, th = c ∨ is_new_td c)) soup soup'.
Proof.
  intros Hth. unfold patch_soup, patch_body.
  destruct (find "thead" soup) as [thead|]; [|discriminate].
  destruct (find "tr" (contents_of thead)) as [row|]; [|discriminate].
  assert (Forall2 (grows (eq th)) soup (patch_head th soup)) as Hg1
    by (apply modify_first_grows; intros m _; apply patch_thead_grows).
  destruct (find "tbody" (patch_head th soup)) as [tbody|]; simpl; intros [= <-].
  - eapply grows_compose_list; [intros c; apply plain_header_without_rows, Hth|exact Hg1|].
    apply modify_first_grows. intros m _. apply patch_tbody_grows.
  - clear -Hg1. induction Hg1; constructor; [|assumption].
    eapply grows_mono; [|eassumption]. simpl. auto.
Qed.

Lemma new_td_without_rows c : is_new_td c → find_all_in "tr" c = [].
Proof. intros [-> | ->]; reflexivity. Qed.

(** X12.  In memory a plan removes, changes and reorders nothing.  On
    a page with a head row the tree the script hands to [str] is the
    tree it parsed in which rows have received further last children,
    each of them the header cell of the plan or one of the two body
    cells; it has as many rows as the tree parsed.  (The text written
    from that tree, and what reading it back gives, are not spoken
    of.) *)
Theorem page_only_grows key name monthly soup row :
  head_row soup = Some row →
  ∃ soup',
    result_soup (patch_soup (make_header_th key name monthly) soup) = Some soup'
    ∧ Forall2 (grows (λ c, make_header_th key name monthly = c ∨ is_new_td c)) soup soup'
    ∧ length (find_all "tr" soup') = length (find_all "tr" soup).
Proof.
  intros Hrow.
  pose proof (make_header_th_plain key name monthly) as Hth.
  assert (∃ soup', result_soup (patch_soup (make_header_th key name monthly) soup) = Some soup')
    as (soup' & Hres).
  { destruct (patch_soup_spec _ _ _ Hth Hrow) as (s & _ & _ & _ & Hbody).
    exists s. destruct (body_rows soup); destruct Hbody as (-> & _); reflexivity. }
  assert (Forall2 (grows (λ c, make_header_th key name monthly = c ∨ is_new_td c)) soup soup')
    as Hg by (apply patch_soup_grows; assumption).
  exists soup'. split; [exact Hres|]. split; [exact Hg|].
  symmetry. eapply Forall2_length.
  rewrite <- (app_nil_r soup'). eapply grows_find_all; [|exact Hg|constructor].
  intros c [Hc|Hc]; [eapply plain_header_without_rows; eassumption|apply new_td_without_rows, Hc].
Qed.

Lemma page_only_grows_witness :
  ∃ soup',
    result_soup (patch_soup (make_header_th (secret_of_seed 1) "VIP" 15999) pricing_page)
    = Some soup'
    ∧ Forall2 (grows (λ c, make_header_th (secret_of_seed 1) "VIP" 15999 = c ∨ is_new_td c))
              pricing_page soup'
    ∧ length (find_all "tr" soup') = length (find_all "tr" pricing_page).
Proof.
  apply (page_only_grows (secret_of_seed 1) "VIP" 15999 pricing_page
           (Tag "tr" [] [th_cell "Feature"; th_cell "Basic"; th_cell "Pro"])).
  reflexivity.
Defined.

(* ===================================================================== *)
(** * A change-set on one page, plan after plan *)
(* ===================================================================== *)

Lemma for_each_target_frame e name monthly t l w :
  t ∉ l →
  ∃ w', for_each (apply_to_target e (JStr name) monthly) l w = (Ok tt, w')
        ∧ files w' !! t = files w !! t.
Proof.
  revert w. induction l as [|t' l IH]; intros w Hnin.
  - exists w. split; reflexivity.
  - apply not_elem_of_cons in Hnin as [Hne Hnin].
    destruct (apply_to_target_other e name monthly t' t w) as (w1 & Hrun & Hfr); [congruence|].
    destruct (IH w1 Hnin) as (w' & Hrun' & Hfr').
    exists w'. rewrite for_each_cons, Hrun. split; [exact Hrun'|congruence].
Qed.

(** A property of the file of one target page that every application of
    a plan carries on holds after main. *)
Section PlansOnOnePage.
Variables (e : env) (t : string).
Hypothesis Ht : t ∈ TARGETS e.
Variable Q : list json → file → Prop.
Hypothesis Q_step : ∀ done fields name monthly w f,
  plan_name fields = JStr name → plan_monthly fields = inr monthly →
  files w !! t = Some f → Q done f →
  ∃ w' f', append_plan_to_file (secret e) t (JStr name) monthly w = (Ok tt, w')
           ∧ files w' !! t = Some f' ∧ Q (done ++ [JObj fields]) f'.

Lemma for_each_target_step done fields name monthly l w f :
  plan_name fields = JStr name → plan_monthly fields = inr monthly →
  NoDup l → t ∈ l → files w !! t = Some f → Q done f →
  ∃ w' f', for_each (apply_to_target e (JStr name) monthly) l w = (Ok tt, w')
           ∧ files w' !! t = Some f' ∧ Q (done ++ [JObj fields]) f'.
Proof.
  intros Hname Hmonthly. revert w.
  induction l as [|t' l IH]; intros w Hnd Hin Hf HQ; [inversion Hin|].
  apply NoDup_cons in Hnd as [Hnin Hnd]. rewrite for_each_cons.
  destruct (decide (t' = t)) as [->|Hne].
  - destruct (Q_step done fields name monthly w f Hname Hmonthly Hf HQ)
      as (w1 & f1 & Hrun & Hf1 & HQ1).
    unfold apply_to_target at 1. unfold mbind, M_bind, bind, read_file. rewrite Hf, Hrun.
    destruct (for_each_target_frame e name monthly t l w1 Hnin) as (w' & Hrun' & Hfr).
    exists w', f1. split; [exact Hrun'|]. split; [congruence|exact HQ1].
  - destruct (apply_to_target_other e name monthly t' t w Hne) as (w1 & -> & Hfr).
    apply IH; [assumption| |congruence|assumption].
    apply elem_of_cons in Hin as [?|?]; [congruence|assumption].
Qed.

Lemma apply_plan_step done p w f :
  is_plan_change p = true → files w !! t = Some f → Q done f →
  ∃ w' f', apply_plan e p w = (Ok tt, w') ∧ files w' !! t = Some f' ∧ Q (done ++ [p]) f'.
Proof.
  intros (fields & name & monthly & -> & Hname & Hmonthly)%is_plan_change_accepted Hf HQ.
  rewrite (apply_plan_accepted e fields monthly w Hmonthly), Hname.
  apply for_each_target_step with (f := f);
    [assumption|assumption|apply TARGETS_NoDup|assumption..].
Qed.

Lemma for_each_plan_steps done items w f :
  Forall (λ p, is_plan_change p = true) items → files w !! t = Some f → Q done f →
  ∃ w' f', for_each (apply_plan e) items w = (Ok tt, w')
           ∧ files w' !! t = Some f' ∧ Q (done ++ items) f'.
Proof.
  intros Hitems. revert done w f.
  induction Hitems as [|p items Hp _ IH]; intros done w f Hf HQ.
  - exists w, f. rewrite app_nil_r. done.
  - destruct (apply_plan_step done p w f Hp Hf HQ) as (w1 & f1 & Hrun & Hf1 & HQ1).
    destruct (IH _ w1 f1 Hf1 HQ1) as (w' & f' & Hrun' & Hf' & HQ').
    exists w', f'. rewrite for_each_cons, Hrun. rewrite <- app_assoc in HQ'. done.
Qed.

Lemma main_steps w pf fields items f :
  files w !! plan_file e = Some pf → json_view pf = Some (JObj fields) →
  lookup_key "plans" fields = Some (JArr items) →
  Forall (λ p, is_plan_change p = true) items →
  files w !! t = Some f → Q [] f →
  ∃ w' f', main e w = (Ok tt, w') ∧ files w' !! t = Some f' ∧ Q items f'.
Proof.
  intros Hpf Hj Hplans Hitems Hf HQ.
  unfold main. unfold mbind at 1, M_bind, bind.
  rewrite (load_changes_object e w pf fields Hpf Hj).
  unfold dict_get. rewrite Hplans.
  destruct (for_each_plan_steps [] items w f Hitems Hf HQ) as (w' & f' & Hrun & Hf' & HQ').
  destruct items as [|p items].
  - simpl in Hrun. injection Hrun as <-. simpl. run.
    eexists _, f'. split; [reflexivity|]. done.
  - cbn [truthy negb]. unfold mbind, M_bind, bind. rewrite Hrun.
    eexists _, f'. split; [reflexivity|]. done.
Qed.
End PlansOnOnePage.

(** ** The header cells, in the order of the plans *)

Lemma plan_name_nonempty fields name : plan_name fields = JStr name → String.eqb name "" = false.
Proof.
  unfold plan_name, py_or. destruct (truthy (dict_get "name" JNull fields)) eqn:E.
  - intros H. rewrite H in E. simpl in E. apply negb_true_iff in E. exact E.
  - intros [= <-]. reflexivity.
Qed.

Lemma reparse_tag_find_all_in nm n :
  find_all_in nm n = [] → find_all_in nm (reparse_tag n) = [].
Proof.
  intros Hno. destruct n as [s|t a cs]; [reflexivity|].
  pose proof (reparse_find_all_in nm (Tag t a cs)) as H.
  rewrite Hno, reparse_node_tag, find_all_cons in H. simpl in H.
  rewrite app_nil_r in H. exact H.
Qed.

(** A header cell without rows inside comes through a plan as it is
    written and read back. *)
Lemma header_cell_step c c' :
  (∃ c1, grows is_new_td c c1 ∧ c' = reparse_tag c1) →
  find_all_in "tr" c = [] → c' = reparse_tag c.
Proof. intros (c1 & Hg & ->) Hno. rewrite (grows_without_rows _ _ _ Hno Hg). reflexivity. Qed.

(** The attributes of the price span of a header cell stay what they
    are, whatever the cell holds, when the page is written and read and
    when a later plan is applied. *)
Lemma grows_attr P k n n' : grows P n n' → attr k n' = attr k n.
Proof. destruct 1; reflexivity. Qed.

Lemma reparse_span_attr k th :
  (price_span (reparse_tag th) ≫= attr k) = (price_span th ≫= attr k).
Proof.
  unfold price_span. rewrite reparse_tag_contents, reparse_find.
  destruct (find "span" (contents_of th)) as [span|]; [|reflexivity].
  simpl. apply reparse_tag_attr.
Qed.

Lemma span_attr_step k c c' :
  (∃ c1, grows is_new_td c c1 ∧ c' = reparse_tag c1) →
  (price_span c' ≫= attr k) = (price_span c ≫= attr k).
Proof.
  intros (c1 & Hg & ->). rewrite reparse_span_attr. unfold price_span.
  assert (∀ x, is_new_td x → find_in "span" x = None) as Hfree
    by (apply new_td_free; discriminate).
  destruct (grows_find_contents is_new_td "span" c c1 Hfree Hg) as [s s1 Hs|]; [|reflexivity].
  simpl. apply (grows_attr _ _ _ _ Hs).
Qed.

Lemma span_attrs_step k a b :
  Forall2 (λ c c', ∃ c1, grows is_new_td c c1 ∧ c' = reparse_tag c1) a b →
  map (λ c, price_span c ≫= attr k) b = map (λ c, price_span c ≫= attr k) a.
Proof.
  induction 1 as [|c c' a b Hc _ IH]; [reflexivity|].
  simpl. rewrite (span_attr_step k c c' Hc), IH. reflexivity.
Qed.

Lemma header_marks_of_new_cell key name monthly :
  header_id (reparse_tag (make_header_th key name monthly)) = Some (id_stamp key name monthly)
  ∧ header_data_monthly (reparse_tag (make_header_th key name monthly)) = Some (py_str monthly).
Proof.
  unfold header_id, header_data_monthly. rewrite !reparse_span_attr. split; reflexivity.
Qed.

Lemma plan_marks_accepted key fields name monthly :
  plan_name fields = JStr name → plan_monthly fields = inr monthly →
  plan_id key (JObj fields) = Some (id_stamp key name monthly)
  ∧ plan_data_monthly (JObj fields) = Some (py_str monthly).
Proof. intros Hn Hm. unfold plan_id, plan_data_monthly. rewrite Hn, Hm. split; reflexivity. Qed.

(** The head row of a target page after a run over plan records. *)
Lemma header_marks_after_plans e w pf fields items t f row :
  files w !! plan_file e = Some pf →
  json_view pf = Some (JObj fields) →
  lookup_key "plans" fields = Some (JArr items) →
  Forall (λ p, is_plan_change p = true) items →
  t ∈ TARGETS e →
  files w !! t = Some f →
  head_row (html_view f) = Some row →
  ∃ w' f' row' olds news,
    main e w = (Ok tt, w')
    ∧ files w' !! t = Some f'
    ∧ head_row (html_view f') = Some row'
    ∧ header_cells row' = olds ++ news
    ∧ length olds = length (header_cells row)
    ∧ map header_id news = map (plan_id (secret e)) items
    ∧ map header_data_monthly news = map plan_data_monthly items.
Proof.
  intros Hpf Hj Hplans Hitems Ht Hf Hrow.
  destruct (main_steps e t Ht
              (λ done f', ∃ row' olds news,
                 head_row (html_view f') = Some row'
                 ∧ header_cells row' = olds ++ news
                 ∧ length olds = length (header_cells row)
                 ∧ map header_id news = map (plan_id (secret e)) done
                 ∧ map header_data_monthly news = map plan_data_monthly done))
    with (w := w) (pf := pf) (fields := fields) (items := items) (f := f)
    as (w' & f' & Hrun & Hf' & row' & olds & news & H1 & H2 & H3 & H4 & H5); try assumption.
  - intros done fs name monthly w0 f0 Hname Hmonthly Hf0
      (row0 & olds & news & H1 & H2 & H3 & H4 & H5).
    destruct (append_plan_to_file_header (secret e) t name monthly w0 f0 row0 Hf0 H1)
      as (w1 & f1 & row1 & ths & Hrun & Hf1 & Hrow1 & Hcells & Hths).
    rewrite H2 in Hths. apply Forall2_app_inv_l in Hths as (a & b & Ha & Hb & ->).
    destruct (header_marks_of_new_cell (secret e) name monthly) as [Hid Hdm].
    destruct (plan_marks_accepted (secret e) fs name monthly Hname Hmonthly) as [Hpid Hpdm].
    exists w1, f1. split; [exact Hrun|]. split; [exact Hf1|].
    exists row1, a, (b ++ [reparse_tag (make_header_th (secret e) name monthly)]).
    split; [exact Hrow1|]. split; [rewrite Hcells, <- app_assoc; reflexivity|].
    split; [rewrite <- (Forall2_length _ _ _ Ha); exact H3|].
    rewrite !map_app. cbn [map]. rewrite Hid, Hdm, Hpid, Hpdm, <- H4, <- H5.
    split; f_equal.
    + apply (span_attrs_step "id" news b Hb).
    + apply (span_attrs_step "data-monthly" news b Hb).
  - exists row, (header_cells row), []. split; [exact Hrow|]. rewrite app_nil_r. done.
  - exists w', f', row', olds, news. done.
Qed.

(** X14.  After a run over a change-set of plan records the head row of
    a target page has the header cells it had, as many as before,
    followed by one cell per plan in the order of the change-set; the
    price span of the cell of a plan carries the identifier and the
    data-monthly attribute of the name and the price main reads off the
    record. *)
Theorem header_cells_follow_plans e w pf fields items t f row :
  files w !! plan_file e = Some pf →
  json_view pf = Some (JObj fields) →
  lookup_key "plans" fields = Some (JArr items) →
  Forall (λ p, is_plan_change p = true) items →
  t ∈ TARGETS e →
  files w !! t = Some f →
  head_row (html_view f) = Some row →
  ∃ w' f' row' olds news,
    main e w = (Ok tt, w')
    ∧ files w' !! t = Some f'
    ∧ head_row (html_view f') = Some row'
    ∧ header_cells row' = olds ++ news
    ∧ length olds = length (header_cells row)
    ∧ map header_id news = map (plan_id (secret e)) items
    ∧ map header_data_monthly news = map plan_data_monthly items.
Proof. apply header_marks_after_plans. Qed.

Lemma header_cells_follow_plans_witness :
  ∃ w' f' row' olds news,
    main (run_with 1) (site (Some (Some vip_changes)) plain_page) = (Ok tt, w')
    ∧ files w' !! "/site/Pricingai.html" = Some f'
    ∧ head_row (html_view f') = Some row'
    ∧ header_cells row' = olds ++ news
    ∧ length olds
      = length (header_cells (Tag "tr" [] [th_cell "Feature"; th_cell "Basic"; th_cell "Pro"]))
    ∧ map header_id news = map (plan_id (secret (run_with 1))) [vip_plan]
    ∧ map header_data_monthly news = map plan_data_monthly [vip_plan].
Proof.
  apply (header_cells_follow_plans (run_with 1) (site (Some (Some vip_changes)) plain_page)
           (changes_file (Some vip_changes)) [("plans", JArr [vip_plan])] [vip_plan]
           "/site/Pricingai.html" {| json_view := None; html_view := plain_page |}
           (Tag "tr" [] [th_cell "Feature"; th_cell "Basic"; th_cell "Pro"])).
  - vm_compute. reflexivity.
  - reflexivity.
  - reflexivity.
  - repeat constructor.
  - vm_compute. constructor.
  - vm_compute. reflexivity.
  - reflexivity.
Defined.

(** The run of the witness: the cell of the plan VIP at 15999 comes
    fourth, with its identifier and its price. *)
Example header_marks_of_vip_run :
  (files (snd (main (run_with 1) (site (Some (Some vip_changes)) plain_page)))
     !! "/site/Pricingai.html" ≫= λ f, head_row (html_view f))
  ≫= (λ row, Some (map header_id (header_cells row), map header_data_monthly (header_cells row)))
  = Some ([None; None; None; Some "price298425739"], [None; None; None; Some "15999"]).
Proof. vm_compute. reflexivity. Qed.

(* ===================================================================== *)
(** * A second run, and the identifiers of two runs *)
(* ===================================================================== *)

(** Two applications on one page: the head row ends with the cell of
    the first followed by the cell of the second, known by their
    identifiers. *)
Lemma append_twice_header_ids key1 key2 path name1 monthly1 name2 monthly2 w f row :
  files w !! path = Some f →
  head_row (html_view f) = Some row →
  ∃ w1 f1 w2 f2 row2 ths th1 th2,
    append_plan_to_file key1 path (JStr name1) monthly1 w = (Ok tt, w1)
    ∧ files w1 !! path = Some f1
    ∧ append_plan_to_file key2 path (JStr name2) monthly2 w1 = (Ok tt, w2)
    ∧ files w2 !! path = Some f2
    ∧ head_row (html_view f2) = Some row2
    ∧ header_cells row2 = ths ++ [th1; th2]
    ∧ header_id th1 = Some (id_stamp key1 name1 monthly1)
    ∧ header_id th2 = Some (id_stamp key2 name2 monthly2).
Proof.
  intros Hf Hrow.
  destruct (append_plan_to_file_header key1 path name1 monthly1 w f row Hf Hrow)
    as (w1 & f1 & row1 & ths1 & Hrun1 & Hf1 & Hrow1 & Hcells1 & _).
  destruct (append_plan_to_file_header key2 path name2 monthly2 w1 f1 row1 Hf1 Hrow1)
    as (w2 & f2 & row2 & ths2 & Hrun2 & Hf2 & Hrow2 & Hcells2 & Hths2).
  rewrite Hcells1 in Hths2.
  apply Forall2_app_inv_l in Hths2 as (ths & last1 & _ & Hlast & ->).
  inversion Hlast as [|? th1 ? rest Hth1 Hrest]; subst. inversion Hrest; subst.
  rewrite <- app_assoc in Hcells2.
  exists w1, f1, w2, f2, row2, ths, th1, (reparse_tag (make_header_th key2 name2 monthly2)).
  do 5 (split; [assumption|]). split; [exact Hcells2|]. split.
  - unfold header_id. rewrite (span_attr_step "id" _ _ Hth1).
    apply header_marks_of_new_cell.
  - apply header_marks_of_new_cell.
Qed.

(** C6.  The patcher is not idempotent.  On a page with a head row, a
    second application of the same plan (under the same or another hash
    secret) appends a further header cell to the head row and a further
    body cell to every row of the table body: the head row ends with a
    cell carrying the identifier of the first run followed by a cell
    carrying the identifier of the second, and the page after the second
    run differs from the page after the first. *)
Theorem second_run_appends_again key1 key2 path name monthly w f row :
  files w !! path = Some f →
  head_row (html_view f) = Some row →
  ∃ w1 f1 w2 f2 row2 ths th1 th2,
    append_plan_to_file key1 path (JStr name) monthly w = (Ok tt, w1)
    ∧ files w1 !! path = Some f1
    ∧ append_plan_to_file key2 path (JStr name) monthly w1 = (Ok tt, w2)
    ∧ files w2 !! path = Some f2
    ∧ head_cells (html_view f1) = Some (1 + cells "th" row)%nat
    ∧ head_cells (html_view f2) = Some (2 + cells "th" row)%nat
    ∧ body_cells (html_view f1) = map S <$> body_cells (html_view f)
    ∧ body_cells (html_view f2) = map S <$> body_cells (html_view f1)
    ∧ head_row (html_view f2) = Some row2
    ∧ header_cells row2 = ths ++ [th1; th2]
    ∧ header_id th1 = Some (id_stamp key1 name monthly)
    ∧ header_id th2 = Some (id_stamp key2 name monthly)
    ∧ f2 ≠ f1.
Proof.
  intros Hf Hrow.
  assert (page_has path (cells "th" row) (body_cells (html_view f)) w) as Hw.
  { exists f. unfold head_cells. rewrite Hrow. done. }
  destruct (append_plan_to_file_cells key1 path name monthly w _ _ Hw)
    as (w1 & Hrun1 & Hw1).
  destruct (append_plan_to_file_cells key2 path name monthly w1 _ _ Hw1)
    as (w2 & Hrun2 & f2 & Hf2 & Hh2 & Hb2).
  destruct Hw1 as (f1 & Hf1 & Hh1 & Hb1).
  destruct (append_twice_header_ids key1 key2 path name monthly name monthly w f row Hf Hrow)
    as (w1' & f1' & w2' & f2' & row2 & ths & th1 & th2
        & Hrun1' & Hf1' & Hrun2' & Hf2' & Hrow2 & Hcells & Hid1 & Hid2).
  assert (w1' = w1) as -> by congruence. assert (f1' = f1) as -> by congruence.
  assert (w2' = w2) as -> by congruence. assert (f2' = f2) as -> by congruence.
  exists w1, f1, w2, f2, row2, ths, th1, th2. do 6 (split; [assumption|]).
  split; [congruence|]. split; [congruence|]. do 4 (split; [assumption|]).
  intros ->. rewrite Hh1 in Hh2. injection Hh2. lia.
Qed.

Lemma second_run_appends_again_witness :
  ∃ w1 f1 w2 f2 row2 ths th1 th2,
    append_plan_to_file (secret_of_seed 1) "/site/Pricingai.html" (JStr "VIP") 15999
      (site None pricing_page) = (Ok tt, w1)
    ∧ files w1 !! "/site/Pricingai.html" = Some f1
    ∧ append_plan_to_file (secret_of_seed 1) "/site/Pricingai.html" (JStr "VIP") 15999 w1
      = (Ok tt, w2)
    ∧ files w2 !! "/site/Pricingai.html" = Some f2
    ∧ head_cells (html_view f1)
      = Some (1 + cells "th" (Tag "tr" [] [th_cell "Feature"; th_cell "Basic"; th_cell "Pro"]))%nat
    ∧ head_cells (html_view f2)
      = Some (2 + cells "th" (Tag "tr" [] [th_cell "Feature"; th_cell "Basic"; th_cell "Pro"]))%nat
    ∧ body_cells (html_view f1) = map S <$> body_cells pricing_page
    ∧ body_cells (html_view f2) = map S <$> body_cells (html_view f1)
    ∧ head_row (html_view f2) = Some row2
    ∧ header_cells row2 = ths ++ [th1; th2]
    ∧ header_id th1 = Some (id_stamp (secret_of_seed 1) "VIP" 15999)
    ∧ header_id th2 = Some (id_stamp (secret_of_seed 1) "VIP" 15999)
    ∧ f2 ≠ f1.
Proof.
  apply (second_run_appends_again (secret_of_seed 1) (secret_of_seed 1)
           "/site/Pricingai.html" "VIP" 15999 (site None pricing_page)
           {| json_view := None; html_view := pricing_page |}
           (Tag "tr" [] [th_cell "Feature"; th_cell "Basic"; th_cell "Pro"])).
  - vm_compute. reflexivity.
  - reflexivity.
Defined.

(** The scenario of C6 run twice under one secret: the head row ends
    with two header cells of the same identifier. *)
Example second_run_duplicates_the_cell :
  let w1 := snd (append_plan_to_file (secret_of_seed 1) "/site/Pricingai.html" (JStr "VIP") 15999
                   (site None pricing_page)) in
  let w2 := snd (append_plan_to_file (secret_of_seed 1) "/site/Pricingai.html" (JStr "VIP") 15999
                   w1) in
  (map header_id <$> (header_cells <$> (files w2 !! "/site/Pricingai.html"
                                          ≫= λ f, head_row (html_view f))))
  = Some [None; None; None; Some "price298425739"; Some "price298425739"].
Proof. vm_compute. reflexivity. Qed.

Lemma plan_id_of_plan_change key p :
  is_plan_change p = true →
  ∃ fields name monthly,
    p = JObj fields
    ∧ plan_name fields = JStr name
    ∧ plan_monthly fields = inr monthly
    ∧ plan_id key p = Some ("price" +:+ py_str (id_number key name monthly))
    ∧ id_number key name monthly = Z.abs (py_hash key (name +:+ py_str monthly)) mod 10 ^ 9
    ∧ 0 ≤ id_number key name monthly < 10 ^ 9.
Proof.
  intros (fields & name & monthly & -> & Hname & Hmonthly)%is_plan_change_accepted.
  exists fields, name, monthly. do 3 (split; [done|]).
  split; [apply (plan_marks_accepted key fields name monthly Hname Hmonthly)|].
  split; [reflexivity|apply id_number_range].
Qed.

(** C7, amended.  The identifier of the price span is a function of
    the hash secret, the plan name and the monthly price: the text
    "price" followed by the number, from 0 up to 10^9 - 1, that the
    hash of the name joined with the price leaves modulo 10^9.  So two
    runs of the script under one hash secret over the same plan
    records, on whatever pages, give the cells they append the same
    identifiers, plan by plan.  Under two secrets the identifiers may
    differ. *)
Theorem header_id_within_one_run e1 e2 items w1 pf1 fields1 t1 f1 row1 w2 pf2 fields2 t2 f2 row2 :
  secret e1 = secret e2 →
  Forall (λ p, is_plan_change p = true) items →
  files w1 !! plan_file e1 = Some pf1 →
  json_view pf1 = Some (JObj fields1) →
  lookup_key "plans" fields1 = Some (JArr items) →
  t1 ∈ TARGETS e1 →
  files w1 !! t1 = Some f1 →
  head_row (html_view f1) = Some row1 →
  files w2 !! plan_file e2 = Some pf2 →
  json_view pf2 = Some (JObj fields2) →
  lookup_key "plans" fields2 = Some (JArr items) →
  t2 ∈ TARGETS e2 →
  files w2 !! t2 = Some f2 →
  head_row (html_view f2) = Some row2 →
  ∃ w1' f1' row1' olds1 news1 w2' f2' row2' olds2 news2,
    main e1 w1 = (Ok tt, w1')
    ∧ files w1' !! t1 = Some f1'
    ∧ head_row (html_view f1') = Some row1'
    ∧ header_cells row1' = olds1 ++ news1
    ∧ length olds1 = length (header_cells row1)
    ∧ main e2 w2 = (Ok tt, w2')
    ∧ files w2' !! t2 = Some f2'
    ∧ head_row (html_view f2') = Some row2'
    ∧ header_cells row2' = olds2 ++ news2
    ∧ length olds2 = length (header_cells row2)
    ∧ map header_id news1 = map (plan_id (secret e1)) items
    ∧ map header_id news2 = map header_id news1
    ∧ Forall (λ p, ∃ fields name monthly,
                p = JObj fields
                ∧ plan_name fields = JStr name
                ∧ plan_monthly fields = inr monthly
                ∧ plan_id (secret e1) p
                  = Some ("price" +:+ py_str (id_number (secret e1) name monthly))
                ∧ id_number (secret e1) name monthly
                  = Z.abs (py_hash (secret e1) (name +:+ py_str monthly)) mod 10 ^ 9
                ∧ 0 ≤ id_number (secret e1) name monthly < 10 ^ 9) items.
Proof.
  intros Hkey Hitems Hpf1 Hj1 Hplans1 Ht1 Hf1 Hrow1 Hpf2 Hj2 Hplans2 Ht2 Hf2 Hrow2.
  destruct (header_marks_after_plans e1 w1 pf1 fields1 items t1 f1 row1
              Hpf1 Hj1 Hplans1 Hitems Ht1 Hf1 Hrow1)
    as (w1' & f1' & row1' & olds1 & news1 & Hrun1 & Hf1' & Hrow1' & Hcells1 & Hlen1 & Hids1 & _).
  destruct (header_marks_after_plans e2 w2 pf2 fields2 items t2 f2 row2
              Hpf2 Hj2 Hplans2 Hitems Ht2 Hf2 Hrow2)
    as (w2' & f2' & row2' & olds2 & news2 & Hrun2 & Hf2' & Hrow2' & Hcells2 & Hlen2 & Hids2 & _).
  exists w1', f1', row1', olds1, news1, w2', f2', row2', olds2, news2.
  do 10 (split; [assumption|]). split; [exact Hids1|].
  split; [rewrite Hids1, Hids2, Hkey; reflexivity|].
  eapply Forall_impl; [exact Hitems|]. intros p Hp. apply plan_id_of_plan_change, Hp.
Qed.

Lemma header_id_within_one_run_witness :
  ∃ w1' f1' row1' olds1 news1 w2' f2' row2' olds2 news2,
    main (run_with 1) (site (Some (Some vip_changes)) pricing_page) = (Ok tt, w1')
    ∧ files w1' !! "/site/Pricingai.html" = Some f1'
    ∧ head_row (html_view f1') = Some row1'
    ∧ header_cells row1' = olds1 ++ news1
    ∧ length olds1
      = length (header_cells (Tag "tr" [] [th_cell "Feature"; th_cell "Basic"; th_cell "Pro"]))
    ∧ main (run_with 1) (site (Some (Some vip_changes)) plain_page) = (Ok tt, w2')
    ∧ files w2' !! "/site/Pricingai.html" = Some f2'
    ∧ head_row (html_view f2') = Some row2'
    ∧ header_cells row2' = olds2 ++ news2
    ∧ length olds2
      = length (header_cells (Tag "tr" [] [th_cell "Feature"; th_cell "Basic"; th_cell "Pro"]))
    ∧ map header_id news1 = map (plan_id (secret (run_with 1))) [vip_plan]
    ∧ map header_id news2 = map header_id news1
    ∧ Forall (λ p, ∃ fields name monthly,
                p = JObj fields
                ∧ plan_name fields = JStr name
                ∧ plan_monthly fields = inr monthly
                ∧ plan_id (secret (run_with 1)) p
                  = Some ("price" +:+ py_str (id_number (secret (run_with 1)) name monthly))
                ∧ id_number (secret (run_with 1)) name monthly
                  = Z.abs (py_hash (secret (run_with 1)) (name +:+ py_str monthly)) mod 10 ^ 9
                ∧ 0 ≤ id_number (secret (run_with 1)) name monthly < 10 ^ 9) [vip_plan].
Proof.
  apply (header_id_within_one_run (run_with 1) (run_with 1) [vip_plan]
           (site (Some (Some vip_changes)) pricing_page)
           (changes_file (Some vip_changes)) [("plans", JArr [vip_plan])]
           "/site/Pricingai.html" {| json_view := None; html_view := pricing_page |}
           (Tag "tr" [] [th_cell "Feature"; th_cell "Basic"; th_cell "Pro"])
           (site (Some (Some vip_changes)) plain_page)
           (changes_file (Some vip_changes)) [("plans", JArr [vip_plan])]
           "/site/Pricingai.html" {| json_view := None; html_view := plain_page |}
           (Tag "tr" [] [th_cell "Feature"; th_cell "Basic"; th_cell "Pro"])).
  - reflexivity.
  - repeat constructor.
  - vm_compute. reflexivity.
  - reflexivity.
  - reflexivity.
  - vm_compute. constructor.
  - vm_compute. reflexivity.
  - reflexivity.
  - vm_compute. reflexivity.
  - reflexivity.
  - reflexivity.
  - vm_compute. do 2 constructor.
  - vm_compute. reflexivity.
  - reflexivity.
Defined.

(** ** The body cells of a row, plan after plan *)

Lemma find_all_nil_forall nm cs :
  find_all nm cs = [] → Forall (λ c, find_all_in nm c = []) cs.
Proof.
  induction cs as [|c cs IH]; [constructor|].
  rewrite find_all_cons. intros [H1 H2]%app_eq_nil. constructor; [exact H1|apply IH, H2].
Qed.

Lemma forall_find_all_nil nm cs :
  Forall (λ c, find_all_in nm c = []) cs → find_all nm cs = [].
Proof.
  induction 1 as [|c cs Hc _ IH]; [reflexivity|]. rewrite find_all_cons, Hc, IH. reflexivity.
Qed.

(** Where there is no row, the loop over the rows changes nothing. *)
Lemma patch_rows_in_without_rows n : find_all_in "tr" n = [] → patch_rows_in n = n.
Proof.
  induction n as [s|t a cs IH] using node_induction; [reflexivity|].
  rewrite find_all_in_tag. simpl. destruct (String.eqb t "tr"); [discriminate|].
  simpl. intros Hno%find_all_nil_forall. f_equal.
  induction IH as [|c cs Hc _ IHcs]; [reflexivity|].
  apply Forall_cons in Hno as [Hno1 Hno2]. simpl. rewrite Hc, IHcs by assumption. reflexivity.
Qed.

Lemma map_patch_rows_in_without_rows cs : find_all "tr" cs = [] → map patch_rows_in cs = cs.
Proof.
  intros Hno%find_all_nil_forall. induction Hno as [|c cs Hc _ IH]; [reflexivity|].
  simpl. rewrite (patch_rows_in_without_rows c Hc), IH. reflexivity.
Qed.

Lemma grows_list_without_rows P cs cs' :
  find_all "tr" cs = [] → Forall2 (grows P) cs cs' → cs' = cs.
Proof.
  intros Hno%find_all_nil_forall H. induction H as [|c c' cs cs' Hc _ IH]; [reflexivity|].
  apply Forall_cons in Hno as [Hno1 Hno2].
  rewrite (grows_without_rows P c c' Hno1 Hc), (IH Hno2). reflexivity.
Qed.

Lemma reparse_tag_has_attr k n : has_attr k (reparse_tag n) = has_attr k n.
Proof. destruct n; reflexivity. Qed.

Lemma new_td_is_td r : is_tag "td" (new_td r) = true.
Proof. unfold new_td. destruct (is_section_header r); reflexivity. Qed.

(** A row without rows inside, through one plan: it holds no row, it is
    of the kind it was, and its body cells are those it had, followed by
    the cell of its kind. *)
Lemma simple_row_step th r r1 :
  plain_header th → is_tag "tr" r = true → find_all "tr" (contents_of r) = [] →
  grows (eq th) r r1 →
  find_all "tr" (contents_of (reparse_tag (patch_rows_in r1))) = []
  ∧ is_section_header (reparse_tag (patch_rows_in r1)) = is_section_header r
  ∧ data_cells (reparse_tag (patch_rows_in r1))
    = map reparse_tag (data_cells r) ++ [reparse_tag (new_td r)].
Proof.
  intros Hth Hr Hno Hg.
  pose proof (row_patched_section_header th r r1 Hth Hg) as Hkind.
  assert (new_td r1 = new_td r) as Hnew by (unfold new_td; rewrite Hkind; reflexivity).
  destruct r as [s|t a cs]; [discriminate|].
  simpl in Hr. apply String.eqb_eq in Hr. subst t. simpl in Hno.
  inversion Hg as [|? ? ? cs' extra H1 H2 _]; subst.
  apply (grows_list_without_rows _ _ _ Hno) in H1. subst cs'.
  assert (Forall (λ c, find_all_in "tr" c = []) extra) as Hextra.
  { eapply Forall_impl; [exact H2|]. intros c. apply plain_header_without_rows, Hth. }
  assert (find_all "tr" (cs ++ extra) = []) as Hno'
    by (rewrite find_all_app, Hno, (forall_find_all_nil _ _ Hextra); reflexivity).
  assert (patch_rows_in (Tag "tr" a (cs ++ extra))
          = Tag "tr" a ((cs ++ extra) ++ [new_td (Tag "tr" a cs)])) as ->.
  { rewrite <- Hnew. simpl. rewrite (map_patch_rows_in_without_rows _ Hno'). reflexivity. }
  set (c := new_td (Tag "tr" a cs)).
  change (contents_of (reparse_tag (Tag "tr" a ((cs ++ extra) ++ [c]))))
    with (reparse ((cs ++ extra) ++ [c])).
  assert (find "td" extra = None) as Htd_extra.
  { apply first_some_none. eapply Forall_impl; [exact H2|].
    intros x. apply (plain_header_free th "td" x Hth). set_solver. }
  assert (List.filter (is_tag "td") extra = []) as Hfilter.
  { clear -H2 Hth. induction H2 as [|x extra Hx _ IH]; [reflexivity|].
    simpl. rewrite (plain_header_not_td th x Hth Hx). exact IH. }
  split; [|split].
  - rewrite reparse_find_all, find_all_app, Hno'. simpl. rewrite app_nil_r.
    rewrite (new_td_without_rows c (new_td_is_new _)). reflexivity.
  - unfold is_section_header.
    change (contents_of (reparse_tag (Tag "tr" a ((cs ++ extra) ++ [c]))))
      with (reparse ((cs ++ extra) ++ [c])).
    rewrite reparse_find, !find_app, Htd_extra. simpl contents_of.
    destruct (find "td" cs) as [td|] eqn:Etd; simpl; [apply reparse_tag_has_attr|].
    subst c. unfold new_td, is_section_header. simpl contents_of. rewrite Etd. reflexivity.
  - unfold data_cells.
    change (contents_of (reparse_tag (Tag "tr" a ((cs ++ extra) ++ [c]))))
      with (reparse ((cs ++ extra) ++ [c])).
    rewrite reparse_filter_tags_map, !List.filter_app, Hfilter, app_nil_r, map_app.
    subst c. cbn [List.filter map]. rewrite (new_td_is_td (Tag "tr" a cs)). reflexivity.
Qed.

(** The rows of the table body of the file after one application. *)
Lemma append_plan_to_file_simple_rows key path name monthly w f row rows :
  files w !! path = Some f →
  head_row (html_view f) = Some row →
  body_rows (html_view f) = Some rows →
  ∃ w' f' row' rows',
    append_plan_to_file key path (JStr name) monthly w = (Ok tt, w')
    ∧ files w' !! path = Some f'
    ∧ head_row (html_view f') = Some row'
    ∧ body_rows (html_view f') = Some rows'
    ∧ Forall2 (λ r r', find_all "tr" (contents_of r) = [] →
                 find_all "tr" (contents_of r') = []
                 ∧ is_section_header r' = is_section_header r
                 ∧ data_cells r' = map reparse_tag (data_cells r) ++ [reparse_tag (new_td r)])
              rows rows'.
Proof.
  intros Hf Hrow Hrows.
  pose proof (make_header_th_plain key name monthly) as Hth.
  destruct (append_plan_to_file_writes key path name monthly w f row Hf Hrow)
    as (soup' & w' & Hrun & Hfiles & Hpatch).
  destruct (patch_soup_spec _ _ _ Hth Hrow) as (s & row' & Hrow' & _ & Hbody).
  rewrite Hrows in Hbody. destruct Hbody as (Hp & rows1 & Hrows1 & Hpatched).
  assert (s = soup') as -> by (destruct Hpatch; congruence).
  exists w', (written soup'), (reparse_tag row'), (map reparse_tag rows1).
  split; [exact Hrun|]. split; [rewrite Hfiles; apply lookup_insert_eq|].
  split; [simpl; rewrite reparse_head_row, Hrow'; reflexivity|].
  split; [simpl; rewrite reparse_body_rows, Hrows1; reflexivity|].
  pose proof (body_rows_are_tags _ _ Hrows) as Htags.
  clear -Hth Htags Hpatched.
  induction Hpatched as [|r r1' rows rows1 (r1 & Hg & ->) _ IH]; [constructor|].
  apply Forall_cons in Htags as [Hr Htags]. simpl. constructor; [|apply IH, Htags].
  intros Hno. apply (simple_row_step _ r r1 Hth Hr Hno Hg).
Qed.

Lemma simple_rows_compose k rows0 rows rows' :
  Forall2 (λ r r', find_all "tr" (contents_of r) = [] →
             find_all "tr" (contents_of r') = []
             ∧ is_section_header r' = is_section_header r
             ∧ ∃ olds, data_cells r' = olds ++ replicate k (reparse_tag (new_td r))
                       ∧ map reparse_tag olds = map reparse_tag (data_cells r))
          rows0 rows →
  Forall2 (λ r r', find_all "tr" (contents_of r) = [] →
             find_all "tr" (contents_of r') = []
             ∧ is_section_header r' = is_section_header r
             ∧ data_cells r' = map reparse_tag (data_cells r) ++ [reparse_tag (new_td r)])
          rows rows' →
  Forall2 (λ r r', find_all "tr" (contents_of r) = [] →
             find_all "tr" (contents_of r') = []
             ∧ is_section_header r' = is_section_header r
             ∧ ∃ olds, data_cells r' = olds ++ replicate (S k) (reparse_tag (new_td r))
                       ∧ map reparse_tag olds = map reparse_tag (data_cells r))
          rows0 rows'.
Proof.
  intros H. revert rows'. induction H as [|r0 r rows0 rows Hr _ IH]; intros rows' H';
    inversion H' as [|? r' ? rows'' Hr' Hrest]; subst; constructor; [|apply IH, Hrest].
  intros Hno0. destruct (Hr Hno0) as (Hno & Hkind & olds & Hcells & Holds).
  destruct (Hr' Hno) as (Hno' & Hkind' & Hcells').
  split; [exact Hno'|]. split; [congruence|].
  assert (new_td r = new_td r0) as Hnew by (unfold new_td; rewrite Hkind; reflexivity).
  exists (map reparse_tag olds). split.
  - rewrite Hcells', Hcells, Hnew, map_app, replicate_S_end, app_assoc. do 2 f_equal.
    change (map reparse_tag (replicate k ?c)) with (reparse_tag <$> replicate k c).
    rewrite fmap_replicate, reparse_tag_idem. reflexivity.
  - rewrite <- Holds, map_map. apply map_ext. intros c. apply reparse_tag_idem.
Qed.

(** X15.  A row of the table body that has no row inside it keeps its
    kind through every plan, and after a run over N plan records its
    body cells are as many cells as it had followed by N copies of the
    cell of its kind: the filler for a separator row, the placeholder
    for any other. *)
Theorem simple_rows_after_plans e w pf fields items t f row rows :
  files w !! plan_file e = Some pf →
  json_view pf = Some (JObj fields) →
  lookup_key "plans" fields = Some (JArr items) →
  Forall (λ p, is_plan_change p = true) items →
  t ∈ TARGETS e →
  files w !! t = Some f →
  head_row (html_view f) = Some row →
  body_rows (html_view f) = Some rows →
  ∃ w' f' rows',
    main e w = (Ok tt, w')
    ∧ files w' !! t = Some f'
    ∧ body_rows (html_view f') = Some rows'
    ∧ Forall2 (λ r r', find_all "tr" (contents_of r) = [] →
                 is_section_header r' = is_section_header r
                 ∧ ∃ olds,
                     data_cells r' = olds ++ replicate (length items) (reparse_tag (new_td r))
                     ∧ length olds = length (data_cells r))
              rows rows'.
Proof.
  intros Hpf Hj Hplans Hitems Ht Hf Hrow Hrows.
  destruct (main_steps e t Ht
              (λ done f',
                 (∃ row', head_row (html_view f') = Some row')
                 ∧ ∃ rows',
                     body_rows (html_view f') = Some rows'
                     ∧ Forall2 (λ r r', find_all "tr" (contents_of r) = [] →
                                  find_all "tr" (contents_of r') = []
                                  ∧ is_section_header r' = is_section_header r
                                  ∧ ∃ olds,
                                      data_cells r'
                                      = olds ++ replicate (length done) (reparse_tag (new_td r))
                                      ∧ map reparse_tag olds = map reparse_tag (data_cells r))
                               rows rows'))
    with (w := w) (pf := pf) (fields := fields) (items := items) (f := f)
    as (w' & f' & Hrun & Hf' & _ & rows' & Hrows' & H); try assumption.
  - intros done fs name monthly w0 f0 _ _ Hf0 ((row0 & Hrow0) & rows0 & Hrows0 & H0).
    destruct (append_plan_to_file_simple_rows (secret e) t name monthly w0 f0 row0 rows0
                Hf0 Hrow0 Hrows0) as (w1 & f1 & row1 & rows1 & Hrun & Hf1 & Hrow1 & Hrows1 & H1).
    exists w1, f1. split; [exact Hrun|]. split; [exact Hf1|].
    split; [exists row1; exact Hrow1|]. exists rows1. split; [exact Hrows1|].
    rewrite length_app. simpl length. rewrite Nat.add_1_r.
    eapply simple_rows_compose; eassumption.
  - split; [exists row; exact Hrow|]. exists rows. split; [exact Hrows|].
    clear. induction rows as [|r rows IH]; constructor; [|exact IH].
    intros Hno. split; [exact Hno|]. split; [reflexivity|].
    exists (data_cells r). simpl. rewrite app_nil_r. done.
  - exists w', f', rows'. split; [exact Hrun|]. split; [exact Hf'|]. split; [exact Hrows'|].
    eapply Forall2_impl; [exact H|]. simpl. intros r r' Hr Hno.
    destruct (Hr Hno) as (_ & Hkind & olds & Hcells & Holds). split; [exact Hkind|].
    exists olds. split; [exact Hcells|].
    rewrite <- (length_map reparse_tag olds), Holds. apply length_map.
Qed.

Lemma simple_rows_after_plans_witness :
  ∃ w' f' rows',
    main (run_with 1) (site (Some (Some vip_changes)) pricing_page) = (Ok tt, w')
    ∧ files w' !! "/site/Pricingai.html" = Some f'
    ∧ body_rows (html_view f') = Some rows'
    ∧ Forall2 (λ r r', find_all "tr" (contents_of r) = [] →
                 is_section_header r' = is_section_header r
                 ∧ ∃ olds,
                     data_cells r' = olds ++ replicate (length [vip_plan]) (reparse_tag (new_td r))
                     ∧ length olds = length (data_cells r))
              [Tag "tr" [] [td_cell "Seats"; td_cell "1"; td_cell "5"];
               Tag "tr" [] [Tag "td" [("colspan", "3")] [Text "Add-ons"]]]
              rows'.
Proof.
  apply (simple_rows_after_plans (run_with 1) (site (Some (Some vip_changes)) pricing_page)
           (changes_file (Some vip_changes)) [("plans", JArr [vip_plan])] [vip_plan]
           "/site/Pricingai.html" {| json_view := None; html_view := pricing_page |}
           (Tag "tr" [] [th_cell "Feature"; th_cell "Basic"; th_cell "Pro"])
           [Tag "tr" [] [td_cell "Seats"; td_cell "1"; td_cell "5"];
            Tag "tr" [] [Tag "td" [("colspan", "3")] [Text "Add-ons"]]]).
  - vm_compute. reflexivity.
  - reflexivity.
  - reflexivity.
  - repeat constructor.
  - vm_compute. constructor.
  - vm_compute. reflexivity.
  - reflexivity.
  - reflexivity.
Defined.

(** Without the condition the kind may change.  In a row with a row
    inside it that comes before its first td, the first plan finds a
    separator and appends the filler; the row inside has received the
    placeholder, which the second plan finds first, and the row now
    receives the placeholder. *)
Example nested_row_changes_kind :
  let w1 := snd (append_plan_to_file (secret_of_seed 1) "/site/Pricingai.html" (JStr "VIP") 15999
                   (site None page_with_nested_row)) in
  let w2 := snd (append_plan_to_file (secret_of_seed 1) "/site/Pricingai.html" (JStr "Pro") 999
                   w1) in
  is_section_header row_with_nested_row = true
  ∧ (map data_cells <$> (files w2 !! "/site/Pricingai.html" ≫= λ f, body_rows (html_view f)))
    = Some [[Tag "td" [("colspan", "2")] [Text "Add-ons"]; reparse_tag filler_td; placeholder_td];
            [placeholder_td; placeholder_td]].
Proof. vm_compute. split; reflexivity. Qed.

(** ** Two plans whose name and price join to the same text *)

Lemma append_two_plans_header key path name1 monthly1 name2 monthly2 w f row :
  files w !! path = Some f →
  head_row (html_view f) = Some row →
  ∃ w1 w2 f2 row2 ths,
    append_plan_to_file key path (JStr name1) monthly1 w = (Ok tt, w1)
    ∧ append_plan_to_file key path (JStr name2) monthly2 w1 = (Ok tt, w2)
    ∧ files w2 !! path = Some f2
    ∧ head_row (html_view f2) = Some row2
    ∧ header_cells row2
      = ths ++ [reparse_tag (make_header_th key name1 monthly1);
                reparse_tag (make_header_th key name2 monthly2)].
Proof.
  intros Hf Hrow.
  destruct (append_plan_to_file_header key path name1 monthly1 w f row Hf Hrow)
    as (w1 & f1 & row1 & ths1 & Hrun1 & Hf1 & Hrow1 & Hcells1 & _).
  destruct (append_plan_to_file_header key path name2 monthly2 w1 f1 row1 Hf1 Hrow1)
    as (w2 & f2 & row2 & ths2 & Hrun2 & Hf2 & Hrow2 & Hcells2 & Hths2).
  pose proof (make_header_th_plain key name1 monthly1) as Hth1.
  assert (find_all_in "tr" (reparse_tag (make_header_th key name1 monthly1)) = []) as Hno.
  { apply reparse_tag_find_all_in. eapply plain_header_without_rows; [exact Hth1|reflexivity]. }
  pose proof (reparse_tag_idem (make_header_th key name1 monthly1)) as Hidem.
  set (c1 := reparse_tag (make_header_th key name1 monthly1)) in *. clearbody c1.
  rewrite Hcells1 in Hths2.
  apply Forall2_app_inv_l in Hths2 as (ths & last1 & _ & Hlast & ->).
  inversion Hlast as [|? c1' ? rest Hc Hrest]; subst. inversion Hrest; subst.
  rewrite (header_cell_step c1 c1' Hc Hno), Hidem, <- app_assoc in Hcells2.
  exists w1, w2, f2, row2, ths. done.
Qed.

(** X11.  The identifier depends on the name and the price only through
    the text they are joined to: two plans for which [name + str(monthly)]
    is the same text (Plan1 at 5 and Plan at 15) receive the same
    identifier in a run, and after both are applied the head row ends
    with two header cells whose price spans carry the same id. *)
Theorem joined_text_decides_identifier key name1 monthly1 name2 monthly2 path w f row :
  name1 +:+ py_str monthly1 = name2 +:+ py_str monthly2 →
  files w !! path = Some f →
  head_row (html_view f) = Some row →
  id_stamp key name1 monthly1 = id_stamp key name2 monthly2
  ∧ ∃ w1 w2 f2 row2 ths th1 th2,
      append_plan_to_file key path (JStr name1) monthly1 w = (Ok tt, w1)
      ∧ append_plan_to_file key path (JStr name2) monthly2 w1 = (Ok tt, w2)
      ∧ files w2 !! path = Some f2
      ∧ head_row (html_view f2) = Some row2
      ∧ header_cells row2 = ths ++ [th1; th2]
      ∧ header_id th1 = Some (id_stamp key name1 monthly1)
      ∧ header_id th2 = Some (id_stamp key name1 monthly1).
Proof.
  intros Hjoin Hf Hrow.
  assert (id_stamp key name1 monthly1 = id_stamp key name2 monthly2) as Hid
    by (unfold id_stamp, id_number; rewrite Hjoin; reflexivity).
  split; [exact Hid|].
  destruct (append_two_plans_header key path name1 monthly1 name2 monthly2 w f row Hf Hrow)
    as (w1 & w2 & f2 & row2 & ths & Hrun1 & Hrun2 & Hf2 & Hrow2 & Hcells).
  exists w1, w2, f2, row2, ths, (reparse_tag (make_header_th key name1 monthly1)),
    (reparse_tag (make_header_th key name2 monthly2)).
  do 5 (split; [assumption|]).
  rewrite !reparse_header_id. split; [reflexivity|]. rewrite Hid. reflexivity.
Qed.

Lemma joined_text_decides_identifier_witness :
  id_stamp (secret_of_seed 1) "Plan1" 5 = id_stamp (secret_of_seed 1) "Plan" 15
  ∧ ∃ w1 w2 f2 row2 ths th1 th2,
      append_plan_to_file (secret_of_seed 1) "/site/Pricingai.html" (JStr "Plan1") 5
        (site None pricing_page) = (Ok tt, w1)
      ∧ append_plan_to_file (secret_of_seed 1) "/site/Pricingai.html" (JStr "Plan") 15 w1
        = (Ok tt, w2)
      ∧ files w2 !! "/site/Pricingai.html" = Some f2
      ∧ head_row (html_view f2) = Some row2
      ∧ header_cells row2 = ths ++ [th1; th2]
      ∧ header_id th1 = Some (id_stamp (secret_of_seed 1) "Plan1" 5)
      ∧ header_id th2 = Some (id_stamp (secret_of_seed 1) "Plan1" 5).
Proof.
  apply (joined_text_decides_identifier (secret_of_seed 1) "Plan1" 5 "Plan" 15
           "/site/Pricingai.html" (site None pricing_page)
           {| json_view := None; html_view := pricing_page |}
           (Tag "tr" [] [th_cell "Feature"; th_cell "Basic"; th_cell "Pro"])).
  - reflexivity.
  - vm_compute. reflexivity.
  - reflexivity.
Defined.

(* ===================================================================== *)
(** * Counting the cells of the whole page *)
(* ===================================================================== *)

Lemma modify_in_none_find nm0 f n : modify_in nm0 f n = None → find_in nm0 n = None.
Proof.
  induction n as [s|t a cs IH] using node_induction; [reflexivity|].
  rewrite modify_in_tag, find_in_tag. destruct (String.eqb t nm0); [discriminate|].
  destruct (first_change (modify_in nm0 f) cs) as [cs'|] eqn:E; [discriminate|]. intros _.
  induction IH as [|c cs Hc _ IHcs]; [reflexivity|].
  rewrite first_change_cons in E. rewrite find_cons.
  destruct (modify_in nm0 f c); [discriminate|].
  destruct (first_change (modify_in nm0 f) cs); [discriminate|].
  rewrite (Hc eq_refl). apply IHcs. reflexivity.
Qed.

Section Counting.
Variable nm : string.

Lemma length_find_all_cons c cs :
  length (find_all nm (c :: cs)) = (length (find_all_in nm c) + length (find_all nm cs))%nat.
Proof. rewrite find_all_cons, length_app. reflexivity. Qed.

(** An update of the first tag named [nm0] adds to the tags named [nm]
    of the tree what it adds to those of the tag it lands on. *)
Lemma modify_in_count nm0 f k n :
  (∀ m, find_in nm0 n = Some m →
        length (find_all_in nm (f m)) = (length (find_all_in nm m) + k)%nat) →
  ∀ n', modify_in nm0 f n = Some n' →
        length (find_all_in nm n') = (length (find_all_in nm n) + k)%nat.
Proof.
  induction n as [s|t a cs IH] using node_induction; intros Hf n'; [discriminate|].
  rewrite modify_in_tag. rewrite find_in_tag in Hf.
  destruct (String.eqb t nm0); [intros [= <-]; apply Hf; reflexivity|].
  destruct (first_change (modify_in nm0 f) cs) as [cs'|] eqn:E; [|discriminate].
  intros [= <-].
  assert (length (find_all nm cs') = (length (find_all nm cs) + k)%nat) as Hcs.
  { clear -IH Hf E. revert cs' E Hf.
    induction IH as [|c cs Hc _ IHcs]; intros cs' E Hf; [discriminate|].
    rewrite first_change_cons in E. rewrite find_cons in Hf.
    destruct (modify_in nm0 f c) as [c'|] eqn:Ec.
    - injection E as <-. rewrite !length_find_all_cons.
      assert (length (find_all_in nm c') = (length (find_all_in nm c) + k)%nat) as ->; [|lia].
      apply Hc; [|reflexivity]. intros m Hm. apply Hf. rewrite Hm. reflexivity.
    - destruct (first_change (modify_in nm0 f) cs) as [cs''|] eqn:E'; [|discriminate].
      injection E as <-. rewrite !length_find_all_cons.
      rewrite (modify_in_none_find nm0 f c Ec) in Hf.
      rewrite (IHcs cs'' eq_refl Hf). lia. }
  rewrite !find_all_in_tag, !length_app, Hcs. destruct (String.eqb t nm); simpl; lia.
Qed.

Lemma modify_first_count nm0 f k cs m :
  find nm0 cs = Some m →
  length (find_all_in nm (f m)) = (length (find_all_in nm m) + k)%nat →
  length (find_all nm (modify_first nm0 f cs)) = (length (find_all nm cs) + k)%nat.
Proof.
  unfold modify_first. revert m.
  induction cs as [|c cs IH]; intros m Hm Hk; [discriminate|].
  rewrite first_change_cons. rewrite find_cons in Hm.
  destruct (modify_in nm0 f c) as [c'|] eqn:Ec.
  - rewrite !length_find_all_cons.
    assert (length (find_all_in nm c') = (length (find_all_in nm c) + k)%nat) as ->; [|lia].
    apply (modify_in_count nm0 f k c); [|exact Ec].
    intros m' Hm'. rewrite Hm' in Hm. injection Hm as <-. exact Hk.
  - rewrite (modify_in_none_find nm0 f c Ec) in Hm.
    specialize (IH m Hm Hk).
    destruct (first_change (modify_in nm0 f) cs) as [cs'|];
      rewrite !length_find_all_cons; rewrite ?length_find_all_cons in IH; lia.
Qed.
End Counting.

Lemma found_is_a_tag nm cs m : find nm cs = Some m → ∃ t a cs', m = Tag t a cs'.
Proof.
  intros H%find_is_tag. destruct m as [s|t a cs']; [discriminate|]. eauto.
Qed.

Lemma append_count nm th row :
  is_tag "tr" row = true →
  length (find_all_in nm (append th row))
  = (length (find_all_in nm row) + length (find_all_in nm th))%nat.
Proof.
  destruct row as [s|t a cs]; [discriminate|]. intros _. simpl append.
  rewrite !find_all_in_tag, find_all_app, !length_app. simpl. rewrite app_nil_r.
  destruct (String.eqb t nm); simpl; lia.
Qed.

Lemma patch_thead_count nm th thead row :
  is_tag "thead" thead = true →
  find "tr" (contents_of thead) = Some row →
  length (find_all_in nm (patch_thead th thead))
  = (length (find_all_in nm thead) + length (find_all_in nm th))%nat.
Proof.
  destruct thead as [s|t a cs]; [discriminate|]. intros _ Hrow. simpl in Hrow.
  unfold patch_thead. simpl with_contents. rewrite !find_all_in_tag, !length_app.
  rewrite (modify_first_count nm "tr" (append th) (length (find_all_in nm th)) cs row Hrow).
  - destruct (String.eqb t nm); simpl; lia.
  - apply append_count. eapply find_is_tag, Hrow.
Qed.

Lemma new_td_count nm r :
  length (find_all_in nm (new_td r)) = if String.eqb "td" nm then 1%nat else 0%nat.
Proof.
  unfold new_td. destruct (is_section_header r); unfold filler_td, placeholder_td;
    rewrite find_all_in_tag; destruct (String.eqb "td" nm); reflexivity.
Qed.

(** The loop over the rows adds one td for every row, and no other tag. *)
Lemma patch_rows_in_count nm n :
  length (find_all_in nm (patch_rows_in n))
  = (length (find_all_in nm n)
     + if String.eqb "td" nm then length (find_all_in "tr" n) else 0)%nat.
Proof.
  pose proof (new_td_count nm) as Hnew.
  set (b := String.eqb "td" nm) in *. clearbody b.
  induction n as [s|t a cs IH] using node_induction; [destruct b; reflexivity|].
  assert (length (find_all nm (map patch_rows_in cs))
          = (length (find_all nm cs) + if b then length (find_all "tr" cs) else 0)%nat) as Hcs.
  { induction IH as [|c cs Hc _ IHcs]; [destruct b; reflexivity|].
    cbn [map]. rewrite !length_find_all_cons, Hc, IHcs.
    destruct b; rewrite ?length_find_all_cons; lia. }
  specialize (Hnew (Tag t a cs)).
  cbn [patch_rows_in]. rewrite (find_all_in_tag "tr" t a cs).
  destruct (String.eqb t "tr") eqn:Et; rewrite !find_all_in_tag, ?find_all_app, !length_app;
    rewrite Hcs; cbn [find_all flat_map]; rewrite ?app_nil_r, ?Hnew;
    destruct (String.eqb t nm), b; cbn [length]; lia.
Qed.

Lemma patch_tbody_count nm tbody :
  is_tag "tbody" tbody = true →
  length (find_all_in nm (patch_tbody tbody))
  = (length (find_all_in nm tbody)
     + if String.eqb "td" nm then length (find_all "tr" (contents_of tbody)) else 0)%nat.
Proof.
  destruct tbody as [s|t a cs]; [discriminate|]. intros _.
  unfold patch_tbody. cbn [with_contents contents_of].
  rewrite !find_all_in_tag, !length_app.
  assert (length (find_all nm (map patch_rows_in cs))
          = (length (find_all nm cs)
             + if String.eqb "td" nm then length (find_all "tr" cs) else 0)%nat) as ->.
  { induction cs as [|c cs IH]; [destruct (String.eqb "td" nm); reflexivity|].
    cbn [map]. rewrite !length_find_all_cons, patch_rows_in_count, IH.
    destruct (String.eqb "td" nm); rewrite ?length_find_all_cons; lia. }
  destruct (String.eqb t nm); cbn [length]; lia.
Qed.

(** The tags of one name in the page a plan produces. *)
Lemma patch_soup_count nm th soup soup' :
  plain_header th →
  result_soup (patch_soup th soup) = Some soup' →
  length (find_all nm soup')
  = (length (find_all nm soup) + length (find_all_in nm th)
     + if String.eqb "td" nm
       then match body_rows soup with Some rows => length rows | None => 0 end
       else 0)%nat.
Proof.
  intros Hth. unfold patch_soup, patch_body.
  destruct (find "thead" soup) as [thead|] eqn:Ethead; [|discriminate].
  destruct (find "tr" (contents_of thead)) as [row|] eqn:Erow; [|discriminate].
  assert (length (find_all nm (patch_head th soup))
          = (length (find_all nm soup) + length (find_all_in nm th))%nat) as Hhead.
  { unfold patch_head. eapply modify_first_count; [exact Ethead|].
    eapply patch_thead_count; [eapply find_is_tag, Ethead|exact Erow]. }
  assert (Forall2 (grows (eq th)) soup (patch_head th soup)) as Hg1
    by (apply modify_first_grows; intros m _; apply patch_thead_grows).
  pose proof (grows_body_rows (eq th) soup (patch_head th soup)
                (λ c, plain_header_free th "tbody" c Hth ltac:(set_solver))
                (λ c, plain_header_free th "tr" c Hth ltac:(set_solver)) Hg1) as Hb.
  unfold body_rows in Hb at 2. unfold body_rows.
  destruct (find "tbody" (patch_head th soup)) as [tbody1|] eqn:Etbody1;
    cbn [result_soup]; intros [= <-].
  - rewrite (modify_first_count nm "tbody" patch_tbody
               (if String.eqb "td" nm then length (find_all "tr" (contents_of tbody1)) else 0)
               _ tbody1 Etbody1 (patch_tbody_count nm tbody1 (find_is_tag _ _ _ Etbody1))).
    rewrite Hhead. inversion Hb as [rows rows1 Hrows Heq1 Heq2|]; subst.
    unfold body_rows in Heq1. destruct (find "tbody" soup); [|discriminate].
    injection Heq1 as <-. rewrite (Forall2_length _ _ _ Hrows). reflexivity.
  - rewrite Hhead. inversion Hb as [|Heq1 Heq2].
    unfold body_rows in Heq1. destruct (find "tbody" soup); [discriminate|].
    destruct (String.eqb "td" nm); lia.
Qed.

(** X13.  In the whole page one application adds exactly one th,
    exactly as many td as there are rows below the first tbody (none on
    a page without tbody), and no row: a row outside the first tbody, as
    in a second tbody of the table, receives no cell. *)
Theorem cells_added_in_the_whole_page key path name monthly w f row :
  files w !! path = Some f →
  head_row (html_view f) = Some row →
  ∃ w' f',
    append_plan_to_file key path (JStr name) monthly w = (Ok tt, w')
    ∧ files w' !! path = Some f'
    ∧ length (find_all "th" (html_view f')) = S (length (find_all "th" (html_view f)))
    ∧ length (find_all "td" (html_view f'))
      = (length (find_all "td" (html_view f))
         + match body_rows (html_view f) with
           | Some rows => length rows
           | None => 0
           end)%nat
    ∧ length (find_all "tr" (html_view f')) = length (find_all "tr" (html_view f)).
Proof.
  intros Hf Hrow.
  pose proof (make_header_th_plain key name monthly) as Hth.
  destruct (append_plan_to_file_writes key path name monthly w f row Hf Hrow)
    as (soup' & w' & Hrun & Hfiles & Hpatch).
  assert (result_soup (patch_soup (make_header_th key name monthly) (html_view f)) = Some soup')
    as Hres by (destruct Hpatch as [-> | ->]; reflexivity).
  exists w', (written soup'). split; [exact Hrun|].
  split; [rewrite Hfiles; apply lookup_insert_eq|].
  simpl html_view. rewrite !reparse_find_all, !length_map.
  rewrite !(patch_soup_count _ _ _ _ Hth Hres).
  change (String.eqb "td" "th") with false. change (String.eqb "td" "td") with true.
  change (String.eqb "td" "tr") with false.
  change (find_all_in "th" (make_header_th key name monthly))
    with [make_header_th key name monthly].
  change (find_all_in "td" (make_header_th key name monthly)) with (@nil node).
  change (find_all_in "tr" (make_header_th key name monthly)) with (@nil node).
  cbn [length]. split; [lia|split; lia].
Qed.

Lemma cells_added_in_the_whole_page_witness :
  ∃ w' f',
    append_plan_to_file (secret_of_seed 1) "/site/Pricingai.html" (JStr "VIP") 15999
      (site None page_with_two_bodies) = (Ok tt, w')
    ∧ files w' !! "/site/Pricingai.html" = Some f'
    ∧ length (find_all "th" (html_view f')) = S (length (find_all "th" page_with_two_bodies))
    ∧ length (find_all "td" (html_view f'))
      = (length (find_all "td" page_with_two_bodies)
         + match body_rows page_with_two_bodies with
           | Some rows => length rows
           | None => 0
           end)%nat
    ∧ length (find_all "tr" (html_view f')) = length (find_all "tr" page_with_two_bodies).
Proof.
  apply (cells_added_in_the_whole_page (secret_of_seed 1) "/site/Pricingai.html" "VIP" 15999
           (site None page_with_two_bodies)
           {| json_view := None; html_view := page_with_two_bodies |}
           (Tag "tr" [] [th_cell "Feature"; th_cell "Basic"])).
  - vm_compute. reflexivity.
  - reflexivity.
Defined.

(** On the page with two table bodies the row of the second one keeps its
    two cells, while the head row and the row of the first have three. *)
Example second_table_body_is_skipped :
  (files (snd (append_plan_to_file (secret_of_seed 1) "/site/Pricingai.html" (JStr "VIP") 15999
                 (site None page_with_two_bodies)))
     !! "/site/Pricingai.html"
     ≫= λ f, Some (head_cells (html_view f), map (cells "td") (find_all "tr" (html_view f))))
  = Some (Some 3%nat, [0%nat; 3%nat; 2%nat]).
Proof. vm_compute. reflexivity. Qed.

(* ===================================================================== *)
(** * A page without a head row, through a whole run *)
(* ===================================================================== *)

(** X17.  A target page without a head row comes out of a run over
    plan records exactly as it went in. *)
Theorem headless_page_survives_run e w pf fields items t f :
  files w !! plan_file e = Some pf →
  json_view pf = Some (JObj fields) →
  lookup_key "plans" fields = Some (JArr items) →
  Forall (λ p, is_plan_change p = true) items →
  t ∈ TARGETS e →
  files w !! t = Some f →
  head_row (html_view f) = None →
  fst (main e w) = Ok tt ∧ files (snd (main e w)) !! t = Some f.
Proof.
  intros Hpf Hj Hplans Hitems Ht Hf Hrow.
  destruct (main_steps e t Ht (λ _ f', f' = f))
    with (w := w) (pf := pf) (fields := fields) (items := items) (f := f)
    as (w' & f' & Hrun & Hf' & ->); try assumption; [|reflexivity|rewrite Hrun; done].
  intros _ fs name monthly w0 f0 _ _ Hf0 ->.
  rewrite (append_plan_to_file_no_head_row (secret e) t (JStr name) monthly w0 f Hf0 Hrow).
  eexists _, f. split; [reflexivity|]. split; [exact Hf0|reflexivity].
Qed.

Lemma headless_page_survives_run_witness :
  fst (main (run_with 1) (site (Some (Some vip_changes)) page_without_thead)) = Ok tt
  ∧ files (snd (main (run_with 1) (site (Some (Some vip_changes)) page_without_thead)))
      !! "/site/Pricingai.html"
    = Some {| json_view := None; html_view := page_without_thead |}.
Proof.
  apply (headless_page_survives_run (run_with 1)
           (site (Some (Some vip_changes)) page_without_thead)
           (changes_file (Some vip_changes)) [("plans", JArr [vip_plan])] [vip_plan]
           "/site/Pricingai.html" {| json_view := None; html_view := page_without_thead |}).
  - vm_compute. reflexivity.
  - reflexivity.
  - reflexivity.
  - repeat constructor.
  - vm_compute. constructor.
  - vm_compute. reflexivity.
  - reflexivity.
Defined.

(* ===================================================================== *)
(** * The files a run reads *)
(* ===================================================================== *)

Lemma agree_on_say ts l w1 w2 : agree_on ts w1 w2 → agree_on ts (say l w1) (say l w2).
Proof. intros [Hc Hf]. split; [simpl; rewrite Hc; reflexivity|exact Hf]. Qed.

(** The patcher reads the page it is given and nothing else. *)
Lemma append_plan_to_file_agree ts key path name monthly w1 w2 :
  path ∈ ts → agree_on ts w1 w2 →
  fst (append_plan_to_file key path name monthly w1)
  = fst (append_plan_to_file key path name monthly w2)
  ∧ agree_on ts (snd (append_plan_to_file key path name monthly w1))
                (snd (append_plan_to_file key path name monthly w2)).
Proof.
  intros Hpath Hw. pose proof (proj2 Hw path Hpath) as Hf.
  pose proof (agree_on_say ts (Applying_plan name monthly path) w1 w2 Hw) as Hw'.
  unfold append_plan_to_file. run. rewrite Hf.
  destruct (files w2 !! path) as [f|]; [|split; [reflexivity|exact Hw']].
  destruct (find "thead" _) as [thead|]; [|split; [reflexivity|apply agree_on_say, Hw']].
  destruct (find "tr" _) as [row|]; [|split; [reflexivity|apply agree_on_say, Hw']].
  destruct name; try (split; [reflexivity|exact Hw']).
  destruct Hw as [Hc Hfs].
  destruct (patch_body _); run; (split; [reflexivity|]);
    (split; simpl; [rewrite Hc; reflexivity|]); intros t Ht;
    (destruct (decide (t = path)) as [->|Hne];
     [rewrite !lookup_insert_eq; reflexivity
     |rewrite !lookup_insert_ne by done; apply Hfs, Ht]).
Qed.

Lemma apply_to_target_agree ts e name monthly t w1 w2 :
  t ∈ ts → agree_on ts w1 w2 →
  fst (apply_to_target e name monthly t w1) = fst (apply_to_target e name monthly t w2)
  ∧ agree_on ts (snd (apply_to_target e name monthly t w1))
                (snd (apply_to_target e name monthly t w2)).
Proof.
  intros Ht Hw. pose proof (proj2 Hw t Ht) as Hf.
  unfold apply_to_target. run. rewrite Hf. destruct (files w2 !! t).
  - apply append_plan_to_file_agree; assumption.
  - split; [reflexivity|apply agree_on_say, Hw].
Qed.

Lemma for_each_agree {A} ts (body : A → M unit) l w1 w2 :
  (∀ x, x ∈ l → ∀ w1 w2, agree_on ts w1 w2 →
        fst (body x w1) = fst (body x w2) ∧ agree_on ts (snd (body x w1)) (snd (body x w2))) →
  agree_on ts w1 w2 →
  fst (for_each body l w1) = fst (for_each body l w2)
  ∧ agree_on ts (snd (for_each body l w1)) (snd (for_each body l w2)).
Proof.
  revert w1 w2. induction l as [|x l IH]; intros w1 w2 Hbody Hw; [split; [reflexivity|exact Hw]|].
  rewrite !for_each_cons.
  destruct (Hbody x ltac:(left) w1 w2 Hw) as [Hr Hw'].
  destruct (body x w1) as [r1 w1'], (body x w2) as [r2 w2']. simpl in Hr, Hw'. subst r2.
  destruct r1 as [[]|c|ex]; [|split; [reflexivity|exact Hw']..].
  apply IH; [|exact Hw']. intros y Hy. apply Hbody. right. exact Hy.
Qed.

Lemma apply_plan_agree ts e p w1 w2 :
  TARGETS e ⊆ ts → agree_on ts w1 w2 →
  fst (apply_plan e p w1) = fst (apply_plan e p w2)
  ∧ agree_on ts (snd (apply_plan e p w1)) (snd (apply_plan e p w2)).
Proof.
  intros Hts Hw. destruct p as [| | | | |fields]; try (split; [reflexivity|exact Hw]).
  unfold apply_plan. destruct (plan_monthly fields) as [ex|monthly];
    [split; [reflexivity|exact Hw]|].
  change (fst (for_each (apply_to_target e (plan_name fields) monthly) (TARGETS e) w1)
          = fst (for_each (apply_to_target e (plan_name fields) monthly) (TARGETS e) w2)
          ∧ agree_on ts
              (snd (for_each (apply_to_target e (plan_name fields) monthly) (TARGETS e) w1))
              (snd (for_each (apply_to_target e (plan_name fields) monthly) (TARGETS e) w2))).
  apply for_each_agree; [|exact Hw]. intros t Ht v1 v2 Hv.
  apply apply_to_target_agree; [apply Hts, Ht|exact Hv].
Qed.

Lemma load_changes_agree ts path w1 w2 :
  path ∈ ts → agree_on ts w1 w2 →
  fst (load_changes path w1) = fst (load_changes path w2)
  ∧ agree_on ts (snd (load_changes path w1)) (snd (load_changes path w2)).
Proof.
  intros Hpath Hw. pose proof (proj2 Hw path Hpath) as Hf.
  unfold load_changes. run. rewrite Hf.
  destruct (files w2 !! path) as [f|]; [|split; [reflexivity|apply agree_on_say, Hw]].
  destruct (json_view f) as [[]|]; split; (reflexivity || exact Hw).
Qed.

Lemma main_agree e w1 w2 :
  agree_on (plan_file e :: TARGETS e) w1 w2 →
  fst (main e w1) = fst (main e w2)
  ∧ agree_on (plan_file e :: TARGETS e) (snd (main e w1)) (snd (main e w2)).
Proof.
  intros Hw. unfold main, mbind, M_bind, bind.
  destruct (load_changes_agree (plan_file e :: TARGETS e) (plan_file e) w1 w2
              ltac:(left) Hw) as [Hr Hw'].
  destruct (load_changes (plan_file e) w1) as [r1 v1], (load_changes (plan_file e) w2) as [r2 v2].
  simpl in Hr, Hw'. subst r2.
  destruct r1 as [plans|c|ex]; [|split; [reflexivity|exact Hw']..].
  destruct (truthy plans); simpl; [|split; [reflexivity|apply agree_on_say, Hw']].
  destruct plans as [| | | |items|]; try (split; [reflexivity|exact Hw']).
  destruct (for_each_agree (plan_file e :: TARGETS e) (apply_plan e) items v1 v2) as [Hr Hv];
    [|exact Hw'|].
  { intros p _ u1 u2 Hu. apply apply_plan_agree; [|exact Hu]. intros t Ht. right. exact Ht. }
  destruct (for_each (apply_plan e) items v1) as [r1 u1],
           (for_each (apply_plan e) items v2) as [r2 u2].
  simpl in Hr, Hv. subst r2.
  destruct r1 as [[]|c|ex]; (split; [reflexivity|]); [apply agree_on_say, Hv|exact Hv..].
Qed.

(** X18.  A run reads no file but the change-set file and the three
    target pages: started in two worlds that hold the same files at
    these four paths and have printed the same lines, main ends in the
    same way, prints the same lines and leaves the same target pages,
    whatever else the two worlds hold. *)
Theorem main_reads_only_its_files e w1 w2 :
  console w1 = console w2 →
  (∀ t, t ∈ plan_file e :: TARGETS e → files w1 !! t = files w2 !! t) →
  fst (main e w1) = fst (main e w2)
  ∧ console (snd (main e w1)) = console (snd (main e w2))
  ∧ ∀ t, t ∈ TARGETS e → files (snd (main e w1)) !! t = files (snd (main e w2)) !! t.
Proof.
  intros Hc Hf. destruct (main_agree e w1 w2 (conj Hc Hf)) as (Hr & Hc' & Hf').
  split; [exact Hr|]. split; [exact Hc'|]. intros t Ht. apply Hf'. right. exact Ht.
Qed.

Lemma main_reads_only_its_files_witness :
  fst (main (run_with 1) (site (Some (Some vip_changes)) pricing_page))
  = fst (main (run_with 1) (with_note (site (Some (Some vip_changes)) pricing_page)))
  ∧ console (snd (main (run_with 1) (site (Some (Some vip_changes)) pricing_page)))
    = console (snd (main (run_with 1) (with_note (site (Some (Some vip_changes)) pricing_page))))
  ∧ ∀ t, t ∈ TARGETS (run_with 1) →
         files (snd (main (run_with 1) (site (Some (Some vip_changes)) pricing_page))) !! t
         = files (snd (main (run_with 1)
                         (with_note (site (Some (Some vip_changes)) pricing_page)))) !! t.
Proof.
  apply (main_reads_only_its_files (run_with 1) (site (Some (Some vip_changes)) pricing_page)
           (with_note (site (Some (Some vip_changes)) pricing_page))).
  - reflexivity.
  - intros t Ht. unfold TARGETS in Ht.
    repeat (apply elem_of_cons in Ht as [->|Ht]; [vm_compute; reflexivity|]). inversion Ht.
Defined.
